(** * IsolatedEthernet: a shallow embedding of src/IsolatedEthernet.h

    The library multiplexes TCP clients, a TCP server, UDP sockets, DHCP and
    DNS over the eight hardware sockets of a W5500.  The register-level
    driver and the WIZnet protocol code are outside the library: here they are
    an abstract chip, a state type with one step function that answers every
    driver request.  Every request the library makes is logged, so that
    statements such as "no hardware read is performed" can be written down. *)

From Stdlib Require Import ZArith List Bool Lia.
From coqutil Require Import Z.bitblast.
From stdpp Require Import base option gmap list strings.
Import ListNotations.
Local Open Scope Z_scope.

(** ** Machine integers

    The target is a 32-bit ARM: [int], [size_t], [unsigned long] and
    [system_tick_t] are 32 bits wide. *)

Definition to_uint8 (z : Z) : Z := z mod 256.
Definition to_uint16 (z : Z) : Z := z mod 65536.
Definition to_uint32 (z : Z) : Z := z mod 4294967296.
Definition to_int32 (z : Z) : Z :=
  let u := z mod 4294967296 in
  if u <? 2147483648 then u else u - 4294967296.

(** ** Constants of the driver headers *)

(** Modelled from the spec: the WIZnet header wizchip_conf.h / socket.h /
    w5500.h is not part of the sources; these are the values of its macros. *)
Definition SOCK_OK : Z := 1.
Definition SOCK_BUSY : Z := 0.
Definition SOCKERR_SOCKSTATUS : Z := -7.
Definition SOCK_CLOSED : Z := 0.
Definition SOCK_INIT : Z := 19.
Definition SOCK_LISTEN : Z := 20.
Definition SOCK_ESTABLISHED : Z := 23.
Definition SOCK_UDP : Z := 34.
Definition Sn_MR_TCP : Z := 1.
Definition Sn_MR_UDP : Z := 2.
Definition Sn_MR_MULTI : Z := 128.
Definition SOCK_IO_NONBLOCK : Z := 1.
Definition PHY_LINK_ON : Z := 1.

(** Modelled from the spec: TCPCLIENT_BUF_MAX_SIZE comes from a Device OS
    header that is not part of the sources; the spec and the documentation of
    [read] give the receive buffer 2048 bytes. *)
Definition TCPCLIENT_BUF_MAX_SIZE : Z := 2048.

(** Modelled from the spec: MAX_DNS_BUF_SIZE comes from dns.h, which is not
    part of the sources; the comment on [dnsBuffer] gives 512 bytes. *)
Definition MAX_DNS_BUF_SIZE : Z := 512.

Definition NUM_SOCKETS : nat := 8.

(** Modelled from the spec: socket_handle_valid belongs to the Device OS HAL;
    a handle is a socket number 0..7, or -1 when there is no socket. *)
Definition socket_handle_valid (s : Z) : bool := 0 <=? s.

(** ** Addresses *)

Record Ip4 := mkIp4 { b0 : Z; b1 : Z; b2 : Z; b3 : Z }.

Definition ip_zero : Ip4 := mkIp4 0 0 0 0.

Definition ip_of_bytes (l : list Z) : Ip4 :=
  mkIp4 (nth 0 l 0) (nth 1 l 0) (nth 2 l 0) (nth 3 l 0).

(** [ipAddr[0] != 0 || ipAddr[1] != 0 || ipAddr[2] != 0 || ipAddr[3] != 0] *)
Definition ip_nonzero (a : Ip4) : bool :=
  negb (b0 a =? 0) || negb (b1 a =? 0) || negb (b2 a =? 0) || negb (b3 a =? 0).

(** ** The chip and the platform

    One constructor per request the library sends to the driver, to the
    DHCP and DNS protocol code, or to the platform (clock, heap). *)

Inductive HwCall :=
| GetSockOptStatus (sn : Z)
| Socket (sn mode port flag : Z)
| Connect (sn : Z) (addr : Ip4) (port : Z)
| Listen (sn : Z)
| Disconnect (sn : Z)
| Close (sn : Z)
| Send (sn : Z) (data : list Z) (len : Z)
| Recv (sn : Z) (len : Z)
| RecvFrom (sn : Z) (len : Z)
| CtlSocketIoMode (sn : Z) (mode : Z)
| GetSn_RX_RSR (sn : Z)
| PhyLink
| SetNetInfo (ip sn gw dns : Ip4) (dhcp : bool)
| Millis
| Delay (ms : Z)
| DHCP_init (sn : Z)
| DHCP_run
| DHCP_stop
| DHCP_time_handler
| GetIPfromDHCP
| GetSNfromDHCP
| GetGWfromDHCP
| GetDNSfromDHCP
| DNS_init (sn : Z)
| DNS_run (dns : Ip4) (name : list Z)
| DNS_time_handler
| HeapNew (size : Z).

(** The answer to a request: the integer the call returns, the bytes it
    writes through its buffer argument, and for [recvfrom] the sender. *)
Record Resp := mkResp { rint : Z; rbytes : list Z; raddr : Ip4; rport : Z }.

Class Chip (Hw : Type) := hw_step : HwCall -> Hw -> Resp * Hw.

(** ** Library state *)

Inductive DhcpState :=
| NOT_USED | ATTEMPT | IN_PROGRESS | GOT_ADDRESS | CLEANUP | CLEANUP_DISABLE | DONE.

Inductive CallbackType := linkUp | linkDown | gotIpAddress.

Global Instance DhcpState_eq_dec : EqDecision DhcpState.
Proof. solve_decision. Defined.

Global Instance CallbackType_eq_dec : EqDecision CallbackType.
Proof. solve_decision. Defined.

(** A heap block is named by a number; a pointer is [None] for NULL. *)
Definition ptr := option nat.

(** What a run can do wrong with the heap. *)
Inductive Fault :=
| UseAfterFree (b : nat)
| DoubleFree (b : nat)
| NullBuffer.

(** The fields of the [IsolatedEthernet] singleton the modelled functions
    touch.  [callbacks] holds one identifier per registered handler;
    [dhcpCbRegistered] records that [setup] ran [reg_dhcp_cbfunc];
    [lastDhcpCheck] and [lastDnsCheck] are the statics of [stateMachine]. *)
Record Eth := mkEth {
  ipAddr : Ip4;
  subnetMaskArray : Ip4;
  gatewayAddr : Ip4;
  dnsAddr : Ip4;
  setupDone : bool;
  phyLink : bool;
  isReady : bool;
  dhcpState : DhcpState;
  dhcpBuffer : ptr;
  dnsBuffer : ptr;
  callbacks : list nat;
  dhcpCbRegistered : bool;
  lastDhcpCheck : Z;
  lastDnsCheck : Z
}.

(** [TCPClient::Data], the connection state shared by all copies of a handle *)
Record Data := mkData {
  sock : Z;
  buffer : list Z;
  offset : Z;
  total : Z;
  remoteIP : Ip4
}.

(** A [TCPClient] handle: the [shared_ptr<Data>] is an index into the store of
    [Data] objects; [write_error] is the field of the [Print] base class. *)
Record TCPClient := mkTCPClient {
  d_ : nat;
  write_error : Z;
  nif_ : Z
}.

Record TCPServer := mkTCPServer {
  srv_port : Z;
  srv_nif : Z;
  srv_sock : Z;
  srv_client : TCPClient;
  srv_write_error : Z
}.

Record UDP := mkUDP {
  udp_sock : Z;
  udp_port : Z;
  udp_remoteIP : Ip4;
  udp_remotePort : Z;
  udp_offset : Z;
  udp_total : Z;
  udp_buffer : ptr;
  udp_buffer_size : Z;
  udp_nif : Z;
  udp_buffer_allocated : bool
}.

Record World (Hw : Type) := mkWorld {
  hw : Hw;
  trace : list HwCall;
  fired : list (CallbackType * nat);
  eth : Eth;
  datas : gmap nat Data;
  live : gset nat;
  next_block : nat;
  faults : list Fault
}.

Arguments mkWorld {Hw}.
Arguments hw {Hw}.
Arguments trace {Hw}.
Arguments fired {Hw}.
Arguments eth {Hw}.
Arguments datas {Hw}.
Arguments live {Hw}.
Arguments next_block {Hw}.
Arguments faults {Hw}.

(** *** Field updates *)

Definition eth_set_ipAddr (v : Ip4) (e : Eth) : Eth :=
  mkEth v (subnetMaskArray e) (gatewayAddr e) (dnsAddr e) (setupDone e) (phyLink e)
    (isReady e) (dhcpState e) (dhcpBuffer e) (dnsBuffer e) (callbacks e)
    (dhcpCbRegistered e) (lastDhcpCheck e) (lastDnsCheck e).
Definition eth_set_subnetMaskArray (v : Ip4) (e : Eth) : Eth :=
  mkEth (ipAddr e) v (gatewayAddr e) (dnsAddr e) (setupDone e) (phyLink e)
    (isReady e) (dhcpState e) (dhcpBuffer e) (dnsBuffer e) (callbacks e)
    (dhcpCbRegistered e) (lastDhcpCheck e) (lastDnsCheck e).
Definition eth_set_gatewayAddr (v : Ip4) (e : Eth) : Eth :=
  mkEth (ipAddr e) (subnetMaskArray e) v (dnsAddr e) (setupDone e) (phyLink e)
    (isReady e) (dhcpState e) (dhcpBuffer e) (dnsBuffer e) (callbacks e)
    (dhcpCbRegistered e) (lastDhcpCheck e) (lastDnsCheck e).
Definition eth_set_dnsAddr (v : Ip4) (e : Eth) : Eth :=
  mkEth (ipAddr e) (subnetMaskArray e) (gatewayAddr e) v (setupDone e) (phyLink e)
    (isReady e) (dhcpState e) (dhcpBuffer e) (dnsBuffer e) (callbacks e)
    (dhcpCbRegistered e) (lastDhcpCheck e) (lastDnsCheck e).
Definition eth_set_phyLink (v : bool) (e : Eth) : Eth :=
  mkEth (ipAddr e) (subnetMaskArray e) (gatewayAddr e) (dnsAddr e) (setupDone e) v
    (isReady e) (dhcpState e) (dhcpBuffer e) (dnsBuffer e) (callbacks e)
    (dhcpCbRegistered e) (lastDhcpCheck e) (lastDnsCheck e).
Definition eth_set_isReady (v : bool) (e : Eth) : Eth :=
  mkEth (ipAddr e) (subnetMaskArray e) (gatewayAddr e) (dnsAddr e) (setupDone e) (phyLink e)
    v (dhcpState e) (dhcpBuffer e) (dnsBuffer e) (callbacks e)
    (dhcpCbRegistered e) (lastDhcpCheck e) (lastDnsCheck e).
Definition eth_set_dhcpState (v : DhcpState) (e : Eth) : Eth :=
  mkEth (ipAddr e) (subnetMaskArray e) (gatewayAddr e) (dnsAddr e) (setupDone e) (phyLink e)
    (isReady e) v (dhcpBuffer e) (dnsBuffer e) (callbacks e)
    (dhcpCbRegistered e) (lastDhcpCheck e) (lastDnsCheck e).
Definition eth_set_dhcpBuffer (v : ptr) (e : Eth) : Eth :=
  mkEth (ipAddr e) (subnetMaskArray e) (gatewayAddr e) (dnsAddr e) (setupDone e) (phyLink e)
    (isReady e) (dhcpState e) v (dnsBuffer e) (callbacks e)
    (dhcpCbRegistered e) (lastDhcpCheck e) (lastDnsCheck e).
Definition eth_set_dnsBuffer (v : ptr) (e : Eth) : Eth :=
  mkEth (ipAddr e) (subnetMaskArray e) (gatewayAddr e) (dnsAddr e) (setupDone e) (phyLink e)
    (isReady e) (dhcpState e) (dhcpBuffer e) v (callbacks e)
    (dhcpCbRegistered e) (lastDhcpCheck e) (lastDnsCheck e).
Definition eth_set_dhcpCbRegistered (v : bool) (e : Eth) : Eth :=
  mkEth (ipAddr e) (subnetMaskArray e) (gatewayAddr e) (dnsAddr e) (setupDone e) (phyLink e)
    (isReady e) (dhcpState e) (dhcpBuffer e) (dnsBuffer e) (callbacks e)
    v (lastDhcpCheck e) (lastDnsCheck e).
Definition eth_set_lastDhcpCheck (v : Z) (e : Eth) : Eth :=
  mkEth (ipAddr e) (subnetMaskArray e) (gatewayAddr e) (dnsAddr e) (setupDone e) (phyLink e)
    (isReady e) (dhcpState e) (dhcpBuffer e) (dnsBuffer e) (callbacks e)
    (dhcpCbRegistered e) v (lastDnsCheck e).
Definition eth_set_lastDnsCheck (v : Z) (e : Eth) : Eth :=
  mkEth (ipAddr e) (subnetMaskArray e) (gatewayAddr e) (dnsAddr e) (setupDone e) (phyLink e)
    (isReady e) (dhcpState e) (dhcpBuffer e) (dnsBuffer e) (callbacks e)
    (dhcpCbRegistered e) (lastDhcpCheck e) v.

Definition data_set_sock (v : Z) (d : Data) : Data :=
  mkData v (buffer d) (offset d) (total d) (remoteIP d).
Definition data_set_buffer (v : list Z) (d : Data) : Data :=
  mkData (sock d) v (offset d) (total d) (remoteIP d).
Definition data_set_offset (v : Z) (d : Data) : Data :=
  mkData (sock d) (buffer d) v (total d) (remoteIP d).
Definition data_set_total (v : Z) (d : Data) : Data :=
  mkData (sock d) (buffer d) (offset d) v (remoteIP d).
Definition data_set_remoteIP (v : Ip4) (d : Data) : Data :=
  mkData (sock d) (buffer d) (offset d) (total d) v.

Section Model.

Context {Hw : Type} {chip : Chip Hw}.

Definition w_set_hw (v : Hw) (w : World Hw) : World Hw :=
  mkWorld v (trace w) (fired w) (eth w) (datas w) (live w) (next_block w) (faults w).
Definition w_set_trace (v : list HwCall) (w : World Hw) : World Hw :=
  mkWorld (hw w) v (fired w) (eth w) (datas w) (live w) (next_block w) (faults w).
Definition w_set_fired (v : list (CallbackType * nat)) (w : World Hw) : World Hw :=
  mkWorld (hw w) (trace w) v (eth w) (datas w) (live w) (next_block w) (faults w).
Definition w_set_eth (v : Eth) (w : World Hw) : World Hw :=
  mkWorld (hw w) (trace w) (fired w) v (datas w) (live w) (next_block w) (faults w).
Definition w_set_datas (v : gmap nat Data) (w : World Hw) : World Hw :=
  mkWorld (hw w) (trace w) (fired w) (eth w) v (live w) (next_block w) (faults w).
Definition w_set_live (v : gset nat) (w : World Hw) : World Hw :=
  mkWorld (hw w) (trace w) (fired w) (eth w) (datas w) v (next_block w) (faults w).
Definition w_set_next_block (v : nat) (w : World Hw) : World Hw :=
  mkWorld (hw w) (trace w) (fired w) (eth w) (datas w) (live w) v (faults w).
Definition w_set_faults (v : list Fault) (w : World Hw) : World Hw :=
  mkWorld (hw w) (trace w) (fired w) (eth w) (datas w) (live w) (next_block w) v.

(** ** The state monad of the library *)

Definition M (A : Type) : Type := World Hw -> A * World Hw.

Definition ret {A} (a : A) : M A := fun w => (a, w).

Definition bind {A B} (m : M A) (k : A -> M B) : M B :=
  fun w => k (fst (m w)) (snd (m w)).

Notation "x <- m ;; k" := (bind m (fun x => k))
  (at level 100, m at next level, right associativity).
Notation "m ;; k" := (bind m (fun _ => k))
  (at level 100, right associativity).

Definition gets {A} (f : World Hw -> A) : M A := fun w => (f w, w).
Definition modify (f : World Hw -> World Hw) : M unit := fun w => (tt, f w).
Definition get_eth {A} (f : Eth -> A) : M A := gets (fun w => f (eth w)).
Definition mod_eth (f : Eth -> Eth) : M unit := modify (fun w => w_set_eth (f (eth w)) w).
Definition when (b : bool) (m : M unit) : M unit := if b then m else ret tt.

(** One request to the chip: the request is logged, the chip answers and
    moves to its next state. *)
Definition call (c : HwCall) : M Resp := fun w =>
  let r := hw_step c (hw w) in
  (fst r, w_set_hw (snd r) (w_set_trace (trace w ++ [c]) w)).

Definition fault (f : Fault) : M unit :=
  modify (fun w => w_set_faults (faults w ++ [f]) w).

(** [new uint8_t[n]]: the platform says whether memory is left; a fresh
    block is made live, or NULL is returned. *)
Definition new_array (n : Z) : M ptr :=
  r <- call (HeapNew n) ;;
  if rint r =? 0 then ret None
  else
    b <- gets next_block ;;
    modify (fun w => w_set_next_block (S b) (w_set_live ({[ b ]} ∪ live w) w)) ;;
    ret (Some b).

(** [delete[] p] *)
Definition delete_array (p : ptr) : M unit :=
  match p with
  | None => ret tt
  | Some b =>
      lv <- gets live ;;
      if decide (b ∈ lv) then modify (fun w => w_set_live (live w ∖ {[ b ]}) w)
      else fault (DoubleFree b)
  end.

(** A buffer pointer handed to protocol code that reads and writes it. *)
Definition use_buffer (p : ptr) : M unit :=
  match p with
  | None => fault NullBuffer
  | Some b =>
      lv <- gets live ;;
      if decide (b ∈ lv) then ret tt else fault (UseAfterFree b)
  end.

(** ** IsolatedEthernet *)

Definition ready : M bool := get_eth isReady.

Definition localIP : M Ip4 := get_eth ipAddr.

(** Every registered handler is called once, in registration order. *)
Definition callCallbacks (type : CallbackType) : M unit :=
  modify (fun w => w_set_fired (fired w ++ map (fun h => (type, h)) (callbacks (eth w))) w).

Fixpoint socketGetFree_from (n : nat) (ii : Z) : M Z :=
  match n with
  | O => ret (-1)
  | S n' =>
      r <- call (GetSockOptStatus ii) ;;
      if rint r =? SOCK_CLOSED then ret ii
      else socketGetFree_from n' (ii + 1)
  end.

Definition socketGetFree : M Z := socketGetFree_from NUM_SOCKETS 0.

Definition updateAddressSettings : M unit :=
  e <- gets eth ;;
  call (SetNetInfo (ipAddr e) (subnetMaskArray e) (gatewayAddr e) (dnsAddr e)
          (negb (bool_decide (dhcpState e = NOT_USED)))) ;;
  r <- call PhyLink ;;
  when (rint r =? PHY_LINK_ON) (mod_eth (eth_set_isReady true)).

Definition updateAddressSettingsFromDHCP : M unit :=
  r <- call GetIPfromDHCP ;;
  mod_eth (eth_set_ipAddr (ip_of_bytes (rbytes r))) ;;
  r <- call GetSNfromDHCP ;;
  mod_eth (eth_set_subnetMaskArray (ip_of_bytes (rbytes r))) ;;
  r <- call GetGWfromDHCP ;;
  mod_eth (eth_set_gatewayAddr (ip_of_bytes (rbytes r))) ;;
  r <- call GetDNSfromDHCP ;;
  mod_eth (eth_set_dnsAddr (ip_of_bytes (rbytes r))) ;;
  updateAddressSettings.

(** The three handlers [setup] gives to [reg_dhcp_cbfunc]. *)
Definition dhcp_ip_assign : M unit :=
  updateAddressSettingsFromDHCP ;;
  mod_eth (eth_set_dhcpState GOT_ADDRESS).

Definition dhcp_ip_update : M unit := updateAddressSettingsFromDHCP.

Definition dhcp_ip_conflict : M unit := ret tt.

(** The part of [setup] that registers the DHCP handlers. *)
Definition setup_register_dhcp : M unit :=
  st <- get_eth dhcpState ;;
  when (bool_decide (st = ATTEMPT)) (mod_eth (eth_set_dhcpCbRegistered true)).

(** Modelled from the spec: DHCP_run belongs to the WIZnet DHCP code, which
    is not part of the sources.  While it runs it may call one of the
    registered handlers; the integer of its answer says which: 1 for the
    assign handler, 2 for the update handler, 3 for the conflict handler,
    anything else for none. *)
Definition run_DHCP : M unit :=
  r <- call DHCP_run ;;
  reg <- get_eth dhcpCbRegistered ;;
  if negb reg then ret tt
  else if rint r =? 1 then dhcp_ip_assign
  else if rint r =? 2 then dhcp_ip_update
  else if rint r =? 3 then dhcp_ip_conflict
  else ret tt.

(** [stateMachine] is three statements in a row: the link edge detection,
    the [switch] on [dhcpState], and the DNS timer. *)
Definition stateMachine_link : M unit :=
  r <- call PhyLink ;;
  let curPhyLink := rint r =? PHY_LINK_ON in
  phy <- get_eth phyLink ;;
  when (negb (eqb curPhyLink phy))
    ((if curPhyLink then
        callCallbacks linkUp ;;
        st <- get_eth dhcpState ;;
        match st with
        | NOT_USED =>
            ip <- get_eth ipAddr ;;
            when (ip_nonzero ip)
              (mod_eth (eth_set_isReady true) ;; callCallbacks gotIpAddress)
        | _ => ret tt
        end
      else
        callCallbacks linkDown ;;
        mod_eth (eth_set_isReady false)) ;;
     mod_eth (eth_set_phyLink curPhyLink)).

(** The cases of the [switch]. *)
Definition dhcp_case_ATTEMPT : M unit :=
  phy <- get_eth phyLink ;;
  when phy
    (buf <- get_eth dhcpBuffer ;;
     when (bool_decide (buf = None))
       (b <- new_array 548 ;; mod_eth (eth_set_dhcpBuffer b)) ;;
     dhcpSocket <- socketGetFree ;;
     if 0 <=? dhcpSocket then
       buf <- get_eth dhcpBuffer ;;
       use_buffer buf ;;
       call (DHCP_init (to_uint8 dhcpSocket)) ;;
       mod_eth (eth_set_dhcpState IN_PROGRESS)
     else
       mod_eth (eth_set_dhcpState DONE)).

Definition dhcp_case_IN_PROGRESS : M unit :=
  now <- call Millis ;;
  last <- get_eth lastDhcpCheck ;;
  when (1000 <=? to_uint32 (rint now - last))
    (now' <- call Millis ;;
     mod_eth (eth_set_lastDhcpCheck (rint now')) ;;
     call DHCP_time_handler ;; ret tt) ;;
  run_DHCP ;;
  phy <- get_eth phyLink ;;
  when (negb phy) (mod_eth (eth_set_dhcpState CLEANUP)).

Definition dhcp_case_GOT_ADDRESS : M unit :=
  callCallbacks gotIpAddress ;;
  mod_eth (eth_set_dhcpState CLEANUP).

Definition dhcp_case_CLEANUP : M unit :=
  call DHCP_stop ;;
  buf <- get_eth dhcpBuffer ;;
  delete_array buf ;;
  mod_eth (eth_set_dhcpBuffer None) ;;
  st' <- get_eth dhcpState ;;
  if bool_decide (st' = CLEANUP_DISABLE) then mod_eth (eth_set_dhcpState NOT_USED)
  else mod_eth (eth_set_dhcpState DONE).

Definition dhcp_case_DONE : M unit :=
  phy <- get_eth phyLink ;;
  when (negb phy) (mod_eth (eth_set_dhcpState ATTEMPT)).

Definition stateMachine_dhcp : M unit :=
  st <- get_eth dhcpState ;;
  match st with
  | ATTEMPT => dhcp_case_ATTEMPT
  | IN_PROGRESS => dhcp_case_IN_PROGRESS
  | GOT_ADDRESS => dhcp_case_GOT_ADDRESS
  | CLEANUP_DISABLE | CLEANUP => dhcp_case_CLEANUP
  | DONE => dhcp_case_DONE
  | NOT_USED => ret tt
  end.

Definition stateMachine_dns : M unit :=
  dnsb <- get_eth dnsBuffer ;;
  when (negb (bool_decide (dnsb = None)))
    (now <- call Millis ;;
     last <- get_eth lastDnsCheck ;;
     when (1000 <=? to_uint32 (rint now - last))
       (now' <- call Millis ;;
        mod_eth (eth_set_lastDnsCheck (rint now')) ;;
        call DNS_time_handler ;; ret tt)).

Definition stateMachine : M unit :=
  stateMachine_link ;; stateMachine_dhcp ;; stateMachine_dns.

(** One pass of the maintenance thread, on the chip as it then is: between
    two passes the chip and the network may have done anything. *)
Definition tick (h : Hw) (w : World Hw) : World Hw :=
  snd (stateMachine (w_set_hw h w)).

Definition run_ticks (hs : list Hw) (w : World Hw) : World Hw :=
  fold_left (fun w h => tick h w) hs w.

(** [inet_gethostbyname]: the result, and the address written through
    [out_ip_addr] if any. *)
Definition inet_gethostbyname (hostname : list Z) : M (Z * option Ip4) :=
  buf <- get_eth dnsBuffer ;;
  allocated <-
    (if bool_decide (buf = None) then
       b <- new_array MAX_DNS_BUF_SIZE ;;
       mod_eth (eth_set_dnsBuffer b) ;;
       ret (negb (bool_decide (b = None)))
     else ret true) ;;
  if negb allocated then ret (-1, None)
  else
    dnsSocket <- socketGetFree ;;
    res <-
      (if 0 <=? dnsSocket then
         buf <- get_eth dnsBuffer ;;
         use_buffer buf ;;
         call (DNS_init (to_uint8 dnsSocket)) ;;
         dns <- get_eth dnsAddr ;;
         winRes <- call (DNS_run dns hostname) ;;
         if rint winRes =? 1 then ret (0, Some (ip_of_bytes (rbytes winRes)))
         else ret (-1, None)
       else ret (-1, None)) ;;
    buf <- get_eth dnsBuffer ;;
    delete_array buf ;;
    ret res.

Definition withStaticIP : M unit :=
  st <- get_eth dhcpState ;;
  match st with
  | IN_PROGRESS | GOT_ADDRESS => mod_eth (eth_set_dhcpState CLEANUP_DISABLE)
  | _ => mod_eth (eth_set_dhcpState NOT_USED)
  end.

Definition withDHCP : M unit :=
  mod_eth (eth_set_ipAddr (mkIp4 0 0 0 0)) ;;
  mod_eth (eth_set_dhcpState ATTEMPT).

Definition withIPAddress (ip : Ip4) : M unit :=
  withStaticIP ;; mod_eth (eth_set_ipAddr ip).

(** ** TCPClient *)

(** A [Data] as its constructor leaves it. *)
Definition Data_init (sock : Z) : Data :=
  mkData sock (replicate (Z.to_nat TCPCLIENT_BUF_MAX_SIZE) 0) 0 0 ip_zero.

Definition getD (c : TCPClient) : M Data :=
  gets (fun w => match datas w !! d_ c with Some d => d | None => Data_init (-1) end).

Definition modD (c : TCPClient) (f : Data -> Data) : M unit :=
  modify (fun w => w_set_datas (alter f (d_ c) (datas w)) w).

Definition sock_handle (c : TCPClient) : M Z := d <- getD c ;; ret (sock d).

Definition setWriteError (err : Z) (c : TCPClient) : TCPClient :=
  mkTCPClient (d_ c) err (nif_ c).

Definition clearWriteError (c : TCPClient) : TCPClient := setWriteError 0 c.

Definition set_nif (n : Z) (c : TCPClient) : TCPClient :=
  mkTCPClient (d_ c) (write_error c) n.

(** [TCPClient::isOpen(sd)] *)
Definition isOpen (sd : Z) : M bool :=
  r <- call (GetSockOptStatus (to_uint8 sd)) ;;
  ret (rint r =? SOCK_ESTABLISHED).

Definition flush_buffer (c : TCPClient) : M unit :=
  modD c (data_set_offset 0) ;;
  modD c (data_set_total 0).

(** [std::make_shared<Data>(sock)] followed by [flush_buffer()] *)
Definition TCPClient_new (sock : Z) : M TCPClient :=
  p <- gets (fun w => fresh (dom (datas w))) ;;
  modify (fun w => w_set_datas (<[ p := Data_init sock ]> (datas w)) w) ;;
  let c := mkTCPClient p 0 0 in
  flush_buffer c ;;
  ret c.

Definition stop (c : TCPClient) : M unit :=
  sh <- sock_handle c ;;
  if sh <? 0 then ret tt
  else
    call (Disconnect (to_uint8 sh)) ;;
    modD c (data_set_sock (-1)) ;;
    modD c (data_set_remoteIP ip_zero) ;;
    flush_buffer c.

(** [connect(IPAddress ip, uint16_t port, network_interface_t nif)] *)
Definition connect_ip (c : TCPClient) (ip : Ip4) (port nif : Z) : M (Z * TCPClient) :=
  stop c ;;
  rdy <- ready ;;
  if negb rdy then ret (0, c)
  else
    sock <- socketGetFree ;;
    when (0 <=? sock)
      (res <- call (Socket (to_uint8 sock) Sn_MR_TCP port 0) ;;
       when (0 <=? rint res) (modD c (data_set_sock sock))) ;;
    sh <- sock_handle c ;;
    if socket_handle_valid sh then
      flush_buffer c ;;
      res <- call (Connect (to_uint8 sh) ip port) ;;
      let connected := if rint res =? SOCK_OK then 1 else 0 in
      call (CtlSocketIoMode (to_uint8 sh) SOCK_IO_NONBLOCK) ;;
      modD c (data_set_remoteIP ip) ;;
      when (connected =? 0) (stop c) ;;
      ret (connected, set_nif nif c)
    else ret (0, c).

(** [connect(const char *host, uint16_t port, network_interface_t nif)] *)
Definition connect_host (c : TCPClient) (host : list Z) (port nif : Z) : M (Z * TCPClient) :=
  stop c ;;
  rdy <- ready ;;
  if negb rdy then ret (0, c)
  else
    r <- inet_gethostbyname host ;;
    if fst r =? 0 then
      connect_ip c (match snd r with Some ip => ip | None => ip_zero end) port nif
    else ret (0, c).

(** The [do ... while] of [write].  [ret0] is what [send] returned in this
    round; the loop goes on only when the timeout is not zero and has not
    run out.  [None] means the fuel ran out before the loop ended. *)
Fixpoint write_loop (fuel : nat) (c : TCPClient) (buffer : list Z)
    (size timeout start offset : Z) : M (option (Z * TCPClient)) :=
  match fuel with
  | O => ret None
  | S fuel' =>
      sh <- sock_handle c ;;
      r <- call (Send (to_uint8 sh) (drop (Z.to_nat offset) buffer) (to_uint16 (size - offset))) ;;
      let ret0 := rint r in
      let again (offset' : Z) : M (option (Z * TCPClient)) :=
        call (Delay 1) ;;
        if timeout =? 0 then ret (Some (ret0, c))
        else
          now <- call Millis ;;
          if to_uint32 (rint now - start) <? timeout
          then write_loop fuel' c buffer size timeout start offset'
          else ret (Some (ret0, c)) in
      if 0 <? ret0 then
        let offset' := to_uint32 (offset + ret0) in
        if offset' =? size then ret (Some (to_int32 size, c))
        else again offset'
      else if negb (ret0 =? SOCK_BUSY) then ret (Some (ret0, setWriteError ret0 c))
      else again offset
  end.

(** [write(const uint8_t *buffer, size_t size, system_tick_t timeout)]; the
    [int] result is converted to the [size_t] the function returns. *)
Definition write (fuel : nat) (c : TCPClient) (buffer : list Z) (size timeout : Z)
  : M (option (Z * TCPClient)) :=
  let c := clearWriteError c in
  start <- call Millis ;;
  r <- write_loop fuel c buffer size timeout (rint start) 0 ;;
  ret (match r with
       | Some (ret0, c') => Some (to_uint32 ret0, c')
       | None => None
       end).

Definition bufferCount (c : TCPClient) : M Z :=
  d <- getD c ;; ret (total d - offset d).

(** [memcpy] of [bytes] into [buf] at [pos] *)
Definition poke (buf : list Z) (pos : Z) (bytes : list Z) : list Z :=
  take (Z.to_nat pos) buf ++ bytes ++ drop (Z.to_nat pos + length bytes) buf.

Definition available (c : TCPClient) : M Z :=
  d <- getD c ;;
  when (negb (total d =? 0) && (offset d =? total d)) (flush_buffer c) ;;
  rdy <- ready ;;
  open <- (if rdy then sh <- sock_handle c ;; isOpen sh else ret false) ;;
  when open
    (d <- getD c ;;
     when (total d <? TCPCLIENT_BUF_MAX_SIZE)
       (r <- call (Recv (to_uint8 (sock d)) (to_uint16 (TCPCLIENT_BUF_MAX_SIZE - total d))) ;;
        when (0 <? rint r)
          (modD c (data_set_buffer
                     (poke (buffer d) (total d) (take (Z.to_nat (rint r)) (rbytes r)))) ;;
           when (total d =? 0) (modD c (data_set_offset 0)) ;;
           modD c (data_set_total (to_uint16 (total d + rint r)))))) ;;
  bufferCount c.

(** [bufferCount() || available()] *)
Definition have_data (c : TCPClient) : M bool :=
  n <- bufferCount c ;;
  if negb (n =? 0) then ret true
  else a <- available c ;; ret (negb (a =? 0)).

(** [read()] *)
Definition read (c : TCPClient) : M Z :=
  b <- have_data c ;;
  if b then
    d <- getD c ;;
    modD c (data_set_offset (to_uint16 (offset d + 1))) ;;
    ret (nth (Z.to_nat (offset d)) (buffer d) 0)
  else ret (-1).

(** [read(uint8_t *buffer, size_t size)]: the result and the bytes copied *)
Definition read_buf (c : TCPClient) (size : Z) : M (Z * list Z) :=
  b <- have_data c ;;
  if b then
    n <- bufferCount c ;;
    let read := if to_uint32 n <? size then n else to_int32 size in
    d <- getD c ;;
    modD c (data_set_offset (to_uint16 (offset d + read))) ;;
    ret (read, take (Z.to_nat read) (drop (Z.to_nat (offset d)) (buffer d)))
  else ret (-1, []).

Definition peek (c : TCPClient) : M Z :=
  b <- have_data c ;;
  if b then
    d <- getD c ;;
    ret (nth (Z.to_nat (offset d)) (buffer d) 0)
  else ret (-1).

(** [status()]: [isOpen(sock_handle()) && instance().ready()] *)
Definition status (c : TCPClient) : M bool :=
  sh <- sock_handle c ;;
  o <- isOpen sh ;;
  if o then ready else ret false.

Definition connected (c : TCPClient) : M bool :=
  st <- status c ;;
  n <- (if st then ret 1 else bufferCount c) ;;
  let rv := negb (n =? 0) in
  if rv then ret true
  else
    sh <- sock_handle c ;;
    o <- isOpen sh ;;
    if o then
      a <- available c ;;
      when (a =? 0) (stop c) ;;
      ret (negb (a =? 0))
    else ret false.

(** ** TCPServer *)

Definition srv_set_sock (v : Z) (s : TCPServer) : TCPServer :=
  mkTCPServer (srv_port s) (srv_nif s) v (srv_client s) (srv_write_error s).

Definition startListener (s : TCPServer) : M (bool * TCPServer) :=
  sock <- socketGetFree ;;
  if 0 <=? sock then
    res <- call (Socket (to_uint8 sock) Sn_MR_TCP (srv_port s) 0) ;;
    if 0 <=? rint res then
      let s := srv_set_sock sock s in
      res <- call (Listen (to_uint8 sock)) ;;
      ret (rint res =? SOCK_OK, s)
    else ret (false, s)
  else ret (false, s).

Definition TCPServer_stop (s : TCPServer) : M TCPServer :=
  stop (srv_client s) ;;
  when (0 <=? srv_sock s) (call (Disconnect (to_uint8 (srv_sock s))) ;; ret tt) ;;
  ret (srv_set_sock (-1) s).

Definition TCPServer_begin (s : TCPServer) : M (bool * TCPServer) :=
  s <- TCPServer_stop s ;;
  if socket_handle_valid (srv_sock s) then ret (true, s)
  else
    rdy <- ready ;;
    if rdy then startListener s else ret (false, s).

(** ** UDP *)

Definition udp_set_sock (v : Z) (u : UDP) : UDP :=
  mkUDP v (udp_port u) (udp_remoteIP u) (udp_remotePort u) (udp_offset u) (udp_total u)
    (udp_buffer u) (udp_buffer_size u) (udp_nif u) (udp_buffer_allocated u).
Definition udp_set_port (v : Z) (u : UDP) : UDP :=
  mkUDP (udp_sock u) v (udp_remoteIP u) (udp_remotePort u) (udp_offset u) (udp_total u)
    (udp_buffer u) (udp_buffer_size u) (udp_nif u) (udp_buffer_allocated u).
Definition udp_set_remote (ip : Ip4) (port : Z) (u : UDP) : UDP :=
  mkUDP (udp_sock u) (udp_port u) ip port (udp_offset u) (udp_total u)
    (udp_buffer u) (udp_buffer_size u) (udp_nif u) (udp_buffer_allocated u).

Definition UDP_flush_buffer (u : UDP) : UDP :=
  mkUDP (udp_sock u) (udp_port u) (udp_remoteIP u) (udp_remotePort u) 0 0
    (udp_buffer u) (udp_buffer_size u) (udp_nif u) (udp_buffer_allocated u).

(** The object the constructor builds. *)
Definition UDP_new : UDP := mkUDP (-1) 0 ip_zero 0 0 0 None 512 0 false.

Definition UDP_isOpen (sn : Z) : M bool :=
  r <- call (GetSockOptStatus (to_uint8 sn)) ;;
  ret (rint r =? SOCK_UDP).

Definition UDP_stop (u : UDP) : M UDP :=
  o <- UDP_isOpen (udp_sock u) ;;
  when o (call (Close (to_uint8 (udp_sock u))) ;; ret tt) ;;
  ret (UDP_flush_buffer (udp_set_sock (-1) u)).

Definition UDP_begin (u : UDP) (port : Z) : M (Z * UDP) :=
  u <- UDP_stop u ;;
  sock <- socketGetFree ;;
  if 0 <=? sock then
    res <- call (Socket (to_uint8 sock) Sn_MR_UDP port 0) ;;
    if 0 <=? rint res then ret (1, udp_set_port port (udp_set_sock sock u))
    else ret (0, u)
  else ret (0, u).

Definition leaveMulticast (u : UDP) (ip : Ip4) : M (Z * UDP) :=
  o <- UDP_isOpen (udp_sock u) ;;
  if negb o then ret (-1, u)
  else
    u <- UDP_stop u ;;
    UDP_begin u (udp_port u).

(** The [do ... while] of [receivePacket]; the bytes received come with the
    result.  [None] means the fuel ran out before the loop ended. *)
Fixpoint receive_loop (fuel : nat) (u : UDP) (size timeout start : Z)
  : M (option (Z * list Z * UDP)) :=
  match fuel with
  | O => ret None
  | S fuel' =>
      n <- call (GetSn_RX_RSR (to_uint8 (udp_sock u))) ;;
      if 0 <? rint n then
        r <- call (RecvFrom (to_uint8 (udp_sock u)) (to_uint16 size)) ;;
        ret (Some (rint r, rbytes r, udp_set_remote (raddr r) (rport r) u))
      else
        call (Delay 1) ;;
        if timeout =? 0 then ret (Some (0, [], u))
        else
          now <- call Millis ;;
          if to_uint32 (rint now - start) <? timeout
          then receive_loop fuel' u size timeout start
          else ret (Some (0, [], u))
  end.

(** [receivePacket(uint8_t* buffer, size_t size, system_tick_t timeout)];
    [buffer_ok] says that the caller's pointer is not NULL. *)
Definition receivePacket (fuel : nat) (u : UDP) (buffer_ok : bool) (size timeout : Z)
  : M (option (Z * list Z * UDP)) :=
  o <- UDP_isOpen (udp_sock u) ;;
  if o && buffer_ok then
    start <- call Millis ;;
    receive_loop fuel u size timeout (rint start)
  else ret (Some (-1, [], u)).

(** ** IsolatedEthernet: configuration *)

Definition eth_set_callbacks (v : list nat) (e : Eth) : Eth :=
  mkEth (ipAddr e) (subnetMaskArray e) (gatewayAddr e) (dnsAddr e) (setupDone e)
    (phyLink e) (isReady e) (dhcpState e) (dhcpBuffer e) (dnsBuffer e) v
    (dhcpCbRegistered e) (lastDhcpCheck e) (lastDnsCheck e).

(** [withCallback(cb)]: [callbacks.push_back(cb)] *)
Definition withCallback (cb : nat) : M unit :=
  mod_eth (fun e => eth_set_callbacks (callbacks e ++ [cb]) e).

Definition withSubnetMask (ip : Ip4) : M unit :=
  withStaticIP ;; mod_eth (eth_set_subnetMaskArray ip).

Definition withGatewayAddress (ip : Ip4) : M unit :=
  withStaticIP ;; mod_eth (eth_set_gatewayAddr ip).

Definition withDNSAddress (ip : Ip4) : M unit :=
  withStaticIP ;; mod_eth (eth_set_dnsAddr ip).

(** [resolve(name)]: the address found, or 0.0.0.0 *)
Definition resolve (name : list Z) : M Ip4 :=
  r <- inet_gethostbyname name ;;
  ret (if negb (fst r =? 0) then ip_zero
       else match snd r with Some ip => ip | None => ip_zero end).

(** What [loadJsonConfig] looks at in the value of a key: the outcome of
    [sscanf(value, "%u.%u.%u.%u", ...)], which is the four numbers when all
    four were read, and [toBool()].  The JSON parser and [sscanf] belong to
    the platform. *)
Record ConfigValue := mkConfigValue {
  cv_scan : option (Z * Z * Z * Z);
  cv_bool : bool
}.

(** [IPAddress((uint8_t) a[0], ...)] when the value is an address, and the
    default [IPAddress] otherwise. *)
Definition config_addr (v : ConfigValue) : Ip4 :=
  match cv_scan v with
  | Some (a0, a1, a2, a3) => mkIp4 (to_uint8 a0) (to_uint8 a1) (to_uint8 a2) (to_uint8 a3)
  | None => ip_zero
  end.

(** The body of the loop of [loadJsonConfig], for one key. *)
Definition loadJsonConfig_key (name : string) (v : ConfigValue) : M unit :=
  let addr := config_addr v in
  if bool_decide (name = "ipAddr") then withIPAddress addr
  else if bool_decide (name = "subnetMask") then withSubnetMask addr
  else if bool_decide (name = "gatewayAddr") then withGatewayAddress addr
  else if bool_decide (name = "dnsAddr") then withDNSAddress addr
  else if bool_decide (name = "DHCP") then
    (if cv_bool v then withDHCP else withStaticIP)
  else ret tt.

(** [loadJsonConfig(const JSONValue &configObj)], on the keys of the object
    in the order of the iterator. *)
Fixpoint loadJsonConfig (obj : list (string * ConfigValue)) : M unit :=
  match obj with
  | [] => ret tt
  | (name, v) :: rest => loadJsonConfig_key name v ;; loadJsonConfig rest
  end.

(** The value [saveConfigFile] writes for an address, [arrayToString(array)],
    as [loadJsonConfig] reads it back: [sscanf] of a string printed with
    ["%u.%u.%u.%u"] gives the four numbers; a string is not a JSON boolean. *)
Definition arrayToString_value (a : Ip4) : ConfigValue :=
  mkConfigValue (Some (b0 a, b1 a, b2 a, b3 a)) false.

(** The object [saveConfigFile] builds with its [JSONBufferWriter]. *)
Definition saveConfigFile_object (e : Eth) : list (string * ConfigValue) :=
  [("ipAddr", arrayToString_value (ipAddr e));
   ("subnetMask", arrayToString_value (subnetMaskArray e));
   ("gatewayAddr", arrayToString_value (gatewayAddr e));
   ("dnsAddr", arrayToString_value (dnsAddr e))].

(** ** UDP: the packet buffer *)

Definition udp_set_offset (v : Z) (u : UDP) : UDP :=
  mkUDP (udp_sock u) (udp_port u) (udp_remoteIP u) (udp_remotePort u) v (udp_total u)
    (udp_buffer u) (udp_buffer_size u) (udp_nif u) (udp_buffer_allocated u).
Definition udp_set_total (v : Z) (u : UDP) : UDP :=
  mkUDP (udp_sock u) (udp_port u) (udp_remoteIP u) (udp_remotePort u) (udp_offset u) v
    (udp_buffer u) (udp_buffer_size u) (udp_nif u) (udp_buffer_allocated u).
Definition udp_set_buffer (v : ptr) (u : UDP) : UDP :=
  mkUDP (udp_sock u) (udp_port u) (udp_remoteIP u) (udp_remotePort u) (udp_offset u)
    (udp_total u) v (udp_buffer_size u) (udp_nif u) (udp_buffer_allocated u).
Definition udp_set_buffer_size (v : Z) (u : UDP) : UDP :=
  mkUDP (udp_sock u) (udp_port u) (udp_remoteIP u) (udp_remotePort u) (udp_offset u)
    (udp_total u) (udp_buffer u) v (udp_nif u) (udp_buffer_allocated u).
Definition udp_set_buffer_allocated (v : bool) (u : UDP) : UDP :=
  mkUDP (udp_sock u) (udp_port u) (udp_remoteIP u) (udp_remotePort u) (udp_offset u)
    (udp_total u) (udp_buffer u) (udp_buffer_size u) (udp_nif u) v.

(** A [UDP] object together with the bytes of the memory [_buffer] points
    to ([[]] while [_buffer] is NULL). *)
Record UDPmem := mkUDPmem {
  um_udp : UDP;
  um_bytes : list Z
}.

Definition um_map (f : UDP -> UDP) (m : UDPmem) : UDPmem :=
  mkUDPmem (f (um_udp m)) (um_bytes m).

Definition has_buffer (u : UDP) : bool := negb (bool_decide (udp_buffer u = None)).

(** [available()]: [_total - _offset], two [uint16_t] subtracted as [int] *)
Definition UDP_available (u : UDP) : Z := udp_total u - udp_offset u.

(** [releaseBuffer()] *)
Definition UDP_releaseBuffer (m : UDPmem) : M UDPmem :=
  let u := um_udp m in
  when (udp_buffer_allocated u && has_buffer u) (delete_array (udp_buffer u)) ;;
  ret (mkUDPmem
         (UDP_flush_buffer
            (udp_set_buffer_size 0 (udp_set_buffer_allocated false (udp_set_buffer None u))))
         []).

(** [setBuffer(buf_size, buffer)]; [contents] is what the caller's memory
    holds when [buffer] is not NULL.  Memory from [new] is not initialised:
    zeros stand for its bytes. *)
Definition UDP_setBuffer (m : UDPmem) (buf_size : Z) (buffer : ptr) (contents : list Z)
  : M (bool * UDPmem) :=
  m <- UDP_releaseBuffer m ;;
  let m := mkUDPmem (udp_set_buffer_size 0 (udp_set_buffer buffer (um_udp m)))
             (if bool_decide (buffer = None) then [] else contents) in
  m <- (if bool_decide (buffer = None) && negb (buf_size =? 0) then
          b <- new_array buf_size ;;
          ret (mkUDPmem (udp_set_buffer_allocated true (udp_set_buffer b (um_udp m)))
                 (if bool_decide (b = None) then []
                  else replicate (Z.to_nat buf_size) 0))
        else ret m) ;;
  let m := if has_buffer (um_udp m) then um_map (udp_set_buffer_size buf_size) m else m in
  ret (negb (udp_buffer_size (um_udp m) =? 0), m).

(** The default buffer of [beginPacket] and [parsePacket]:
    [if (!_buffer && _buffer_size) setBuffer(_buffer_size);] *)
Definition UDP_default_buffer (m : UDPmem) : M UDPmem :=
  let u := um_udp m in
  if negb (has_buffer u) && negb (udp_buffer_size u =? 0) then
    r <- UDP_setBuffer m (udp_buffer_size u) None [] ;;
    ret (snd r)
  else ret m.

(** [beginPacket(IPAddress ip, uint16_t port)] *)
Definition UDP_beginPacket_ip (m : UDPmem) (ip : Ip4) (port : Z) : M (Z * UDPmem) :=
  m <- UDP_default_buffer m ;;
  let m := um_map (fun u => UDP_flush_buffer (udp_set_remote ip port u)) m in
  ret (to_int32 (udp_buffer_size (um_udp m)), m).

(** [beginPacket(const char *host, uint16_t port)] *)
Definition UDP_beginPacket_host (m : UDPmem) (host : list Z) (port : Z)
  : M (Z * UDPmem) :=
  rdy <- ready ;;
  if rdy then
    r <- inet_gethostbyname host ;;
    if fst r =? 0 then
      UDP_beginPacket_ip m (match snd r with Some ip => ip | None => ip_zero end) port
    else ret (0, m)
  else ret (0, m).

(** [write(const uint8_t *buffer, size_t size)]: [data] is the caller's
    memory, [size] the length asked for. *)
Definition UDP_write (m : UDPmem) (data : list Z) (size : Z) : Z * UDPmem :=
  let u := um_udp m in
  let available := if has_buffer u then to_uint32 (udp_buffer_size u - udp_offset u) else 0 in
  let size := if available <? size then available else size in
  (size,
   mkUDPmem (udp_set_offset (to_uint16 (udp_offset u + size)) u)
     (poke (um_bytes m) (udp_offset u) (take (Z.to_nat size) data))).

(** [write(uint8_t byte)] *)
Definition UDP_write_byte (m : UDPmem) (byte : Z) : Z * UDPmem := UDP_write m [byte] 1.

(** [parsePacket(timeout)] *)
Definition UDP_parsePacket (fuel : nat) (m : UDPmem) (timeout : Z)
  : M (option (Z * UDPmem)) :=
  m <- UDP_default_buffer m ;;
  let m := um_map UDP_flush_buffer m in
  let u := um_udp m in
  if has_buffer u && negb (udp_buffer_size u =? 0) then
    r <- receivePacket fuel u true (udp_buffer_size u) timeout ;;
    match r with
    | None => ret None
    | Some (result, bytes, u') =>
        let mem := poke (um_bytes m) 0 (take (Z.to_nat result) bytes) in
        let u'' := if 0 <? result then udp_set_total (to_uint16 result) u' else u' in
        ret (Some (UDP_available u'', mkUDPmem u'' mem))
    end
  else ret (Some (UDP_available u, m)).

(** [read()] *)
Definition UDP_read (m : UDPmem) : Z * UDPmem :=
  let u := um_udp m in
  if negb (UDP_available u =? 0) then
    (nth (Z.to_nat (udp_offset u)) (um_bytes m) 0,
     um_map (udp_set_offset (to_uint16 (udp_offset u + 1))) m)
  else (-1, m).

(** [read(unsigned char* buffer, size_t len)]: the result and the bytes
    copied.  [read] is an [int]: when it is negative ([len] of 2^31 or more,
    or a cursor beyond [_total]) [memcpy] takes it as a [size_t] close to
    2^32 and copies far beyond both buffers.  What the program does then is
    not defined: the model gives [None]. *)
Definition UDP_read_buf (m : UDPmem) (len : Z) : option (Z * list Z * UDPmem) :=
  let u := um_udp m in
  if negb (UDP_available u =? 0) then
    let read := Z.min (to_int32 len) (UDP_available u) in
    if read <? 0 then None
    else Some (read, take (Z.to_nat read) (drop (Z.to_nat (udp_offset u)) (um_bytes m)),
               um_map (udp_set_offset (to_uint16 (udp_offset u + read))) m)
  else Some (-1, [], m).

(** [peek()] *)
Definition UDP_peek (m : UDPmem) : Z :=
  let u := um_udp m in
  if negb (UDP_available u =? 0) then nth (Z.to_nat (udp_offset u)) (um_bytes m) 0
  else -1.

End Model.

Arguments M : clear implicits.

(** ** A simulated chip

    A small W5500: the eight socket status registers, the bytes waiting in each
    receive buffer, the link, a clock, and scripts for what the network does
    (results of the next [send] calls, outcomes of the next [DHCP_run] calls,
    the lease the DHCP server offers, the DNS answer). *)

Record Sim := mkSim {
  s_link : bool;
  s_status : list Z;
  s_rx : list (list Z);
  s_clock : Z;
  s_send : list Z;
  s_dhcp : list Z;
  s_lease : list (list Z);
  s_dns : Z * list Z;
  s_heap_ok : bool;
  s_dhcp_sock : Z
}.

Definition sim_set_status (sn : Z) (v : Z) (s : Sim) : Sim :=
  mkSim (s_link s) (<[ Z.to_nat sn := v ]> (s_status s)) (s_rx s) (s_clock s) (s_send s)
    (s_dhcp s) (s_lease s) (s_dns s) (s_heap_ok s) (s_dhcp_sock s).
Definition sim_set_rx (sn : Z) (v : list Z) (s : Sim) : Sim :=
  mkSim (s_link s) (s_status s) (<[ Z.to_nat sn := v ]> (s_rx s)) (s_clock s) (s_send s)
    (s_dhcp s) (s_lease s) (s_dns s) (s_heap_ok s) (s_dhcp_sock s).
Definition sim_set_clock (v : Z) (s : Sim) : Sim :=
  mkSim (s_link s) (s_status s) (s_rx s) v (s_send s)
    (s_dhcp s) (s_lease s) (s_dns s) (s_heap_ok s) (s_dhcp_sock s).
Definition sim_set_send (v : list Z) (s : Sim) : Sim :=
  mkSim (s_link s) (s_status s) (s_rx s) (s_clock s) v
    (s_dhcp s) (s_lease s) (s_dns s) (s_heap_ok s) (s_dhcp_sock s).
Definition sim_set_dhcp (v : list Z) (s : Sim) : Sim :=
  mkSim (s_link s) (s_status s) (s_rx s) (s_clock s) (s_send s)
    v (s_lease s) (s_dns s) (s_heap_ok s) (s_dhcp_sock s).
Definition sim_set_dhcp_sock (v : Z) (s : Sim) : Sim :=
  mkSim (s_link s) (s_status s) (s_rx s) (s_clock s) (s_send s)
    (s_dhcp s) (s_lease s) (s_dns s) (s_heap_ok s) v.
Definition sim_set_link (v : bool) (s : Sim) : Sim :=
  mkSim v (s_status s) (s_rx s) (s_clock s) (s_send s)
    (s_dhcp s) (s_lease s) (s_dns s) (s_heap_ok s) (s_dhcp_sock s).

Definition answer (n : Z) : Resp := mkResp n [] ip_zero 0.
Definition answer_bytes (n : Z) (l : list Z) : Resp := mkResp n l ip_zero 0.

Definition sim_rx (sn : Z) (s : Sim) : list Z := nth (Z.to_nat sn) (s_rx s) [].

Definition sim_step (c : HwCall) (s : Sim) : Resp * Sim :=
  match c with
  | GetSockOptStatus sn => (answer (nth (Z.to_nat sn) (s_status s) SOCK_CLOSED), s)
  | Socket sn mode port flag =>
      (answer sn, sim_set_status sn (if mode =? Sn_MR_TCP then SOCK_INIT else SOCK_UDP) s)
  | Connect sn addr port => (answer SOCK_OK, sim_set_status sn SOCK_ESTABLISHED s)
  | Listen sn => (answer SOCK_OK, sim_set_status sn SOCK_LISTEN s)
  | Disconnect sn | Close sn =>
      (answer SOCK_OK, sim_set_rx sn [] (sim_set_status sn SOCK_CLOSED s))
  | Send sn data len =>
      match s_send s with
      | [] => (answer len, s)
      | x :: rest => (answer x, sim_set_send rest s)
      end
  | Recv sn len =>
      let q := sim_rx sn s in
      let n := Z.min len (Z.of_nat (length q)) in
      if n <=? 0 then (answer SOCK_BUSY, s)
      else (answer_bytes n (take (Z.to_nat n) q), sim_set_rx sn (drop (Z.to_nat n) q) s)
  | RecvFrom sn len =>
      let q := sim_rx sn s in
      let n := Z.min len (Z.of_nat (length q)) in
      (mkResp n (take (Z.to_nat n) q) (mkIp4 192 168 2 6) 4550, sim_set_rx sn [] s)
  | CtlSocketIoMode sn mode => (answer SOCK_OK, s)
  | GetSn_RX_RSR sn => (answer (Z.of_nat (length (sim_rx sn s))), s)
  | PhyLink => (answer (if s_link s then PHY_LINK_ON else 0), s)
  | SetNetInfo _ _ _ _ _ => (answer 0, s)
  | Millis => (answer (s_clock s), s)
  | Delay ms => (answer 0, sim_set_clock (s_clock s + ms) s)
  | DHCP_init sn => (answer 0, sim_set_dhcp_sock sn (sim_set_status sn SOCK_UDP s))
  | DHCP_run =>
      match s_dhcp s with
      | [] => (answer 0, s)
      | x :: rest => (answer x, sim_set_dhcp rest s)
      end
  | DHCP_stop => (answer 0, sim_set_status (s_dhcp_sock s) SOCK_CLOSED s)
  | DHCP_time_handler => (answer 0, s)
  | GetIPfromDHCP => (answer_bytes 0 (nth 0 (s_lease s) []), s)
  | GetSNfromDHCP => (answer_bytes 0 (nth 1 (s_lease s) []), s)
  | GetGWfromDHCP => (answer_bytes 0 (nth 2 (s_lease s) []), s)
  | GetDNSfromDHCP => (answer_bytes 0 (nth 3 (s_lease s) []), s)
  | DNS_init sn => (answer 0, s)
  | DNS_run dns name => (answer_bytes (fst (s_dns s)) (snd (s_dns s)), s)
  | DNS_time_handler => (answer 0, s)
  | HeapNew size => (answer (if s_heap_ok s then 1 else 0), s)
  end.

Global Instance Sim_chip : Chip Sim := sim_step.

(** A chip with the link up, all sockets closed, and a DHCP server that
    offers 192.168.2.26. *)
Definition sim_idle : Sim :=
  mkSim true (replicate 8 SOCK_CLOSED) (replicate 8 []) 0 [] []
    [[192; 168; 2; 26]; [255; 255; 255; 0]; [192; 168; 2; 1]; [192; 168; 2; 1]]
    (1, [93; 184; 216; 34]) true 0.

(** The singleton as the class initialisers leave it, after [setup]. *)
Definition eth_init : Eth :=
  mkEth ip_zero ip_zero ip_zero ip_zero true false false ATTEMPT None None [] true 0 0.

Definition world_init {Hw} (h : Hw) (e : Eth) : World Hw :=
  mkWorld h [] [] e ∅ ∅ 0%nat [].

(** * Statements

    What the theorems below speak of: the properties the operations are
    measured against, what a pass of the state machine sees of the chip, and
    the concrete worlds of the examples. *)

Section Statements.

Context {Hw : Type} {chip : Chip Hw}.

(** The connection state after [available] stored the first [n] of [bytes]
    behind the [total d] bytes that were buffered. *)
Definition data_topped_up (d : Data) (n : Z) (bytes : list Z) : Data :=
  mkData (sock d) (poke (buffer d) (total d) (take (Z.to_nat n) bytes))
    (offset d) (to_uint16 (total d + n)) (remoteIP d).

(** What [available] does when [offset < total]: the chip as the status
    read finds it is [hw w]; [rc] is the chip's answer to the read of the
    remaining room, [n] the number of bytes it reports; [rc'] is its answer
    in a second call right after the first. *)
Definition available_nonempty_spec (w : World Hw) (c : TCPClient) (d : Data) : Prop :=
  let sn := to_uint8 (sock d) in
  let count := total d - offset d in
  let st := hw_step (GetSockOptStatus sn) (hw w) in
  let room := to_uint16 (TCPCLIENT_BUF_MAX_SIZE - total d) in
  let rc := hw_step (Recv sn room) (snd st) in
  let n := rint (fst rc) in
  let r := available c w in
  (isReady (eth w) = false -> r = (count, w))
  /\ (isReady (eth w) = true ->
      rint (fst st) <> SOCK_ESTABLISHED \/ TCPCLIENT_BUF_MAX_SIZE <= total d ->
      fst r = count /\ datas (snd r) = datas w
      /\ trace (snd r) = trace w ++ [GetSockOptStatus sn])
  /\ (isReady (eth w) = true ->
      rint (fst st) = SOCK_ESTABLISHED -> total d < TCPCLIENT_BUF_MAX_SIZE ->
      room = TCPCLIENT_BUF_MAX_SIZE - total d
      /\ trace (snd r) = trace w ++ [GetSockOptStatus sn; Recv sn room]
      /\ (n <= 0 -> fst r = count /\ datas (snd r) = datas w)
      /\ (0 < n ->
          let d' := data_topped_up d n (rbytes (fst rc)) in
          datas (snd r) !! d_ c = Some d'
          /\ (forall p, p <> d_ c -> datas (snd r) !! p = datas w !! p)
          /\ fst r = total d' - offset d'
          /\ sock d' = sock d /\ offset d' = offset d /\ remoteIP d' = remoteIP d
          /\ (n <= room -> (Z.to_nat n <= length (rbytes (fst rc)))%nat ->
              length (buffer d) = Z.to_nat TCPCLIENT_BUF_MAX_SIZE ->
              total d' = total d + n
              /\ fst r = count + n
              /\ length (buffer d') = length (buffer d)
              /\ take (Z.to_nat (total d)) (buffer d')
                 = take (Z.to_nat (total d)) (buffer d)
              /\ take (Z.to_nat n) (drop (Z.to_nat (total d)) (buffer d'))
                 = take (Z.to_nat n) (rbytes (fst rc)))))
  /\ (let r' := available c (snd r) in
      let st' := hw_step (GetSockOptStatus sn) (hw (snd r)) in
      let rc' := hw_step (Recv sn room) (snd st') in
      n <= 0 -> rint (fst rc') <= 0 ->
      fst r = count /\ fst r' = count /\ datas (snd r') = datas w).

(** The invariant of the cursors of a [Data]. *)
Definition buffer_inv (d : Data) : Prop :=
  0 <= offset d /\ offset d <= total d /\ total d <= TCPCLIENT_BUF_MAX_SIZE.

(** The driver's [recv] never returns more than the length it was asked
    for (a [uint16_t], so not negative). *)
Definition recv_within_request : Prop :=
  forall (sn len : Z) (h : Hw), 0 <= len -> rint (fst (hw_step (Recv sn len) h)) <= len.

(** Running [m] keeps the invariant of the [Data] behind handle [c]. *)
Definition keeps_buffer_inv {A} (c : TCPClient) (m : M Hw A) : Prop :=
  forall (w : World Hw) (d : Data),
    datas w !! d_ c = Some d -> buffer_inv d ->
    exists d', datas (snd (m w)) !! d_ c = Some d' /\ buffer_inv d'.

(** The cursors after an operation that can only leave them or reset them. *)
Definition cursors_kept_or_reset (d d' : Data) : Prop :=
  (offset d' = offset d /\ total d' = total d) \/ (offset d' = 0 /\ total d' = 0).

(** What [leaveMulticast] does, by the status the chip reports for the
    socket of [u] and by its answers during [begin]: [w1] is the world after
    the status read of the guard, [w2] after the [stop] of [leaveMulticast],
    [w3] after the [stop] that [begin] starts with; [found] is the scan for a
    free socket and [opened] the chip's answer to the request to open it. *)
Definition leaveMulticast_spec (w : World Hw) (u : UDP) (ip : Ip4) : Prop :=
  let sn := to_uint8 (udp_sock u) in
  let st := hw_step (GetSockOptStatus sn) (hw w) in
  let w1 := w_set_hw (snd st) (w_set_trace (trace w ++ [GetSockOptStatus sn]) w) in
  let stopped := UDP_flush_buffer (udp_set_sock (-1) u) in
  let w2 := snd (UDP_stop u w1) in
  let w3 := snd (UDP_stop stopped w2) in
  let found := socketGetFree w3 in
  let sock := fst found in
  let opened := hw_step (Socket (to_uint8 sock) Sn_MR_UDP (udp_port u) 0) (hw (snd found)) in
  let r := leaveMulticast u ip w in
  (rint (fst st) <> SOCK_UDP -> r = ((-1, u), w1))
  /\ (rint (fst st) = SOCK_UDP ->
      (rint (fst (hw_step (GetSockOptStatus sn) (snd st))) = SOCK_UDP ->
       trace w2 = trace w ++ [GetSockOptStatus sn; GetSockOptStatus sn; Close sn])
      /\ (exists l, trace (snd found) = trace w2 ++ l)
      /\ eth (snd r) = eth w
      /\ (sock < 0 -> r = ((0, stopped), snd found))
      /\ (0 <= sock -> rint (fst opened) < 0 ->
          fst r = (0, stopped)
          /\ trace (snd r) = trace (snd found) ++ [Socket sock Sn_MR_UDP (udp_port u) 0])
      /\ (0 <= sock -> 0 <= rint (fst opened) ->
          sock < 8
          /\ fst r = (1, udp_set_port (udp_port u) (udp_set_sock sock stopped))
          /\ trace (snd r) = trace (snd found) ++ [Socket sock Sn_MR_UDP (udp_port u) 0]))
  /\ (forall e : Eth, fst (leaveMulticast u ip (w_set_eth e w)) = fst r).

(** What [begin] does: [stop], then a new listener when the interface is
    ready.  [w1] is the world after the [stop], [idle] the server it leaves;
    [found] is the scan for a free socket, [opened] the chip's answer to the
    request to open it and [listening] its answer to the request to listen
    on it. *)
Definition TCPServer_begin_spec (w : World Hw) (s : TCPServer) : Prop :=
  let held := fst (sock_handle (srv_client s) w) in
  let w1 := snd (TCPServer_stop s w) in
  let idle := srv_set_sock (-1) s in
  let found := socketGetFree w1 in
  let slot := fst found in
  let opened := hw_step (Socket (to_uint8 slot) Sn_MR_TCP (srv_port s) 0) (hw (snd found)) in
  let listening := hw_step (Listen (to_uint8 slot)) (snd opened) in
  let r := TCPServer_begin s w in
  trace w1
  = trace w
    ++ (if 0 <=? held then [Disconnect (to_uint8 held)] else [])
    ++ (if 0 <=? srv_sock s then [Disconnect (to_uint8 (srv_sock s))] else [])
  /\ (forall d, datas w !! d_ (srv_client s) = Some d -> 0 <= sock d ->
      held = sock d
      /\ datas w1 !! d_ (srv_client s) = Some (mkData (-1) (buffer d) 0 0 ip_zero))
  /\ (exists l, trace (snd r) = trace w1 ++ l)
  /\ datas (snd r) = datas w1
  /\ (isReady (eth w) = false -> r = ((false, idle), w1))
  /\ (isReady (eth w) = true ->
      (slot < 0 -> r = ((false, idle), snd found))
      /\ (0 <= slot -> rint (fst opened) < 0 ->
          fst r = (false, idle)
          /\ trace (snd r) = trace (snd found) ++ [Socket slot Sn_MR_TCP (srv_port s) 0])
      /\ (0 <= slot -> 0 <= rint (fst opened) -> rint (fst listening) <> SOCK_OK ->
          fst r = (false, srv_set_sock slot s)
          /\ trace (snd r)
             = trace (snd found) ++ [Socket slot Sn_MR_TCP (srv_port s) 0; Listen slot])
      /\ (0 <= slot -> 0 <= rint (fst opened) -> rint (fst listening) = SOCK_OK ->
          slot < 8
          /\ fst r = (true, srv_set_sock slot s)
          /\ trace (snd r)
             = trace (snd found) ++ [Socket slot Sn_MR_TCP (srv_port s) 0; Listen slot]))
  /\ (fst (fst r) = true <->
      isReady (eth w) = true /\ 0 <= slot /\ 0 <= rint (fst opened)
      /\ rint (fst listening) = SOCK_OK).

(** The chip after it served the requests [cs]. *)
Definition chip_after (cs : list HwCall) (h : Hw) : Hw :=
  fold_left (fun h c => snd (hw_step c h)) cs h.

(** The link as [wizphy_getphylink] reports it at the start of a pass. *)
Definition link_is_up (h : Hw) : bool := rint (fst (hw_step PhyLink h)) =? PHY_LINK_ON.

(** The scan of [socketGetFree], on the chip alone. *)
Fixpoint free_scan (n : nat) (ii : Z) (h : Hw) : Z :=
  match n with
  | O => -1
  | S n' =>
      let r := hw_step (GetSockOptStatus ii) h in
      if rint (fst r) =? SOCK_CLOSED then ii else free_scan n' (ii + 1) (snd r)
  end.

(** The socket the ATTEMPT case finds: the scan runs after the link was read
    and, when there is no DHCP buffer yet, after the buffer was allocated. *)
Definition attempt_slot (e : Eth) (h : Hw) : Z :=
  free_scan NUM_SOCKETS 0
    (chip_after (PhyLink :: match dhcpBuffer e with
                            | None => [HeapNew 548]
                            | Some _ => []
                            end) h).

(** The requests the IN_PROGRESS case makes before it runs the protocol. *)
Definition calls_before_dhcp_run (e : Eth) (h : Hw) : list HwCall :=
  let now := rint (fst (hw_step Millis (snd (hw_step PhyLink h)))) in
  [PhyLink; Millis]
  ++ (if 1000 <=? to_uint32 (now - lastDhcpCheck e) then [Millis; DHCP_time_handler] else []).

(** What [DHCP_run] answers in the IN_PROGRESS case of this pass. *)
Definition dhcp_answer (e : Eth) (h : Hw) : Z :=
  rint (fst (hw_step DHCP_run (chip_after (calls_before_dhcp_run e h) h))).

(** The transitions of section 4.2 of the specification, as a table:
    [up] is the link, [slot] the socket found (negative for none), [ans] the
    answer of the protocol, [reg] whether the handlers are registered. *)
Definition dhcp_next (s : DhcpState) (up : bool) (slot ans : Z) (reg : bool) : DhcpState :=
  match s with
  | NOT_USED => NOT_USED
  | ATTEMPT => if up then (if 0 <=? slot then IN_PROGRESS else DONE) else ATTEMPT
  | IN_PROGRESS =>
      if up then (if reg && (ans =? 1) then GOT_ADDRESS else IN_PROGRESS) else CLEANUP
  | GOT_ADDRESS => CLEANUP
  | CLEANUP => DONE
  | CLEANUP_DISABLE => NOT_USED
  | DONE => if up then DONE else ATTEMPT
  end.

(** What the switch sees of the chip: the scan of the ATTEMPT case and the
    answer of the protocol in the IN_PROGRESS case, on the chip as the switch
    finds it. *)
Definition switch_slot (w : World Hw) : Z :=
  free_scan NUM_SOCKETS 0
    (chip_after (match dhcpBuffer (eth w) with
                 | None => [HeapNew 548]
                 | Some _ => []
                 end) (hw w)).

(** The answer of [DHCP_run] as the IN_PROGRESS case gets it, after the
    timer was served. *)
Definition switch_answer (w : World Hw) : Z :=
  let now := rint (fst (hw_step Millis (hw w))) in
  rint (fst (hw_step DHCP_run
               (chip_after
                  (Millis :: if 1000 <=? to_uint32 (now - lastDhcpCheck (eth w))
                             then [Millis; DHCP_time_handler] else [])
                  (hw w)))).

(** Passes that all satisfy [P], which may look at the library state each
    pass starts from and at the chip it finds. *)
Fixpoint ticks_where (P : Eth -> Hw -> Prop) (hs : list Hw) (w : World Hw) : Prop :=
  match hs with
  | [] => True
  | h :: hs' => P (eth w) h /\ ticks_where P hs' (tick h w)
  end.

(** Passes that find the link down, and up. *)
Definition link_down_pass (e : Eth) (h : Hw) : Prop := link_is_up h = false.
Definition link_up_pass (e : Eth) (h : Hw) : Prop := link_is_up h = true.

(** A pass with the link up in which the protocol does not assign a lease. *)
Definition waiting_pass (e : Eth) (h : Hw) : Prop :=
  link_is_up h = true /\ dhcp_answer e h <> 1.





(** The machine is in DHCP mode: static addressing is neither on nor being
    switched on. *)
Definition dhcp_mode (s : DhcpState) : Prop := s <> NOT_USED /\ s <> CLEANUP_DISABLE.

(** A pass in which no lease arrives: the protocol does not call the assign
    or the update handler. *)
Definition no_lease_pass (e : Eth) (h : Hw) : Prop :=
  ~ (dhcpState e = IN_PROGRESS /\ dhcpCbRegistered e = true
     /\ (dhcp_answer e h = 1 \/ dhcp_answer e h = 2)).

End Statements.

(** A client on socket 0 with one byte buffered; the interface is ready, the
    socket is established and three more bytes wait in the chip. *)
Definition c1_client : TCPClient := mkTCPClient 0 0 0.
Definition c1_data : Data :=
  mkData 0 (poke (buffer (Data_init 0)) 0 [42]) 0 1 (mkIp4 192 168 2 6).
Definition c1_world : World Sim :=
  w_set_datas {[ 0%nat := c1_data ]}
    (world_init (sim_set_rx 0 [7; 8; 9] (sim_set_status 0 SOCK_ESTABLISHED sim_idle))
                (eth_set_isReady true eth_init)).

(** A UDP object bound to socket 0 and port 5000 whose socket the chip
    reports as closed. *)
Definition c6_udp : UDP := udp_set_port 5000 (udp_set_sock 0 UDP_new).
Definition c6_world : World Sim := world_init sim_idle (eth_set_isReady true eth_init).

(** A server listening on socket 0, whose most recently accepted client is
    connected on socket 1, with the interface ready. *)
Definition c7_client_data : Data := mkData 1 (buffer (Data_init 1)) 0 0 (mkIp4 192 168 2 6).
Definition c7_server : TCPServer := mkTCPServer 4550 0 0 (mkTCPClient 0 0 0) 0.
Definition c7_world : World Sim :=
  w_set_datas {[ 0%nat := c7_client_data ]}
    (world_init (sim_set_status 1 SOCK_ESTABLISHED (sim_set_status 0 SOCK_LISTEN sim_idle))
                (eth_set_isReady true eth_init)).

(** A client connected on socket 0 of a ready interface. *)
Definition tcp_client : TCPClient := mkTCPClient 0 0 0.
Definition tcp_data : Data := mkData 0 (buffer (Data_init 0)) 0 0 (mkIp4 192 168 2 6).
Definition tcp_world (chip_state : Sim) : World Sim :=
  w_set_datas {[ 0%nat := tcp_data ]}
    (world_init (sim_set_status 0 SOCK_ESTABLISHED chip_state)
                (eth_set_isReady true eth_init)).

(** The chip with the link down. *)
Definition sim_down : Sim := sim_set_link false sim_idle.

(** The protocol assigns its lease in this pass. *)
Definition sim_lease : Sim := sim_set_dhcp [1] sim_idle.

(** The run of C2 with a short drop of the link: from ATTEMPT, a pass with
    the link down, a pass with the link up, the pass in which the lease
    arrives, [drop] passes with the link down, and the link up again. *)
Definition c2_world : World Sim := world_init sim_down eth_init.
Definition c2_passes (drop : nat) : list Sim :=
  [sim_down; sim_idle; sim_lease] ++ replicate drop sim_down ++ [sim_idle].

(** A UDP object bound to socket 0 and port 5000 whose socket is open, on an
    interface that is not ready. *)
Definition c6_open_world : World Sim :=
  world_init (sim_set_status 0 SOCK_UDP sim_idle) eth_init.


(** Static addressing with 192.168.2.26 configured, link down. *)
Definition eth_static : Eth :=
  mkEth (mkIp4 192 168 2 26) (mkIp4 255 255 255 0) (mkIp4 192 168 2 1) (mkIp4 192 168 2 1)
    true false false NOT_USED None None [] true 0 0.

(** ** The MAC address (nRF52840) *)

(** [__builtin_bswap32] *)
Definition bswap32 (x : Z) : Z :=
  Z.lor (Z.shiftl (Z.land x 255) 24)
    (Z.lor (Z.shiftl (Z.land (Z.shiftr x 8) 255) 16)
       (Z.lor (Z.shiftl (Z.land (Z.shiftr x 16) 255) 8)
          (Z.land (Z.shiftr x 24) 255))).

(** The four bytes [memcpy] reads from a [uint32_t] on the little-endian
    core. *)
Definition bytes_of_uint32 (x : Z) : list Z :=
  [Z.land x 255; Z.land (Z.shiftr x 8) 255; Z.land (Z.shiftr x 16) 255;
   Z.land (Z.shiftr x 24) 255].

(** [setMacAddress()]: the six bytes of [macAddr], from the two words of
    [NRF_FICR->DEVICEADDR]. *)
Definition setMacAddress (deviceaddr0 deviceaddr1 : Z) : list Z :=
  let lsb := bswap32 (to_uint32 deviceaddr0) in
  let msb := Z.land (to_uint32 deviceaddr1) 65535 in
  let m0 := to_uint8 (Z.shiftr msb 8) in
  let m1 := to_uint8 msb in
  let m0 := Z.land m0 254 in
  let m0 := Z.lor m0 2 in
  [m0; m1] ++ bytes_of_uint32 lsb.

(** ** The log bridge of the WIZnet code *)

(** The loop of [wizchip_debug] that copies the format string into
    [fmt2] without its carriage returns and line feeds; [room] is
    [dstEnd - dst].  The string ends at its first zero byte. *)
Fixpoint strip_newlines (room : nat) (src : list Z) : list Z :=
  match src with
  | [] => []
  | c :: rest =>
      if c =? 0 then []
      else
        match room with
        | O => []
        | S room' =>
            if negb (c =? 13) && negb (c =? 10) then c :: strip_newlines room' rest
            else strip_newlines room rest
        end
  end.

(** [fmt2] as [wizchip_debug] hands it to [vsnprintf]: [char fmt2[100]],
    [dstEnd = &fmt2[sizeof(fmt2) - 1]]. *)
Definition wizchip_debug_fmt2 (fmt : list Z) : list Z := strip_newlines 99 fmt.

(** ** What the further theorems speak of *)

Section MoreStatements.

Context {Hw : Type} {chip : Chip Hw}.

(** The status reads of sockets [ii], [ii + 1], ... ([n] of them). *)
Fixpoint status_reads (n : nat) (ii : Z) : list HwCall :=
  match n with
  | O => []
  | S n' => GetSockOptStatus ii :: status_reads n' (ii + 1)
  end.

(** The status the chip reports for socket [ii + k] when it is asked after
    the [k] sockets before it. *)
Definition status_seen (ii : Z) (k : nat) (h : Hw) : Z :=
  rint (fst (hw_step (GetSockOptStatus (ii + Z.of_nat k)) (chip_after (status_reads k ii) h))).

(** The requests that belong to the DHCP code. *)
Definition is_dhcp_call (c : HwCall) : bool :=
  match c with
  | DHCP_init _ | DHCP_run | DHCP_stop | DHCP_time_handler
  | GetIPfromDHCP | GetSNfromDHCP | GetGWfromDHCP | GetDNSfromDHCP => true
  | _ => false
  end.

(** The link notifications made so far, in order. *)
Definition link_fired (w : World Hw) : list (CallbackType * nat) :=
  List.filter (fun ev => negb (bool_decide (fst ev = gotIpAddress))) (fired w).

(** A pass that finds the link as the library last recorded it. *)
Definition link_unchanged_pass (e : Eth) (h : Hw) : Prop := link_is_up h = phyLink e.

(** Static addressing is on, or will be after the next pass. *)
Definition static_mode (s : DhcpState) : Prop := s = NOT_USED \/ s = CLEANUP_DISABLE.

(** The four keys of [loadJsonConfig] that carry an address. *)
Definition is_address_key (name : string) : bool :=
  bool_decide (name = "ipAddr") || bool_decide (name = "subnetMask")
  || bool_decide (name = "gatewayAddr") || bool_decide (name = "dnsAddr").

(** The key that switches DHCP on. *)
Definition turns_dhcp_on (kv : string * ConfigValue) : bool :=
  bool_decide (fst kv = "DHCP") && cv_bool (snd kv).

(** The bytes of an address are bytes. *)
Definition ip_bytes (a : Ip4) : Prop :=
  0 <= b0 a < 256 /\ 0 <= b1 a < 256 /\ 0 <= b2 a < 256 /\ 0 <= b3 a < 256.

(** The first byte after the two bit operations, checked on every byte. *)
Definition mac_first_byte_ok (x : Z) : bool :=
  let m := Z.lor (Z.land x 254) 2 in
  (0 <=? m) && (m <? 256) && negb (Z.testbit m 0) && Z.testbit m 1
  && (Z.shiftr m 2 =? Z.shiftr x 2).

(** A C string: the bytes before the first zero. *)
Fixpoint c_string (s : list Z) : list Z :=
  match s with
  | [] => []
  | c :: rest => if c =? 0 then [] else c :: c_string rest
  end.

(** Neither a carriage return nor a line feed. *)
Definition not_newline (c : Z) : bool := negb (c =? 13) && negb (c =? 10).

(** The object [releaseBuffer] leaves. *)
Definition UDP_released (u : UDP) : UDP :=
  UDP_flush_buffer
    (udp_set_buffer_size 0 (udp_set_buffer_allocated false (udp_set_buffer None u))).

End MoreStatements.

(** A client on socket 0, which the chip reports as established with three
    bytes waiting; [rdy] is the state of the interface, [d] the connection
    state. *)
Definition x_client : TCPClient := mkTCPClient 0 0 0.
Definition x_peer : Ip4 := mkIp4 192 168 2 6.
Definition x_chip : Sim := sim_set_rx 0 [7; 8; 9] (sim_set_status 0 SOCK_ESTABLISHED sim_idle).
Definition x_world (rdy : bool) (d : Data) : World Sim :=
  w_set_datas {[ 0%nat := d ]} (world_init x_chip (eth_set_isReady rdy eth_init)).

(** Three bytes received, the first of them read. *)
Definition x_buffered : Data :=
  mkData 0 (poke (buffer (Data_init 0)) 0 [10; 20; 30]) 1 3 x_peer.

(** Nothing buffered. *)
Definition x_empty : Data := mkData 0 (buffer (Data_init 0)) 0 0 x_peer.

(** A chip without memory left, and one with all sockets in use. *)
Definition x_chip_no_memory : Sim :=
  mkSim true (replicate 8 SOCK_CLOSED) (replicate 8 []) 0 [] [] [] (0, []) false 0.
Definition x_chip_no_socket : Sim :=
  mkSim true (replicate 8 SOCK_ESTABLISHED) (replicate 8 []) 0 [] [] [] (0, []) true 0.


(** A [UDP] object on socket 2 with a buffer of eight bytes in block 0, the
    cursor after the first two. *)
Definition x_udp : UDPmem :=
  mkUDPmem (mkUDP 2 5000 ip_zero 0 2 0 (Some 0%nat) 8 0 true) [1; 2; 0; 0; 0; 0; 0; 0].

(** A chip with socket 2 open for UDP and a datagram of three bytes. *)
Definition x_chip_udp : Sim := sim_set_rx 2 [5; 6; 7] (sim_set_status 2 SOCK_UDP sim_idle).

(** A chip that refuses to open a socket (SOCKERR_SOCKMODE, -5) or to
    listen on one (SOCKERR_SOCKINIT, -3), and is [sim_idle] otherwise. *)
Record Refusing := mkRefusing {
  rf_sim : Sim;
  rf_socket : bool;
  rf_listen : bool
}.

Definition refusing_step (c : HwCall) (s : Refusing) : Resp * Refusing :=
  match c with
  | Socket _ _ _ _ =>
      if rf_socket s then (answer (-5), s)
      else (fst (sim_step c (rf_sim s)),
            mkRefusing (snd (sim_step c (rf_sim s))) (rf_socket s) (rf_listen s))
  | Listen _ =>
      if rf_listen s then (answer (-3), s)
      else (fst (sim_step c (rf_sim s)),
            mkRefusing (snd (sim_step c (rf_sim s))) (rf_socket s) (rf_listen s))
  | _ => (fst (sim_step c (rf_sim s)),
          mkRefusing (snd (sim_step c (rf_sim s))) (rf_socket s) (rf_listen s))
  end.

Global Instance Refusing_chip : Chip Refusing := refusing_step.

(** A server for port 4550 that holds no socket. *)
Definition x_server : TCPServer := mkTCPServer 4550 0 (-1) (mkTCPClient 0 0 0) 0.

(** The library in static mode as [setup] leaves it then: the handlers of
    the DHCP code are not registered. *)
Definition x_world_unregistered : World Sim :=
  world_init sim_idle (eth_set_dhcpCbRegistered false eth_static).

(** * Proofs *)

(** ** Symbolic execution of the monad *)

Ltac mproj :=
  cbn [fst snd hw trace fired eth datas live next_block faults
       w_set_hw w_set_trace w_set_fired w_set_eth w_set_datas w_set_live
       w_set_next_block w_set_faults
       ipAddr subnetMaskArray gatewayAddr dnsAddr setupDone phyLink isReady dhcpState
       dhcpBuffer dnsBuffer callbacks dhcpCbRegistered lastDhcpCheck lastDnsCheck
       eth_set_ipAddr eth_set_subnetMaskArray eth_set_gatewayAddr eth_set_dnsAddr
       eth_set_phyLink eth_set_isReady eth_set_dhcpState eth_set_dhcpBuffer
       eth_set_dnsBuffer eth_set_dhcpCbRegistered eth_set_lastDhcpCheck
       eth_set_lastDnsCheck
       sock buffer offset total remoteIP
       data_set_sock data_set_buffer data_set_offset data_set_total data_set_remoteIP
       d_ write_error nif_ setWriteError clearWriteError set_nif
       srv_port srv_nif srv_sock srv_client srv_write_error srv_set_sock
       udp_sock udp_port udp_remoteIP udp_remotePort udp_offset udp_total udp_buffer
       udp_buffer_size udp_nif udp_buffer_allocated
       udp_set_sock udp_set_port udp_set_remote UDP_flush_buffer].

Tactic Notation "mproj" "in" hyp(H) :=
  cbn [fst snd hw trace fired eth datas live next_block faults
       w_set_hw w_set_trace w_set_fired w_set_eth w_set_datas w_set_live
       w_set_next_block w_set_faults] in H.

Tactic Notation "mproj" "in" "*" :=
  cbn [fst snd sock buffer offset total remoteIP
       data_set_sock data_set_buffer data_set_offset data_set_total data_set_remoteIP]
    in *.

Ltac mrun :=
  cbv beta iota zeta delta
    [bind ret gets modify get_eth mod_eth when call fault getD modD sock_handle
     isOpen UDP_isOpen ready bufferCount flush_buffer callCallbacks
     new_array delete_array use_buffer];
  mproj.

(** Case analysis on the first test of the goal whose condition is closed. *)
Ltac case_bool b :=
  lazymatch b with
  | negb ?b' => case_bool b'
  | andb ?b1 _ => case_bool b1
  | orb ?b1 _ => case_bool b1
  | Z.ltb ?x ?y => destruct (Z.ltb_spec x y)
  | Z.leb ?x ?y => destruct (Z.leb_spec x y)
  | Z.eqb ?x ?y => destruct (Z.eqb_spec x y)
  | bool_decide _ => case_bool_decide
  | _ => destruct b eqn:?
  end.

Ltac case_test :=
  match goal with
  | |- context [if ?b then _ else _] =>
      lazymatch b with
      | context [if _ then _ else _] => fail
      | _ => idtac
      end;
      case_bool b; cbn [negb andb orb]
  end.

Ltac case_opt :=
  match goal with
  | |- context [match ?x with Some _ => _ | None => _ end] =>
      lazymatch x with
      | context [if _ then _ else _] => fail
      | context [match _ with Some _ => _ | None => _ end] => fail
      | _ => idtac
      end;
      destruct x eqn:?; try congruence
  end.

Ltac case_state :=
  match goal with
  | |- context [match ?x with
                | NOT_USED => _ | ATTEMPT => _ | IN_PROGRESS => _ | GOT_ADDRESS => _
                | CLEANUP => _ | CLEANUP_DISABLE => _ | DONE => _
                end] =>
      lazymatch x with
      | context [if _ then _ else _] => fail
      | _ => idtac
      end;
      destruct x eqn:?; try congruence
  end.

Ltac rw_lookup :=
  repeat match goal with
         | H : datas _ !! _ = Some _ |- _ => rewrite H
         end.

(** Run the goal forward: project, look up, split on the next test. *)
Section Frames.

Context {Hw : Type} {chip : Chip Hw}.

(** The scan for a free socket talks to the chip and changes nothing else. *)
Lemma socketGetFree_from_frame (n : nat) (ii : Z) (w : World Hw) :
  let w' := snd (socketGetFree_from n ii w) in
  eth w' = eth w /\ datas w' = datas w /\ fired w' = fired w
  /\ live w' = live w /\ next_block w' = next_block w /\ faults w' = faults w.
Proof.
  revert ii w. induction n as [|n IH]; intros ii w; cbn [socketGetFree_from].
  - mrun. auto 10.
  - mrun. case_test; mproj.
    + auto 10.
    + cbv zeta. specialize (IH (ii + 1) (w_set_hw (snd (hw_step (GetSockOptStatus ii) (hw w)))
                                 (w_set_trace (trace w ++ [GetSockOptStatus ii]) w))).
      cbv zeta in IH. mproj in IH. exact IH.
Qed.

Lemma socketGetFree_eth (w : World Hw) : eth (snd (socketGetFree w)) = eth w.
Proof. apply socketGetFree_from_frame. Qed.

Lemma socketGetFree_datas (w : World Hw) : datas (snd (socketGetFree w)) = datas w.
Proof. apply socketGetFree_from_frame. Qed.

Lemma socketGetFree_fired (w : World Hw) : fired (snd (socketGetFree w)) = fired w.
Proof. apply socketGetFree_from_frame. Qed.

Lemma socketGetFree_live (w : World Hw) : live (snd (socketGetFree w)) = live w.
Proof. apply socketGetFree_from_frame. Qed.

Lemma socketGetFree_next_block (w : World Hw) :
  next_block (snd (socketGetFree w)) = next_block w.
Proof. apply socketGetFree_from_frame. Qed.

Lemma socketGetFree_faults (w : World Hw) : faults (snd (socketGetFree w)) = faults w.
Proof. apply socketGetFree_from_frame. Qed.

End Frames.

Ltac rw_frames :=
  lazymatch goal with
  | |- context [socketGetFree] =>
      rewrite ?socketGetFree_eth, ?socketGetFree_datas, ?socketGetFree_fired,
              ?socketGetFree_live, ?socketGetFree_next_block, ?socketGetFree_faults
  | |- _ => idtac
  end.

Ltac mexec :=
  repeat (cbv beta iota; mproj; rw_frames; mproj; rewrite ?lookup_alter_eq; rw_lookup;
          cbn [fmap option_fmap option_map]; try first [case_test | case_opt | case_state]).

Lemma alter_same_data (m : gmap nat Data) (p : nat) (f : Data -> Data) (d : Data) :
  m !! p = Some d -> alter f p m !! p = Some (f d).
Proof. intros H. rewrite lookup_alter_eq, H. reflexivity. Qed.

(** ** [memcpy] into a buffer *)

Lemma poke_length (buf : list Z) (pos : Z) (bytes : list Z) :
  (Z.to_nat pos + length bytes <= length buf)%nat ->
  length (poke buf pos bytes) = length buf.
Proof.
  intros H. unfold poke. rewrite !length_app, length_take, length_drop. lia.
Qed.

Lemma poke_before (buf : list Z) (pos : Z) (bytes : list Z) :
  (Z.to_nat pos <= length buf)%nat ->
  take (Z.to_nat pos) (poke buf pos bytes) = take (Z.to_nat pos) buf.
Proof.
  intros H. unfold poke. rewrite take_app_le by (rewrite length_take; lia).
  rewrite take_take. f_equal. lia.
Qed.

Lemma poke_at (buf : list Z) (pos : Z) (bytes : list Z) :
  (Z.to_nat pos <= length buf)%nat ->
  take (length bytes) (drop (Z.to_nat pos) (poke buf pos bytes)) = bytes.
Proof.
  intros H. unfold poke.
  rewrite drop_app_length' by (rewrite length_take; lia).
  rewrite take_app_length. reflexivity.
Qed.

(** ** C1: [available] on a buffer that is not empty *)

Section Available.

Context {Hw : Type} {chip : Chip Hw}.

Lemma available_result (w : World Hw) (c : TCPClient) :
  fst (available c w) = fst (bufferCount c (snd (available c w))).
Proof. unfold available. mrun. reflexivity. Qed.

Lemma bufferCount_eq (w : World Hw) (c : TCPClient) (d : Data) :
  datas w !! d_ c = Some d -> fst (bufferCount c w) = total d - offset d.
Proof. intros H. mrun. rewrite H. reflexivity. Qed.

Lemma available_eth (w : World Hw) (c : TCPClient) :
  eth (snd (available c w)) = eth w.
Proof. unfold available, flush_buffer. mrun. mexec; reflexivity. Qed.

(** [available] on a buffer that is not empty, when the chip has nothing to
    deliver: the count is returned and the connection state stays as it
    is. *)
Lemma available_nonempty_quiet (w : World Hw) (c : TCPClient) (d : Data) :
  datas w !! d_ c = Some d ->
  0 <= offset d < total d ->
  rint (fst (hw_step (Recv (to_uint8 (sock d)) (to_uint16 (TCPCLIENT_BUF_MAX_SIZE - total d)))
               (snd (hw_step (GetSockOptStatus (to_uint8 (sock d))) (hw w))))) <= 0 ->
  fst (available c w) = total d - offset d /\ datas (snd (available c w)) = datas w.
Proof.
  intros Hd Hne Hq.
  assert (Hc : negb (total d =? 0) && (offset d =? total d) = false).
  { apply andb_false_iff. right. apply Z.eqb_neq. lia. }
  unfold available. mrun. rewrite Hd. mproj. rewrite Hc. mproj.
  destruct (isReady (eth w)); cbv beta iota; mproj; rewrite ?Hd; [|auto].
  case_test; cbv beta iota; mproj; rewrite ?Hd; [|auto].
  case_test; cbv beta iota; mproj; rewrite ?Hd; [|auto].
  case_test; cbv beta iota; mproj; rewrite ?Hd; [lia | auto].
Qed.

(** C1, as amended.  With bytes still buffered ([offset < total]),
    [available] reads nothing from the chip when the interface is not ready,
    when the socket is not established, or when the buffer is full, and then
    returns [total - offset] and leaves the buffer as it is.  When the
    interface is ready, the socket is established and there is room, it does
    read from the chip, asking for the remaining room.  The [n > 0] bytes the
    chip delivers are stored behind the buffered ones: the bytes before
    [total] and the read cursor stay, [total] grows by [n], and the result is
    the new [total - offset].  When the chip delivers nothing, nothing
    changes.  Two calls in a row to which the chip delivers nothing return
    the same count and leave the connection state as it was. *)
Theorem available_nonempty (w : World Hw) (c : TCPClient) (d : Data) :
  datas w !! d_ c = Some d ->
  0 <= offset d < total d ->
  available_nonempty_spec w c d.
Proof.
  intros Hd Hne.
  assert (Hc : negb (total d =? 0) && (offset d =? total d) = false).
  { apply andb_false_iff. right. apply Z.eqb_neq. lia. }
  unfold available_nonempty_spec. cbv zeta.
  split; [|split; [|split]].
  - intros Hr. unfold available. mrun.
    rewrite Hd. mproj. rewrite Hc. mproj. rewrite Hr. mproj. rewrite Hd. reflexivity.
  - intros Hr Hno. unfold available. mrun.
    rewrite Hd. mproj. rewrite Hc. mproj. rewrite Hr. mproj. rewrite Hd.
    case_test; cbv beta; mproj; rewrite ?Hd.
    + case_test; cbv beta; mproj; rewrite ?Hd; [lia|]. auto.
    + auto.
  - intros Hr Hst Hroom.
    assert (Hrm : to_uint16 (TCPCLIENT_BUF_MAX_SIZE - total d)
                  = TCPCLIENT_BUF_MAX_SIZE - total d).
    { unfold to_uint16, TCPCLIENT_BUF_MAX_SIZE in *. apply Z.mod_small. lia. }
    split; [exact Hrm|].
    unfold available. mrun.
    rewrite Hd. mproj. rewrite Hc. mproj. rewrite Hr. mproj. rewrite Hd.
    rewrite Hst. change (SOCK_ESTABLISHED =? SOCK_ESTABLISHED) with true.
    cbv beta iota. mproj. rewrite Hd.
    case_test; [|lia]. cbv beta; mproj.
    set (rc := hw_step (Recv _ _) _).
    destruct (Z.ltb_spec 0 (rint rc.1)) as [Hpos|Hnpos]; cbv beta; mproj.
    + destruct (Z.eqb_spec (total d) 0) as [H0|_]; [lia|]. cbv beta; mproj.
      split; [rewrite <- app_assoc; reflexivity|].
      split; [intros; lia|]. intros _.
      rewrite !lookup_alter_eq, Hd. cbn [fmap option_fmap option_map]. mproj.
      split; [reflexivity|].
      split; [intros p Hp; rewrite !lookup_alter_ne by congruence; reflexivity|].
      split; [reflexivity|].
      unfold data_topped_up. cbn [sock offset remoteIP total buffer].
      split; [reflexivity|]. split; [reflexivity|]. split; [reflexivity|].
      intros Hfit Hgot Hlen.
      assert (Hn : Z.to_nat (rint rc.1) = length (take (Z.to_nat (rint rc.1)) (rbytes rc.1))).
      { rewrite length_take. lia. }
      assert (Htot : to_uint16 (total d + rint rc.1) = total d + rint rc.1).
      { unfold to_uint16, TCPCLIENT_BUF_MAX_SIZE in *. apply Z.mod_small. lia. }
      assert (Hin : (Z.to_nat (total d) + Z.to_nat (rint rc.1) <= length (buffer d))%nat).
      { rewrite Hlen. unfold TCPCLIENT_BUF_MAX_SIZE in *. lia. }
      rewrite Htot.
      split; [reflexivity|]. split; [lia|].
      split; [apply poke_length; rewrite <- Hn; exact Hin|].
      split; [apply poke_before; lia|].
      rewrite Hn at 1. apply poke_at. lia.
    + split; [rewrite <- app_assoc; reflexivity|].
      split; [intros _; rewrite Hd; auto|]. intros. lia.
  - intros Hq1 Hq2.
    destruct (available_nonempty_quiet w c d Hd Hne Hq1) as (Hr1 & Hd1).
    assert (Hd' : datas (snd (available c w)) !! d_ c = Some d) by (rewrite Hd1; exact Hd).
    destruct (available_nonempty_quiet _ c d Hd' Hne Hq2) as (Hr2 & Hd2).
    rewrite Hr1, Hr2, Hd2, Hd1. auto.
Qed.

End Available.

(** C1, counterexample: with one byte buffered and three more waiting in the
    chip, [available] reads them and returns 4, not [total - offset = 1]. *)
Lemma available_reads_chip_when_not_drained :
  datas c1_world !! d_ c1_client = Some c1_data
  /\ offset c1_data < total c1_data
  /\ total c1_data - offset c1_data = 1
  /\ fst (available c1_client c1_world) = 4
  /\ trace (snd (available c1_client c1_world)) = [GetSockOptStatus 0; Recv 0 2047].
Proof. vm_compute. repeat split; reflexivity. Qed.

(** The amended C1 on that same call: the three bytes the chip delivers are
    stored behind the buffered one, the read cursor stays, and the result is
    the new count. *)
Lemma available_nonempty_witness :
  datas c1_world !! d_ c1_client = Some c1_data
  /\ 0 <= offset c1_data < total c1_data
  /\ fst (available c1_client c1_world) = 4
  /\ exists d', datas (snd (available c1_client c1_world)) !! d_ c1_client = Some d'
                /\ offset d' = 0 /\ total d' = 4 /\ take 4 (buffer d') = [42; 7; 8; 9].
Proof.
  assert (H1 : datas c1_world !! d_ c1_client = Some c1_data) by (vm_compute; reflexivity).
  assert (H2 : 0 <= offset c1_data < total c1_data) by (cbn; lia).
  split; [exact H1 | split; [exact H2 |]].
  pose proof (available_nonempty c1_world c1_client c1_data H1 H2) as H.
  unfold available_nonempty_spec in H. cbv zeta in H.
  destruct H as (_ & _ & H & _).
  destruct (H eq_refl ltac:(vm_compute; reflexivity) ltac:(vm_compute; reflexivity))
    as (_ & _ & _ & Hpos).
  destruct (Hpos ltac:(vm_compute; reflexivity)) as (Hd' & _ & Hres & _).
  split; [exact Hres|].
  exists (data_topped_up c1_data 3 [7; 8; 9]).
  split; [exact Hd'|]. vm_compute. repeat split; reflexivity.
Defined.

(** ** Stepping through a run, one bind at a time *)

Create HintDb mops discriminated.

#[global] Hint Unfold when fault new_array delete_array use_buffer callCallbacks ready
  run_DHCP dhcp_ip_assign dhcp_ip_update dhcp_ip_conflict
  updateAddressSettingsFromDHCP updateAddressSettings
  dhcp_case_ATTEMPT dhcp_case_IN_PROGRESS dhcp_case_GOT_ADDRESS dhcp_case_CLEANUP
  dhcp_case_DONE stateMachine_link stateMachine_dns withDHCP withStaticIP : mops.

Ltac minline := repeat autounfold with mops.

Section RunEquations.

Context {Hw : Type} {chip : Chip Hw}.

Lemma run_bind_assoc {A B C} (m : M Hw A) (k1 : A -> M Hw B) (k2 : B -> M Hw C) w :
  bind (bind m k1) k2 w = bind m (fun x => bind (k1 x) k2) w.
Proof. reflexivity. Qed.

Lemma run_bind_ret {A B} (a : A) (k : A -> M Hw B) w : bind (ret a) k w = k a w.
Proof. reflexivity. Qed.

Lemma run_bind_gets {A B} (f : World Hw -> A) (k : A -> M Hw B) w :
  bind (gets f) k w = k (f w) w.
Proof. reflexivity. Qed.

Lemma run_bind_get_eth {A B} (f : Eth -> A) (k : A -> M Hw B) w :
  bind (get_eth f) k w = k (f (eth w)) w.
Proof. reflexivity. Qed.

Lemma run_bind_modify {B} (f : World Hw -> World Hw) (k : unit -> M Hw B) w :
  bind (modify f) k w = k tt (f w).
Proof. reflexivity. Qed.

Lemma run_bind_mod_eth {B} (f : Eth -> Eth) (k : unit -> M Hw B) w :
  bind (mod_eth f) k w = k tt (w_set_eth (f (eth w)) w).
Proof. reflexivity. Qed.

Lemma run_bind_call {B} (c : HwCall) (k : Resp -> M Hw B) w :
  bind (call c) k w
  = k (fst (hw_step c (hw w)))
      (w_set_hw (snd (hw_step c (hw w))) (w_set_trace (trace w ++ [c]) w)).
Proof. reflexivity. Qed.

Lemma run_bind_other {A B} (m : M Hw A) (k : A -> M Hw B) w :
  bind m k w = k (fst (m w)) (snd (m w)).
Proof. reflexivity. Qed.

Lemma run_ret {A} (a : A) (w : World Hw) : ret a w = (a, w).
Proof. reflexivity. Qed.

Lemma run_gets {A} (f : World Hw -> A) w : gets f w = (f w, w).
Proof. reflexivity. Qed.

Lemma run_get_eth {A} (f : Eth -> A) (w : World Hw) : get_eth f w = (f (eth w), w).
Proof. reflexivity. Qed.

Lemma run_modify (f : World Hw -> World Hw) w : modify f w = (tt, f w).
Proof. reflexivity. Qed.

Lemma run_mod_eth (f : Eth -> Eth) (w : World Hw) :
  mod_eth f w = (tt, w_set_eth (f (eth w)) w).
Proof. reflexivity. Qed.

Lemma run_call (c : HwCall) (w : World Hw) :
  call c w
  = (fst (hw_step c (hw w)),
     w_set_hw (snd (hw_step c (hw w))) (w_set_trace (trace w ++ [c]) w)).
Proof. reflexivity. Qed.

End RunEquations.

Ltac mstep :=
  match goal with
  | |- context [@bind _ _ _ ?m ?k ?w] =>
      lazymatch m with
      | bind _ _ => rewrite (run_bind_assoc _ _ k w)
      | ret _ => rewrite (run_bind_ret _ k w)
      | gets _ => rewrite (run_bind_gets _ k w)
      | get_eth _ => rewrite (run_bind_get_eth _ k w)
      | modify _ => rewrite (run_bind_modify _ k w)
      | mod_eth _ => rewrite (run_bind_mod_eth _ k w)
      | call _ => rewrite (run_bind_call _ k w)
      | (if ?b then _ else _) => case_bool b; cbn [negb andb orb]
      | match ?x with Some _ => _ | None => _ end => destruct x eqn:?
      | _ => rewrite (run_bind_other m k w)
      end
  | |- context [(if ?b then _ else _) ?w] => case_bool b; cbn [negb andb orb]
  | |- context [(match ?x with Some _ => _ | None => _ end) ?w] => destruct x eqn:?
  | |- context [@ret _ _ ?a ?w] => rewrite (run_ret a w)
  | |- context [@gets _ _ ?f ?w] => rewrite (run_gets f w)
  | |- context [@get_eth _ _ ?f ?w] => rewrite (run_get_eth f w)
  | |- context [@modify _ ?f ?w] => rewrite (run_modify f w)
  | |- context [@mod_eth _ ?f ?w] => rewrite (run_mod_eth f w)
  | |- context [@call _ _ ?c ?w] => rewrite (run_call c w)
  end;
  cbv beta; mproj; rw_frames; mproj.

Ltac msteps := repeat mstep.

(** ** C8: the cursors of the receive buffer *)

Section BufferInvariant.

Context {Hw : Type} {chip : Chip Hw}.

Lemma to_uint16_small (z : Z) : 0 <= z < 65536 -> to_uint16 z = z.
Proof. intros H. unfold to_uint16. apply Z.mod_small. lia. Qed.

Lemma to_uint32_small (z : Z) : 0 <= z < 4294967296 -> to_uint32 z = z.
Proof. intros H. unfold to_uint32. apply Z.mod_small. lia. Qed.

Lemma to_int32_small (z : Z) : 0 <= z < 2147483648 -> to_int32 z = z.
Proof.
  intros H. unfold to_int32. rewrite Z.mod_small by lia.
  destruct (Z.ltb_spec z 2147483648); lia.
Qed.

Lemma cap_value : TCPCLIENT_BUF_MAX_SIZE = 2048.
Proof. reflexivity. Qed.

Ltac use_recv Hrecv :=
  repeat match goal with
         | |- context [hw_step (Recv ?a ?b) ?h] =>
             lazymatch goal with
             | _ : rint (fst (hw_step (Recv a b) h)) <= b |- _ => fail
             | _ =>
                 assert (rint (fst (hw_step (Recv a b) h)) <= b)
                   by (apply Hrecv; unfold to_uint16; apply Z.mod_pos_bound; lia)
             end
         end.

Ltac cursor_arith :=
  unfold buffer_inv, cursors_kept_or_reset, to_uint16, to_uint32, to_int32 in *;
  mproj in *; Z.div_mod_to_equations; try lia.

Lemma available_inv (c : TCPClient) (w : World Hw) (d : Data) :
  recv_within_request ->
  datas w !! d_ c = Some d -> buffer_inv d ->
  exists d', datas (snd (available c w)) !! d_ c = Some d' /\ buffer_inv d'
             /\ fst (available c w) = total d' - offset d'.
Proof.
  intros Hrecv Hd (H0 & H1 & H2). pose proof cap_value as Hcap.
  unfold available. mrun. mexec.
  all: eexists; (split; [reflexivity|]); unfold buffer_inv; mproj.
  all: use_recv Hrecv; cursor_arith.
Qed.

Lemma flush_buffer_resets (c : TCPClient) (w : World Hw) (d : Data) :
  datas w !! d_ c = Some d ->
  exists d', datas (snd (flush_buffer c w)) !! d_ c = Some d'
             /\ offset d' = 0 /\ total d' = 0.
Proof. intros Hd. mrun. mexec. eexists. split; [reflexivity|]. mproj. auto. Qed.

Lemma stop_cursors (c : TCPClient) (w : World Hw) (d : Data) :
  datas w !! d_ c = Some d ->
  exists d', datas (snd (stop c w)) !! d_ c = Some d' /\ cursors_kept_or_reset d d'.
Proof.
  intros Hd. unfold stop. mrun. mexec.
  all: eexists; (split; [reflexivity|]); unfold cursors_kept_or_reset; mproj; auto.
Qed.

Lemma have_data_inv (c : TCPClient) (w : World Hw) (d : Data) :
  recv_within_request ->
  datas w !! d_ c = Some d -> buffer_inv d ->
  exists d', datas (snd (have_data c w)) !! d_ c = Some d' /\ buffer_inv d'
             /\ (fst (have_data c w) = true -> offset d' < total d').
Proof.
  intros Hrecv Hd Hinv.
  destruct (available_inv c w d Hrecv Hd Hinv) as (d' & Hd' & Hinv' & Hres).
  unfold have_data. mrun. mexec.
  all: try (exists d'; rewrite ?Hres in *;
            (split; [reflexivity | split; [assumption |]]);
            intros; unfold buffer_inv in *; (lia || discriminate)).
  exists d. split; [reflexivity | split; [assumption |]].
  intros _. unfold buffer_inv in *. lia.
Qed.

Lemma read_inv (c : TCPClient) :
  recv_within_request -> keeps_buffer_inv c (read c).
Proof.
  intros Hrecv w d Hd Hinv.
  destruct (have_data_inv c w d Hrecv Hd Hinv) as (d' & Hd' & Hinv' & Hlt).
  unfold read. mrun. mexec.
  - eexists. split; [reflexivity|]. specialize (Hlt eq_refl). cursor_arith.
  - eauto.
Qed.

Lemma read_buf_inv (c : TCPClient) (size : Z) :
  0 <= size < 4294967296 ->
  recv_within_request -> keeps_buffer_inv c (read_buf c size).
Proof.
  intros Hsize Hrecv w d Hd Hinv. pose proof cap_value as Hcap.
  destruct (have_data_inv c w d Hrecv Hd Hinv) as (d' & Hd' & Hinv' & Hlt).
  assert (Hn : to_uint32 (total d' - offset d') = total d' - offset d').
  { apply to_uint32_small. unfold buffer_inv in *. lia. }
  unfold read_buf. mrun. mexec; [| |eauto].
  - eexists. split; [reflexivity|]. specialize (Hlt eq_refl). cursor_arith.
  - rewrite Hn in *. rewrite to_int32_small by (unfold buffer_inv in *; lia).
    eexists. split; [reflexivity|]. specialize (Hlt eq_refl). cursor_arith.
Qed.

Lemma peek_inv (c : TCPClient) :
  recv_within_request -> keeps_buffer_inv c (peek c).
Proof.
  intros Hrecv w d Hd Hinv.
  destruct (have_data_inv c w d Hrecv Hd Hinv) as (d' & Hd' & Hinv' & Hlt).
  unfold peek. mrun. mexec; eauto.
Qed.

Lemma inet_gethostbyname_datas (host : list Z) (w : World Hw) :
  datas (snd (inet_gethostbyname host w)) = datas w.
Proof.
  unfold inet_gethostbyname. mrun. mexec; reflexivity.
Qed.

Lemma connect_ip_cursors (c : TCPClient) (ip : Ip4) (port nif : Z)
    (w : World Hw) (d : Data) :
  datas w !! d_ c = Some d ->
  exists d', datas (snd (connect_ip c ip port nif w)) !! d_ c = Some d'
             /\ cursors_kept_or_reset d d'.
Proof.
  intros Hd. unfold connect_ip, stop. mrun. mexec.
  all: eexists; (split; [reflexivity|]); unfold cursors_kept_or_reset; mproj; auto.
Qed.

Lemma cursors_kept_or_reset_trans (d1 d2 d3 : Data) :
  cursors_kept_or_reset d1 d2 -> cursors_kept_or_reset d2 d3 ->
  cursors_kept_or_reset d1 d3.
Proof. unfold cursors_kept_or_reset. intros [[? ?]|[? ?]] [[? ?]|[? ?]]; lia. Qed.

Lemma cursors_kept_or_reset_inv (d d' : Data) :
  buffer_inv d -> cursors_kept_or_reset d d' -> buffer_inv d'.
Proof.
  pose proof cap_value. unfold buffer_inv, cursors_kept_or_reset.
  intros (? & ? & ?) [[? ?]|[? ?]]; lia.
Qed.

Lemma connect_host_cursors (c : TCPClient) (host : list Z) (port nif : Z)
    (w : World Hw) (d : Data) :
  datas w !! d_ c = Some d ->
  exists d', datas (snd (connect_host c host port nif w)) !! d_ c = Some d'
             /\ cursors_kept_or_reset d d'.
Proof.
  intros Hd.
  destruct (stop_cursors c w d Hd) as (d1 & Hd1 & Hk1).
  unfold connect_host. mrun.
  destruct (isReady (eth (snd (stop c w)))); cbn [negb]; cbv beta iota; mproj; [|eauto].
  set (w2 := snd (inet_gethostbyname host (snd (stop c w)))).
  assert (Hd2 : datas w2 !! d_ c = Some d1).
  { unfold w2. rewrite inet_gethostbyname_datas. exact Hd1. }
  case_test; cbv beta iota; mproj.
  - destruct (connect_ip_cursors c
                (match snd (fst (inet_gethostbyname host (snd (stop c w)))) with
                 | Some ip => ip | None => ip_zero end) port nif w2 d1 Hd2)
      as (d3 & Hd3 & Hk3).
    exists d3. split; [exact Hd3|]. eapply cursors_kept_or_reset_trans; eauto.
  - eauto.
Qed.

(** C8.  Provided the driver's [recv] returns no more than it was asked for,
    every operation on the connection state behind a handle keeps
    [0 <= offset <= total <= 2048]: [available], [read], [read] into a buffer,
    [peek], [flush_buffer], [stop] and both forms of [connect].
    [flush_buffer] leaves both cursors at zero, and what [available] returns is
    [total - offset] of the state it leaves, so [total] never passes the
    capacity and a read never moves [offset] past [total]. *)
Theorem tcpclient_buffer_invariant (c : TCPClient) :
  recv_within_request ->
  keeps_buffer_inv c (available c)
  /\ keeps_buffer_inv c (read c)
  /\ (forall size, 0 <= size < 4294967296 -> keeps_buffer_inv c (read_buf c size))
  /\ keeps_buffer_inv c (peek c)
  /\ keeps_buffer_inv (Hw := Hw) c (flush_buffer c)
  /\ keeps_buffer_inv c (stop c)
  /\ (forall ip port nif, keeps_buffer_inv c (connect_ip c ip port nif))
  /\ (forall host port nif, keeps_buffer_inv c (connect_host c host port nif))
  /\ (forall (w : World Hw) d, datas w !! d_ c = Some d ->
       exists d', datas (snd (flush_buffer c w)) !! d_ c = Some d'
                  /\ offset d' = 0 /\ total d' = 0)
  /\ (forall (w : World Hw) d, datas w !! d_ c = Some d -> buffer_inv d ->
       exists d', datas (snd (available c w)) !! d_ c = Some d'
                  /\ total d' <= TCPCLIENT_BUF_MAX_SIZE
                  /\ fst (available c w) = total d' - offset d'
                  /\ 0 <= fst (available c w) <= TCPCLIENT_BUF_MAX_SIZE).
Proof.
  intros Hrecv. pose proof cap_value as Hcap.
  repeat apply conj.
  - intros w d Hd Hinv.
    destruct (available_inv c w d Hrecv Hd Hinv) as (d' & ? & ? & ?). eauto.
  - apply read_inv; assumption.
  - intros size Hsize. apply read_buf_inv; assumption.
  - apply peek_inv; assumption.
  - intros w d Hd Hinv.
    destruct (flush_buffer_resets c w d Hd) as (d' & ? & Ho & Ht).
    exists d'. split; [assumption|]. unfold buffer_inv. lia.
  - intros w d Hd Hinv.
    destruct (stop_cursors c w d Hd) as (d' & ? & ?).
    exists d'. eauto using cursors_kept_or_reset_inv.
  - intros ip port nif w d Hd Hinv.
    destruct (connect_ip_cursors c ip port nif w d Hd) as (d' & ? & ?).
    exists d'. eauto using cursors_kept_or_reset_inv.
  - intros host port nif w d Hd Hinv.
    destruct (connect_host_cursors c host port nif w d Hd) as (d' & ? & ?).
    exists d'. eauto using cursors_kept_or_reset_inv.
  - intros w d Hd. apply (flush_buffer_resets c w d Hd).
  - intros w d Hd Hinv.
    destruct (available_inv c w d Hrecv Hd Hinv) as (d' & ? & Hinv' & Hres).
    exists d'. unfold buffer_inv in Hinv'. rewrite Hres. repeat split; auto; lia.
Qed.

End BufferInvariant.

(** The simulated chip keeps the contract of [recv]. *)
Lemma sim_recv_within_request : recv_within_request (Hw := Sim).
Proof.
  intros sn len h Hlen. cbn [hw_step Sim_chip sim_step].
  destruct (Z.leb_spec (Z.min len (Z.of_nat (length (sim_rx sn h)))) 0);
    cbn [fst rint answer answer_bytes]; unfold SOCK_BUSY; lia.
Qed.

(** C8 on the simulated chip, for the client of the C1 example. *)
Lemma tcpclient_buffer_invariant_witness :
  recv_within_request (Hw := Sim)
  /\ keeps_buffer_inv (Hw := Sim) c1_client (available c1_client).
Proof.
  split; [exact sim_recv_within_request |].
  exact (proj1 (tcpclient_buffer_invariant c1_client sim_recv_within_request)).
Defined.

(** ** C6: [UDP::leaveMulticast] *)

Section Multicast.

Context {Hw : Type} {chip : Chip Hw}.

Lemma socketGetFree_from_trace (n : nat) (ii : Z) (w : World Hw) :
  exists l, trace (snd (socketGetFree_from n ii w)) = trace w ++ l.
Proof.
  revert ii w. induction n as [|n IH]; intros ii w; cbn [socketGetFree_from].
  - exists []. mrun. rewrite app_nil_r. reflexivity.
  - mrun. case_test; mproj.
    + eexists. reflexivity.
    + destruct (IH (ii + 1) (w_set_hw (snd (hw_step (GetSockOptStatus ii) (hw w)))
                               (w_set_trace (trace w ++ [GetSockOptStatus ii]) w)))
        as (l & Hl).
      rewrite Hl. mproj. rewrite <- app_assoc. eexists. reflexivity.
Qed.

Lemma socketGetFree_trace (w : World Hw) :
  exists l, trace (snd (socketGetFree w)) = trace w ++ l.
Proof. apply socketGetFree_from_trace. Qed.

Lemma socketGetFree_from_range (n : nat) (ii : Z) (w : World Hw) :
  let r := fst (socketGetFree_from n ii w) in
  r = -1 \/ ii <= r < ii + Z.of_nat n.
Proof.
  revert ii w. induction n as [|n IH]; intros ii w; cbn [socketGetFree_from].
  - mrun. auto.
  - mrun. case_test; mproj.
    + right. lia.
    + destruct (IH (ii + 1) (w_set_hw (snd (hw_step (GetSockOptStatus ii) (hw w)))
                               (w_set_trace (trace w ++ [GetSockOptStatus ii]) w)))
        as [H|H]; [left; exact H | right; lia].
Qed.

Lemma socketGetFree_range (w : World Hw) :
  fst (socketGetFree w) = -1 \/ 0 <= fst (socketGetFree w) < 8.
Proof. apply (socketGetFree_from_range 8 0 w). Qed.

Lemma to_uint8_small (z : Z) : 0 <= z < 256 -> to_uint8 z = z.
Proof. intros H. unfold to_uint8. apply Z.mod_small. lia. Qed.

Lemma UDP_stop_result (u : UDP) (w : World Hw) :
  fst (UDP_stop u w) = UDP_flush_buffer (udp_set_sock (-1) u).
Proof. unfold UDP_stop. mrun. reflexivity. Qed.

Lemma UDP_stop_trace (u : UDP) (w : World Hw) :
  exists l, trace (snd (UDP_stop u w)) = trace w ++ l.
Proof. unfold UDP_stop. mrun. mexec; rewrite <- ?app_assoc; eexists; reflexivity. Qed.

Lemma UDP_stop_eth (u : UDP) (w : World Hw) : eth (snd (UDP_stop u w)) = eth w.
Proof. unfold UDP_stop. mrun. mexec; reflexivity. Qed.

(** The three ways [begin(port)] ends, by what the scan for a free socket
    finds and what the chip answers to the request to open it. *)
Lemma UDP_begin_cases (u : UDP) (port : Z) (w : World Hw) :
  let stopped := UDP_flush_buffer (udp_set_sock (-1) u) in
  let found := socketGetFree (snd (UDP_stop u w)) in
  let sock := fst found in
  let opened := hw_step (Socket (to_uint8 sock) Sn_MR_UDP port 0) (hw (snd found)) in
  let r := UDP_begin u port w in
  (sock < 0 -> r = ((0, stopped), snd found))
  /\ (0 <= sock -> rint (fst opened) < 0 ->
      fst r = (0, stopped)
      /\ trace (snd r) = trace (snd found) ++ [Socket (to_uint8 sock) Sn_MR_UDP port 0])
  /\ (0 <= sock -> 0 <= rint (fst opened) ->
      fst r = (1, udp_set_port port (udp_set_sock sock stopped))
      /\ trace (snd r) = trace (snd found) ++ [Socket (to_uint8 sock) Sn_MR_UDP port 0])
  /\ eth (snd r) = eth w.
Proof.
  cbv zeta. unfold UDP_begin. rewrite !run_bind_other, UDP_stop_result.
  pose proof (socketGetFree_eth (snd (UDP_stop u w))) as He.
  rewrite UDP_stop_eth in He.
  set (sock := fst (socketGetFree (snd (UDP_stop u w)))) in *.
  set (w1 := snd (socketGetFree (snd (UDP_stop u w)))) in *.
  clearbody sock w1.
  split; [|split; [|split]].
  - intros Hs. destruct (Z.leb_spec 0 sock); [lia|]. reflexivity.
  - intros Hs Ho. destruct (Z.leb_spec 0 sock); [|lia]. mrun.
    destruct (Z.leb_spec 0 (rint (fst (hw_step (Socket (to_uint8 sock) Sn_MR_UDP port 0)
                                         (hw w1))))); [lia|].
    split; reflexivity.
  - intros Hs Ho. destruct (Z.leb_spec 0 sock); [|lia]. mrun.
    destruct (Z.leb_spec 0 (rint (fst (hw_step (Socket (to_uint8 sock) Sn_MR_UDP port 0)
                                         (hw w1))))); [|lia].
    split; reflexivity.
  - destruct (Z.leb_spec 0 sock); mrun; [|exact He].
    destruct (Z.leb_spec 0 (rint (fst (hw_step (Socket (to_uint8 sock) Sn_MR_UDP port 0)
                                         (hw w1))))); exact He.
Qed.

(** The UDP operations never look at the state of the library: run in a
    world with another [Eth], they give the same result and leave the same
    world, that [Eth] apart. *)
Lemma socketGetFree_from_any_eth (n : nat) (ii : Z) (e : Eth) (w : World Hw) :
  socketGetFree_from n ii (w_set_eth e w)
  = (fst (socketGetFree_from n ii w), w_set_eth e (snd (socketGetFree_from n ii w))).
Proof.
  revert ii w. induction n as [|n IH]; intros ii w; cbn [socketGetFree_from].
  - reflexivity.
  - rewrite !run_bind_other, !run_call. cbn [fst snd]. mproj.
    destruct (rint (fst (hw_step (GetSockOptStatus ii) (hw w))) =? SOCK_CLOSED).
    + reflexivity.
    + exact (IH (ii + 1) (w_set_hw (snd (hw_step (GetSockOptStatus ii) (hw w)))
                           (w_set_trace (trace w ++ [GetSockOptStatus ii]) w))).
Qed.

Lemma UDP_stop_any_eth (u : UDP) (e : Eth) (w : World Hw) :
  UDP_stop u (w_set_eth e w) = (fst (UDP_stop u w), w_set_eth e (snd (UDP_stop u w))).
Proof.
  unfold UDP_stop. mrun.
  destruct (rint (fst (hw_step (GetSockOptStatus (to_uint8 (udp_sock u))) (hw w))) =? SOCK_UDP);
    reflexivity.
Qed.

Lemma UDP_begin_any_eth (u : UDP) (port : Z) (e : Eth) (w : World Hw) :
  UDP_begin u port (w_set_eth e w)
  = (fst (UDP_begin u port w), w_set_eth e (snd (UDP_begin u port w))).
Proof.
  unfold UDP_begin. rewrite !run_bind_other, UDP_stop_any_eth. cbn [fst snd].
  unfold socketGetFree. rewrite socketGetFree_from_any_eth. cbn [fst snd].
  destruct (0 <=? fst (socketGetFree_from NUM_SOCKETS 0 (snd (UDP_stop u w)))); [|reflexivity].
  rewrite !run_bind_other, !run_call. cbn [fst snd]. mproj.
  match goal with |- context [if ?b then _ else _] => destruct b end; reflexivity.
Qed.

Lemma leaveMulticast_unfold (u : UDP) (ip : Ip4) (w : World Hw) :
  let sn := to_uint8 (udp_sock u) in
  let st := hw_step (GetSockOptStatus sn) (hw w) in
  let w1 := w_set_hw (snd st) (w_set_trace (trace w ++ [GetSockOptStatus sn]) w) in
  leaveMulticast u ip w
  = if rint (fst st) =? SOCK_UDP
    then UDP_begin (fst (UDP_stop u w1)) (udp_port u) (snd (UDP_stop u w1))
    else ((-1, u), w1).
Proof.
  cbv zeta. unfold leaveMulticast. mrun.
  destruct (rint (fst (hw_step (GetSockOptStatus (to_uint8 (udp_sock u))) (hw w))) =? SOCK_UDP);
    cbn [negb]; cbv beta iota; [|reflexivity].
  rewrite UDP_stop_result. reflexivity.
Qed.

Lemma leaveMulticast_any_eth (u : UDP) (ip : Ip4) (e : Eth) (w : World Hw) :
  leaveMulticast u ip (w_set_eth e w)
  = (fst (leaveMulticast u ip w), w_set_eth e (snd (leaveMulticast u ip w))).
Proof.
  rewrite (leaveMulticast_unfold u ip w), (leaveMulticast_unfold u ip (w_set_eth e w)).
  cbv zeta. mproj.
  destruct (rint (fst (hw_step (GetSockOptStatus (to_uint8 (udp_sock u))) (hw w))) =? SOCK_UDP);
    [|reflexivity].
  set (w1 := w_set_hw (snd (hw_step (GetSockOptStatus (to_uint8 (udp_sock u))) (hw w)))
               (w_set_trace (trace w ++ [GetSockOptStatus (to_uint8 (udp_sock u))]) w)).
  change (UDP_begin (fst (UDP_stop u (w_set_eth e w1))) (udp_port u)
            (snd (UDP_stop u (w_set_eth e w1)))
          = (fst (UDP_begin (fst (UDP_stop u w1)) (udp_port u) (snd (UDP_stop u w1))),
             w_set_eth e (snd (UDP_begin (fst (UDP_stop u w1)) (udp_port u)
                                 (snd (UDP_stop u w1)))))).
  rewrite UDP_stop_any_eth. cbn [fst snd]. apply UDP_begin_any_eth.
Qed.

(** C6, as amended.  [leaveMulticast] first asks the chip for the status of
    the socket.  When it is not an open UDP socket the call returns -1 and
    changes nothing.  When it is, the call stops the socket (closing it when
    the chip still reports it open) and begins again on the same local port:
    it looks for a free socket and asks the chip to open it in UDP mode on
    that port with no multicast flag.  The result is 1, with that socket
    bound to the object, exactly when a free socket was found and the chip
    opened it; when none is free or the chip refuses, the result is 0 and
    the object is left without a socket.  Whether the interface is ready
    plays no part: the result is the same for every state of the library. *)
Theorem leaveMulticast_guarded (w : World Hw) (u : UDP) (ip : Ip4) :
  leaveMulticast_spec w u ip.
Proof.
  unfold leaveMulticast_spec. cbv zeta. split; [|split].
  - intros Hst. unfold leaveMulticast. mrun.
    destruct (Z.eqb_spec (rint (hw_step (GetSockOptStatus (to_uint8 (udp_sock u))) (hw w)).1)
                SOCK_UDP); [contradiction|].
    reflexivity.
  - intros Hst.
    set (w1 := w_set_hw (snd (hw_step (GetSockOptStatus (to_uint8 (udp_sock u))) (hw w)))
                 (w_set_trace (trace w ++ [GetSockOptStatus (to_uint8 (udp_sock u))]) w)).
    assert (Heq : leaveMulticast u ip w
                  = UDP_begin (UDP_flush_buffer (udp_set_sock (-1) u)) (udp_port u)
                      (snd (UDP_stop u w1))).
    { rewrite leaveMulticast_unfold. cbv zeta. rewrite Hst.
      change (SOCK_UDP =? SOCK_UDP) with true. cbv beta iota.
      rewrite UDP_stop_result. reflexivity. }
    rewrite Heq.
    pose proof (UDP_begin_cases (UDP_flush_buffer (udp_set_sock (-1) u)) (udp_port u)
                  (snd (UDP_stop u w1))) as Hb.
    cbv zeta in Hb.
    set (w3 := snd (UDP_stop (UDP_flush_buffer (udp_set_sock (-1) u)) (snd (UDP_stop u w1))))
      in *.
    destruct (UDP_stop_trace (UDP_flush_buffer (udp_set_sock (-1) u)) (snd (UDP_stop u w1)))
      as (l3 & Hl3).
    destruct (socketGetFree_trace w3) as (l4 & Hl4).
    pose proof (socketGetFree_range w3) as Hrange.
    destruct Hb as (Hnone & Hrefused & Hopened & Heth).
    split; [|split; [|split; [|split; [|split]]]].
    + intros Hst2. unfold UDP_stop. mrun. subst w1. mproj. rewrite Hst2.
      change (SOCK_UDP =? SOCK_UDP) with true. cbv beta iota. mproj.
      rewrite <- !app_assoc. reflexivity.
    + exists (l3 ++ l4). rewrite Hl4. unfold w3. rewrite Hl3, <- app_assoc. reflexivity.
    + rewrite Heth, UDP_stop_eth. reflexivity.
    + exact Hnone.
    + intros Hs Ho.
      assert (H8 : to_uint8 (fst (socketGetFree w3)) = fst (socketGetFree w3))
        by (apply to_uint8_small; lia).
      rewrite H8 in Hrefused, Ho. apply Hrefused; assumption.
    + intros Hs Ho. split; [lia|].
      assert (H8 : to_uint8 (fst (socketGetFree w3)) = fst (socketGetFree w3))
        by (apply to_uint8_small; lia).
      rewrite H8 in Hopened, Ho. apply Hopened; assumption.
  - intros e. rewrite leaveMulticast_any_eth. reflexivity.
Qed.

End Multicast.

(** C6, counterexample: on a socket the chip reports as closed,
    [leaveMulticast] returns -1, leaves the object as it was, and only reads
    the status: nothing is rebound. *)
Lemma leaveMulticast_refuses_closed_socket :
  fst (leaveMulticast c6_udp (mkIp4 239 1 1 123) c6_world) = (-1, c6_udp)
  /\ trace (snd (leaveMulticast c6_udp (mkIp4 239 1 1 123) c6_world)) = [GetSockOptStatus 0].
Proof. vm_compute. split; reflexivity. Qed.

(** The amended C6 on a socket that is open, with the interface not ready:
    the socket is closed, socket 0 is found free and opened again for UDP on
    port 5000, and the result is 1. *)
Lemma leaveMulticast_guarded_witness :
  isReady (eth c6_open_world) = false
  /\ fst (leaveMulticast c6_udp (mkIp4 239 1 1 123) c6_open_world)
     = (1, udp_set_port 5000 (udp_set_sock 0 (UDP_flush_buffer (udp_set_sock (-1) c6_udp))))
  /\ trace (snd (leaveMulticast c6_udp (mkIp4 239 1 1 123) c6_open_world))
     = [GetSockOptStatus 0; GetSockOptStatus 0; Close 0; GetSockOptStatus 255;
        GetSockOptStatus 0; Socket 0 Sn_MR_UDP 5000 0].
Proof.
  split; [reflexivity|].
  pose proof (leaveMulticast_guarded c6_open_world c6_udp (mkIp4 239 1 1 123)) as H.
  unfold leaveMulticast_spec in H. cbv zeta in H.
  destruct H as (_ & H & _).
  destruct (H ltac:(vm_compute; reflexivity)) as (_ & _ & _ & _ & _ & Hok).
  destruct (Hok ltac:(vm_compute; discriminate) ltac:(vm_compute; discriminate))
    as (_ & Hres & Htrace).
  split; [exact Hres | exact Htrace].
Defined.

(** ** C7: [TCPServer::begin] *)

Section ServerBegin.

Context {Hw : Type} {chip : Chip Hw}.

Lemma stop_eth (c : TCPClient) (w : World Hw) : eth (snd (stop c w)) = eth w.
Proof. unfold stop. mrun. mexec; reflexivity. Qed.

Lemma stop_trace (c : TCPClient) (w : World Hw) :
  exists l, trace (snd (stop c w)) = trace w ++ l.
Proof.
  unfold stop. mrun.
  mexec; first [exists []; rewrite app_nil_r; reflexivity | eexists; reflexivity].
Qed.

Lemma TCPServer_stop_result (s : TCPServer) (w : World Hw) :
  fst (TCPServer_stop s w) = srv_set_sock (-1) s.
Proof. unfold TCPServer_stop. mrun. reflexivity. Qed.

Lemma TCPServer_stop_eth (s : TCPServer) (w : World Hw) :
  eth (snd (TCPServer_stop s w)) = eth w.
Proof. unfold TCPServer_stop. mrun. mexec; apply stop_eth. Qed.

Lemma TCPServer_stop_datas (s : TCPServer) (w : World Hw) :
  datas (snd (TCPServer_stop s w)) = datas (snd (stop (srv_client s) w)).
Proof. unfold TCPServer_stop. mrun. mexec; reflexivity. Qed.

Lemma TCPServer_stop_trace (s : TCPServer) (w : World Hw) :
  trace (snd (TCPServer_stop s w))
  = trace (snd (stop (srv_client s) w))
    ++ (if 0 <=? srv_sock s then [Disconnect (to_uint8 (srv_sock s))] else []).
Proof.
  unfold TCPServer_stop. mrun. mexec; [reflexivity|]. rewrite app_nil_r. reflexivity.
Qed.

Lemma startListener_frame (s : TCPServer) (w : World Hw) :
  datas (snd (startListener s w)) = datas w
  /\ exists l, trace (snd (startListener s w)) = trace w ++ l.
Proof.
  destruct (socketGetFree_trace w) as (l & Hl).
  unfold startListener. mrun. mexec; rewrite ?socketGetFree_datas, Hl;
    (split; [reflexivity|]); rewrite <- ?app_assoc; eexists; reflexivity.
Qed.

(** [stop] disconnects the socket the handle holds, if it holds one. *)
Lemma stop_trace_exact (c : TCPClient) (w : World Hw) :
  let held := fst (sock_handle c w) in
  trace (snd (stop c w))
  = trace w ++ (if 0 <=? held then [Disconnect (to_uint8 held)] else []).
Proof.
  cbv zeta. unfold stop. mrun.
  destruct (datas w !! d_ c) as [d|]; mproj.
  - destruct (Z.ltb_spec (sock d) 0), (Z.leb_spec 0 (sock d)); try lia; mproj.
    + rewrite app_nil_r. reflexivity.
    + reflexivity.
  - unfold Data_init. mproj. change (-1 <? 0) with true. change (0 <=? -1) with false.
    mproj. rewrite app_nil_r. reflexivity.
Qed.

(** The four ways [startListener] ends, by what the scan for a free socket
    finds and what the chip answers to the requests to open the socket and
    to listen on it. *)
Lemma startListener_cases (s : TCPServer) (w : World Hw) :
  let found := socketGetFree w in
  let sock := fst found in
  let opened := hw_step (Socket (to_uint8 sock) Sn_MR_TCP (srv_port s) 0) (hw (snd found)) in
  let listening := hw_step (Listen (to_uint8 sock)) (snd opened) in
  let r := startListener s w in
  (sock < 0 -> r = ((false, s), snd found))
  /\ (0 <= sock -> rint (fst opened) < 0 ->
      fst r = (false, s)
      /\ trace (snd r) = trace (snd found) ++ [Socket (to_uint8 sock) Sn_MR_TCP (srv_port s) 0])
  /\ (0 <= sock -> 0 <= rint (fst opened) ->
      fst r = (rint (fst listening) =? SOCK_OK, srv_set_sock sock s)
      /\ trace (snd r)
         = trace (snd found)
           ++ [Socket (to_uint8 sock) Sn_MR_TCP (srv_port s) 0; Listen (to_uint8 sock)]).
Proof.
  cbv zeta. unfold startListener. rewrite !run_bind_other.
  set (sock := fst (socketGetFree w)). set (w1 := snd (socketGetFree w)).
  clearbody sock w1. split; [|split].
  - intros Hs. destruct (Z.leb_spec 0 sock); [lia|]. reflexivity.
  - intros Hs Ho. destruct (Z.leb_spec 0 sock); [|lia]. mrun.
    destruct (Z.leb_spec 0 (rint (fst (hw_step (Socket (to_uint8 sock) Sn_MR_TCP (srv_port s) 0)
                                         (hw w1))))); [lia|].
    split; reflexivity.
  - intros Hs Ho. destruct (Z.leb_spec 0 sock); [|lia]. mrun.
    destruct (Z.leb_spec 0 (rint (fst (hw_step (Socket (to_uint8 sock) Sn_MR_TCP (srv_port s) 0)
                                         (hw w1))))); [|lia].
    cbv beta iota. mproj. rewrite <- app_assoc. split; reflexivity.
Qed.

(** C7, as amended.  [begin] always runs [stop] first, whatever the server
    holds: the most recently accepted client is stopped (its socket is
    disconnected, its state left without a socket and with an empty buffer)
    and a held listening socket is disconnected and forgotten.  When the
    interface is not ready the result is false and the server holds no
    socket.  When it is ready, [begin] looks for a free socket, asks the chip
    to open it in TCP mode on the server's port and then to listen on it; the
    result is true exactly when a free socket was found, the chip opened it
    and answered SOCK_OK to the request to listen, and the server then holds
    that socket.  In every other case the result is false; the server holds
    no socket, except when the chip opened the socket and then refused to
    listen: the server keeps the number of that socket. *)
Theorem TCPServer_begin_restarts (w : World Hw) (s : TCPServer) :
  TCPServer_begin_spec w s.
Proof.
  unfold TCPServer_begin_spec. cbv zeta.
  assert (Heq : TCPServer_begin s w
                = (if isReady (eth w)
                   then startListener (srv_set_sock (-1) s) (snd (TCPServer_stop s w))
                   else ((false, srv_set_sock (-1) s), snd (TCPServer_stop s w)))).
  { unfold TCPServer_begin. mrun. rewrite TCPServer_stop_result.
    cbv beta iota. mproj. change (socket_handle_valid (-1)) with false.
    cbv beta iota. mproj. rewrite TCPServer_stop_eth.
    destruct (isReady (eth w)); reflexivity. }
  assert (Htr : exists l, trace (snd (TCPServer_begin s w))
                          = trace (snd (TCPServer_stop s w)) ++ l).
  { rewrite Heq. destruct (isReady (eth w)).
    - apply startListener_frame.
    - exists []. mproj. rewrite app_nil_r. reflexivity. }
  assert (Hda : datas (snd (TCPServer_begin s w)) = datas (snd (TCPServer_stop s w))).
  { rewrite Heq. destruct (isReady (eth w)).
    - apply startListener_frame.
    - reflexivity. }
  pose proof (startListener_cases (srv_set_sock (-1) s) (snd (TCPServer_stop s w))) as Hc.
  cbv zeta in Hc. mproj in Hc.
  change (srv_port (srv_set_sock (-1) s)) with (srv_port s) in Hc.
  change (srv_set_sock (fst (socketGetFree (snd (TCPServer_stop s w)))) (srv_set_sock (-1) s))
    with (srv_set_sock (fst (socketGetFree (snd (TCPServer_stop s w)))) s) in Hc.
  pose proof (socketGetFree_range (snd (TCPServer_stop s w))) as Hrange.
  set (found := socketGetFree (snd (TCPServer_stop s w))) in *.
  destruct Hc as (Hnone & Hrefused & Hopened).
  assert (H8 : 0 <= fst found -> to_uint8 (fst found) = fst found)
    by (intros; apply to_uint8_small; lia).
  split; [|split; [|split; [|split; [|split; [|split]]]]].
  - rewrite TCPServer_stop_trace, stop_trace_exact, <- app_assoc. reflexivity.
  - intros d Hd Hs.
    split; [unfold sock_handle; mrun; rewrite Hd; reflexivity|].
    rewrite TCPServer_stop_datas. unfold stop. mrun. rewrite Hd. mproj.
    destruct (Z.ltb_spec (sock d) 0); [lia|]. mproj.
    rewrite !lookup_alter_eq, Hd. reflexivity.
  - exact Htr.
  - exact Hda.
  - intros Hr. rewrite Heq, Hr. reflexivity.
  - intros Hr. rewrite Heq, Hr.
    split; [exact Hnone|]. split; [|split].
    + intros Hs Ho. rewrite (H8 Hs) in Hrefused, Ho. apply Hrefused; assumption.
    + intros Hs Ho Hl. rewrite (H8 Hs) in Hopened, Ho, Hl.
      destruct (Hopened Hs Ho) as (Hres & Htrace). rewrite Hres, Htrace.
      destruct (Z.eqb_spec (rint (fst (hw_step (Listen (fst found))
                                         (snd (hw_step (Socket (fst found) Sn_MR_TCP (srv_port s) 0)
                                                 (hw (snd found))))))) SOCK_OK);
        [contradiction|]. split; reflexivity.
    + intros Hs Ho Hl. rewrite (H8 Hs) in Hopened, Ho, Hl.
      destruct (Hopened Hs Ho) as (Hres & Htrace). rewrite Hres, Htrace, Hl.
      split; [lia|]. split; reflexivity.
  - rewrite Heq. destruct (isReady (eth w)).
    + split.
      * intros Hok. split; [reflexivity|].
        destruct (Z.leb_spec 0 (fst found)) as [Hs|Hs].
        -- split; [exact Hs|].
           destruct (Z.leb_spec 0 (rint (fst (hw_step (Socket (to_uint8 (fst found)) Sn_MR_TCP
                                                         (srv_port s) 0) (hw (snd found))))))
             as [Ho|Ho].
           ++ split; [exact Ho|].
              destruct (Hopened Hs Ho) as (Hres & _). rewrite Hres in Hok.
              cbn [fst] in Hok. apply Z.eqb_eq. exact Hok.
           ++ destruct (Hrefused Hs Ho) as (Hres & _). rewrite Hres in Hok. discriminate.
        -- rewrite (Hnone Hs) in Hok. discriminate.
      * intros (_ & Hs & Ho & Hl). destruct (Hopened Hs Ho) as (Hres & _).
        rewrite Hres, Hl. reflexivity.
    + split; [discriminate|]. intros (Hr & _). discriminate.
Qed.

End ServerBegin.

(** C7, counterexample: on a server that is listening, [begin] returns true,
    but it has disconnected the client and the listening socket and opened a
    listener again. *)
Lemma TCPServer_begin_closes_client_and_listener :
  socket_handle_valid (srv_sock c7_server) = true
  /\ fst (fst (TCPServer_begin c7_server c7_world)) = true
  /\ trace (snd (TCPServer_begin c7_server c7_world))
     = [Disconnect 1; Disconnect 0; GetSockOptStatus 0; Socket 0 Sn_MR_TCP 4550 0; Listen 0]
  /\ sock <$> (datas (snd (TCPServer_begin c7_server c7_world)) !! 0%nat) = Some (-1).
Proof. vm_compute. repeat split; reflexivity. Qed.

(** The amended C7 on that server: the client on socket 1 and the listener
    on socket 0 are disconnected; socket 0 is found free, opened and put into
    listening mode again, and the result is true.  With the interface not
    ready the result is false and the server is left without a socket. *)
Lemma TCPServer_begin_restarts_witness :
  trace (snd (TCPServer_stop c7_server c7_world)) = [Disconnect 1; Disconnect 0]
  /\ fst (TCPServer_begin c7_server c7_world) = (true, srv_set_sock 0 c7_server)
  /\ TCPServer_begin c7_server (w_set_eth eth_init c7_world)
     = ((false, srv_set_sock (-1) c7_server),
        snd (TCPServer_stop c7_server (w_set_eth eth_init c7_world))).
Proof.
  pose proof (TCPServer_begin_restarts c7_world c7_server) as H.
  unfold TCPServer_begin_spec in H. cbv zeta in H.
  destruct H as (Hstop & _ & _ & _ & _ & Hready & _).
  destruct (Hready eq_refl) as (_ & _ & _ & Hok).
  destruct (Hok ltac:(vm_compute; discriminate) ltac:(vm_compute; discriminate)
              ltac:(vm_compute; reflexivity)) as (_ & Hres & _).
  split; [exact Hstop|]. split; [exact Hres|].
  pose proof (TCPServer_begin_restarts (w_set_eth eth_init c7_world) c7_server) as H'.
  unfold TCPServer_begin_spec in H'. cbv zeta in H'.
  destruct H' as (_ & _ & _ & _ & Hnot & _).
  exact (Hnot eq_refl).
Defined.

(** ** C3 and C4: [TCPClient::write] and [UDP::receivePacket] *)

Section WriteLoop.

Context {Hw : Type} {chip : Chip Hw}.

(** With a timeout of zero the loop of [write] runs once, whatever [send]
    answers and however much fuel is given: one [send] is made, and unless
    the call ended inside the round (all bytes taken, or an error) one
    [delay(1)] follows before the result of that one [send] is returned. *)
Lemma write_timeout_zero (fuel : nat) (c : TCPClient) (buffer : list Z) (size : Z)
    (w : World Hw) (d : Data) :
  datas w !! d_ c = Some d ->
  let sn := to_uint8 (sock d) in
  let h1 := snd (hw_step Millis (hw w)) in
  let ret0 := rint (fst (hw_step (Send sn buffer (to_uint16 size)) h1)) in
  let r := write (S fuel) c buffer size 0 w in
  trace (snd r)
  = trace w ++ [Millis; Send sn buffer (to_uint16 size)]
    ++ (if 0 <? ret0 then (if to_uint32 ret0 =? size then [] else [Delay 1])
        else if negb (ret0 =? SOCK_BUSY) then [] else [Delay 1])
  /\ fst r
     = Some (if 0 <? ret0
             then (if to_uint32 ret0 =? size then (to_uint32 (to_int32 size), clearWriteError c)
                   else (to_uint32 ret0, clearWriteError c))
             else if negb (ret0 =? SOCK_BUSY)
                  then (to_uint32 ret0, setWriteError ret0 (clearWriteError c))
                  else (to_uint32 ret0, clearWriteError c)).
Proof.
  intros Hd. cbv zeta. unfold write. cbn [write_loop]. mrun.
  rewrite Hd. change (drop (Z.to_nat 0) buffer) with buffer.
  rewrite Z.sub_0_r, Z.add_0_l.
  change (0 =? 0) with true. cbv beta iota.
  mexec; rewrite <- ?app_assoc; split; reflexivity.
Qed.

(** With a timeout of zero [receivePacket] on an open socket with nothing
    waiting looks once, sleeps once, and returns 0. *)
Lemma receivePacket_timeout_zero (fuel : nat) (u : UDP) (size : Z) (w : World Hw) :
  let sn := to_uint8 (udp_sock u) in
  let st := hw_step (GetSockOptStatus sn) (hw w) in
  let h2 := snd (hw_step Millis (snd st)) in
  rint (fst st) = SOCK_UDP ->
  rint (fst (hw_step (GetSn_RX_RSR sn) h2)) <= 0 ->
  let r := receivePacket (S fuel) u true size 0 w in
  fst r = Some (0, [], u)
  /\ trace (snd r) = trace w ++ [GetSockOptStatus sn; Millis; GetSn_RX_RSR sn; Delay 1].
Proof.
  cbv zeta. intros Hst Hrx. unfold receivePacket. cbn [receive_loop]. mrun.
  rewrite Hst. change (SOCK_UDP =? SOCK_UDP) with true. cbn [andb].
  cbv beta iota. mproj.
  case_test; [lia|]. cbv beta iota. mproj.
  change (0 =? 0) with true. cbv beta iota.
  rewrite <- !app_assoc. split; reflexivity.
Qed.

End WriteLoop.

(** C3: [write(buffer, 3, 0)] while the send window is busy for one round.
    The chip answers SOCK_BUSY to the first [send] and would take all three
    bytes on the second.  With timeout 0 the call makes the one [send], sleeps
    once and returns 0: it does not wait.  With a timeout of 100 ms the same
    call does retry and returns 3.  [receivePacket] with timeout 0 on an open
    UDP socket with nothing waiting returns 0. *)
Theorem write_timeout_zero_does_not_wait :
  let w := tcp_world (sim_set_send [SOCK_BUSY; 3] sim_idle) in
  let r0 := write 10 tcp_client [1; 2; 3] 3 0 w in
  let r100 := write 10 tcp_client [1; 2; 3] 3 100 w in
  let u := udp_set_port 5000 (udp_set_sock 2 UDP_new) in
  let wu := world_init (sim_set_status 2 SOCK_UDP sim_idle) (eth_set_isReady true eth_init) in
  let ru := receivePacket 10 u true 512 0 wu in
  fst r0 = Some (0, tcp_client)
  /\ trace (snd r0) = [Millis; Send 0 [1; 2; 3] 3; Delay 1]
  /\ fst r100 = Some (3, tcp_client)
  /\ trace (snd r100)
     = [Millis; Send 0 [1; 2; 3] 3; Delay 1; Millis; Send 0 [1; 2; 3] 3]
  /\ fst ru = Some (0, [], u)
  /\ trace (snd ru) = [GetSockOptStatus 2; Millis; GetSn_RX_RSR 2; Delay 1].
Proof. vm_compute. repeat split; reflexivity. Qed.

(** C4: [write(buffer, 3, 30000)] on a socket for which [send] answers
    SOCKERR_SOCKSTATUS (-7).  No byte was written, the write error is set to
    -7, and the [size_t] the call returns is -7 read as unsigned,
    4294967289. *)
Theorem write_returns_error_as_count :
  let w := tcp_world (sim_set_send [SOCKERR_SOCKSTATUS] sim_idle) in
  let r := write 10 tcp_client [1; 2; 3] 3 30000 w in
  fst r = Some (4294967289, setWriteError (-7) tcp_client)
  /\ trace (snd r) = [Millis; Send 0 [1; 2; 3] 3].
Proof. vm_compute. split; reflexivity. Qed.

(** ** C9: [inet_gethostbyname] *)

Section Dns.

Context {Hw : Type} {chip : Chip Hw}.

(** A first call, with [dnsBuffer] NULL and memory left: the block that was
    allocated is freed again before the call returns, but [dnsBuffer] still
    points to it. *)
Lemma inet_gethostbyname_leaves_stale_pointer (host : list Z) (w : World Hw) :
  dnsBuffer (eth w) = None ->
  rint (fst (hw_step (HeapNew MAX_DNS_BUF_SIZE) (hw w))) <> 0 ->
  (next_block w ∉ live w) ->
  let w' := snd (inet_gethostbyname host w) in
  dnsBuffer (eth w') = Some (next_block w)
  /\ (next_block w ∉ live w')
  /\ faults w' = faults w.
Proof.
  intros Hnull Hmem Hfresh. cbv zeta.
  unfold inet_gethostbyname. mrun. rewrite Hnull.
  rewrite bool_decide_eq_true_2 by reflexivity. cbv beta iota. mproj.
  destruct (Z.eqb_spec (rint (fst (hw_step (HeapNew MAX_DNS_BUF_SIZE) (hw w)))) 0);
    [contradiction|].
  cbv beta iota. mproj.
  rewrite (bool_decide_eq_false_2 (Some (next_block w) = None)) by discriminate.
  cbn [negb]. cbv beta iota. mproj.
  mexec; repeat split; try reflexivity; try discriminate.
  all: try (exfalso;
            match goal with
            | H : _ ∉ live (snd (socketGetFree _)) |- _ =>
                apply H; rewrite socketGetFree_live; mproj;
                apply elem_of_union; left; apply elem_of_singleton; reflexivity
            end).
  all: apply not_elem_of_difference; right; apply elem_of_singleton; reflexivity.
Qed.

(** The result: 0 with the address when a socket was free and the protocol
    answered 1, and -1 in every other case. *)
Lemma inet_gethostbyname_result (host : list Z) (w : World Hw) :
  let r := fst (inet_gethostbyname host w) in
  (fst r = 0 /\ exists ip, snd r = Some ip) \/ (fst r = -1 /\ snd r = None).
Proof.
  cbv zeta. unfold inet_gethostbyname. mrun. mexec; eauto.
Qed.

End Dns.

(** C9: two look-ups in a row.  The first allocates block 0, uses it and
    frees it, and leaves [dnsBuffer] pointing to it.  The second finds
    [dnsBuffer] not NULL, allocates nothing, hands the freed block to the
    DNS code and frees it a second time. *)
Theorem inet_gethostbyname_second_call_uses_freed_buffer :
  let host := [104; 111; 115; 116] in
  let w0 := world_init sim_idle (eth_set_isReady true eth_init) in
  let r1 := inet_gethostbyname host w0 in
  let r2 := inet_gethostbyname host (snd r1) in
  fst r1 = (0, Some (mkIp4 93 184 216 34))
  /\ trace (snd r1)
     = [HeapNew 512; GetSockOptStatus 0; DNS_init 0; DNS_run ip_zero host]
  /\ dnsBuffer (eth (snd r1)) = Some 0%nat
  /\ elements (live (snd r1)) = []
  /\ faults (snd r1) = []
  /\ fst r2 = (0, Some (mkIp4 93 184 216 34))
  /\ trace (snd r2)
     = trace (snd r1) ++ [GetSockOptStatus 0; DNS_init 0; DNS_run ip_zero host]
  /\ faults (snd r2) = [UseAfterFree 0; DoubleFree 0].
Proof. vm_compute. repeat split; reflexivity. Qed.

(** ** The address state machine *)

Section StateMachine.

Context {Hw : Type} {chip : Chip Hw}.

(** *** What a pass sees of the chip *)

Lemma socketGetFree_from_scan (n : nat) (ii : Z) (w : World Hw) :
  fst (socketGetFree_from n ii w) = free_scan n ii (hw w).
Proof.
  revert ii w. induction n as [|n IH]; intros ii w; cbn [socketGetFree_from free_scan].
  - reflexivity.
  - mrun. case_test; mproj; [reflexivity|]. rewrite IH. reflexivity.
Qed.

Lemma socketGetFree_scan (w : World Hw) :
  fst (socketGetFree w) = free_scan NUM_SOCKETS 0 (hw w).
Proof. apply socketGetFree_from_scan. Qed.

(** *** The link part *)

Lemma stateMachine_link_eth (w : World Hw) :
  let e := eth w in
  let e' := eth (snd (stateMachine_link w)) in
  phyLink e' = link_is_up (hw w)
  /\ dhcpState e' = dhcpState e
  /\ dhcpBuffer e' = dhcpBuffer e
  /\ dnsBuffer e' = dnsBuffer e
  /\ callbacks e' = callbacks e
  /\ dhcpCbRegistered e' = dhcpCbRegistered e
  /\ lastDhcpCheck e' = lastDhcpCheck e
  /\ ipAddr e' = ipAddr e.
Proof.
  cbv zeta. unfold stateMachine_link, link_is_up. mrun.
  destruct (rint (hw_step PhyLink (hw w)).1 =? PHY_LINK_ON) eqn:Hl;
    destruct (phyLink (eth w)) eqn:Hp; cbn [eqb negb]; mexec; auto 10.
Qed.

Lemma stateMachine_link_hw (w : World Hw) :
  hw (snd (stateMachine_link w)) = snd (hw_step PhyLink (hw w)).
Proof. unfold stateMachine_link. mrun. mexec; reflexivity. Qed.

Lemma stateMachine_link_frame (w : World Hw) :
  let w' := snd (stateMachine_link w) in
  trace w' = trace w ++ [PhyLink] /\ datas w' = datas w /\ live w' = live w
  /\ next_block w' = next_block w /\ faults w' = faults w.
Proof. cbv zeta. unfold stateMachine_link. mrun. mexec; auto 10. Qed.

(** The flag [isReady] after the link part: an edge up sets it only in
    static mode with an address configured, an edge down clears it. *)
Lemma stateMachine_link_isReady (w : World Hw) :
  isReady (eth (snd (stateMachine_link w)))
  = if eqb (link_is_up (hw w)) (phyLink (eth w)) then isReady (eth w)
    else if link_is_up (hw w)
         then (if bool_decide (dhcpState (eth w) = NOT_USED) && ip_nonzero (ipAddr (eth w))
               then true else isReady (eth w))
         else false.
Proof.
  unfold stateMachine_link, link_is_up. mrun.
  destruct (rint (hw_step PhyLink (hw w)).1 =? PHY_LINK_ON) eqn:Hl;
    destruct (phyLink (eth w)) eqn:Hp; cbn [eqb negb]; mexec;
    try reflexivity; try congruence.
Qed.

(** The handlers called by the link part. *)
Lemma stateMachine_link_fired (w : World Hw) :
  fired (snd (stateMachine_link w))
  = fired w
    ++ (if eqb (link_is_up (hw w)) (phyLink (eth w)) then []
        else if link_is_up (hw w)
             then map (fun h => (linkUp, h)) (callbacks (eth w))
                  ++ (if bool_decide (dhcpState (eth w) = NOT_USED)
                         && ip_nonzero (ipAddr (eth w))
                      then map (fun h => (gotIpAddress, h)) (callbacks (eth w))
                      else [])
             else map (fun h => (linkDown, h)) (callbacks (eth w))).
Proof.
  unfold stateMachine_link, link_is_up. mrun.
  destruct (rint (hw_step PhyLink (hw w)).1 =? PHY_LINK_ON) eqn:Hl;
    destruct (phyLink (eth w)) eqn:Hp; cbn [eqb negb]; mexec;
    rewrite ?app_nil_r, <- ?app_assoc; try reflexivity; try congruence.
Qed.

(** *** The DNS timer *)

Lemma stateMachine_dns_frame (w : World Hw) :
  let e := eth w in
  let w' := snd (stateMachine_dns w) in
  let e' := eth w' in
  phyLink e' = phyLink e /\ isReady e' = isReady e /\ dhcpState e' = dhcpState e
  /\ dhcpBuffer e' = dhcpBuffer e /\ dnsBuffer e' = dnsBuffer e
  /\ callbacks e' = callbacks e /\ dhcpCbRegistered e' = dhcpCbRegistered e
  /\ lastDhcpCheck e' = lastDhcpCheck e /\ ipAddr e' = ipAddr e
  /\ fired w' = fired w.
Proof. cbv zeta. unfold stateMachine_dns. mrun. mexec; auto 12. Qed.

(** *** The switch on [dhcpState] *)

Lemma stateMachine_dhcp_state (w : World Hw) :
  dhcpState (eth (snd (stateMachine_dhcp w)))
  = dhcp_next (dhcpState (eth w)) (phyLink (eth w)) (switch_slot w) (switch_answer w)
      (dhcpCbRegistered (eth w)).
Proof.
  unfold stateMachine_dhcp, switch_slot, switch_answer. mstep.
  destruct (dhcpState (eth w)) eqn:Hs; cbn [dhcp_next]; minline.
  - mstep. exact Hs.
  - msteps; try exact Hs.
    all: repeat match goal with
           | Hx : dhcpBuffer (eth _) = _ |- _ => rewrite Hx
           end.
    all: try case_opt.
    all: unfold chip_after; cbn [fold_left].
    all: repeat match goal with
           | Hx : context [fst (socketGetFree ?W)] |- _ =>
               rewrite (socketGetFree_scan W) in Hx; mproj in Hx
           end.
    all: case_test; try reflexivity; try lia; try congruence.
  - msteps.
    all: unfold chip_after; cbn [fold_left].
    all: repeat case_test; try reflexivity; try lia; try congruence.
  - msteps. reflexivity.
  - msteps; try reflexivity; congruence.
  - msteps; try reflexivity; congruence.
  - msteps; try reflexivity; congruence.
Qed.

Lemma stateMachine_dhcp_frame (w : World Hw) :
  let e := eth w in
  let e' := eth (snd (stateMachine_dhcp w)) in
  phyLink e' = phyLink e /\ callbacks e' = callbacks e
  /\ dhcpCbRegistered e' = dhcpCbRegistered e.
Proof.
  cbv zeta. unfold stateMachine_dhcp. mstep.
  destruct (dhcpState (eth w)) eqn:Hs; minline; msteps; auto.
Qed.

(** The handlers called by the switch: only the GOT_ADDRESS case calls any,
    each registered handler once with [gotIpAddress]. *)
Lemma stateMachine_dhcp_fired (w : World Hw) :
  fired (snd (stateMachine_dhcp w))
  = fired w ++ (if bool_decide (dhcpState (eth w) = GOT_ADDRESS)
                then map (fun h => (gotIpAddress, h)) (callbacks (eth w))
                else []).
Proof.
  unfold stateMachine_dhcp. mstep.
  destruct (dhcpState (eth w)) eqn:Hs; minline; msteps;
    rewrite ?app_nil_r; reflexivity.
Qed.

(** [isReady] is set by the switch only from inside the protocol run, when
    the assign or the update handler pushes the leased addresses. *)
Lemma stateMachine_dhcp_isReady (w : World Hw) :
  isReady (eth (snd (stateMachine_dhcp w))) = true ->
  isReady (eth w) = true
  \/ (dhcpState (eth w) = IN_PROGRESS /\ dhcpCbRegistered (eth w) = true
      /\ (switch_answer w = 1 \/ switch_answer w = 2)).
Proof.
  unfold stateMachine_dhcp, switch_answer. mstep.
  destruct (dhcpState (eth w)) eqn:Hs; minline; msteps; auto.
  all: unfold chip_after; cbn [fold_left].
  all: repeat case_test; try lia; auto 10.
Qed.

(** *** A whole pass *)

Lemma tick_unfold (h : Hw) (w : World Hw) :
  tick h w
  = snd (stateMachine_dns (snd (stateMachine_dhcp (snd (stateMachine_link (w_set_hw h w)))))).
Proof. reflexivity. Qed.

Lemma link_then_switch_slot (h : Hw) (w : World Hw) :
  switch_slot (snd (stateMachine_link (w_set_hw h w))) = attempt_slot (eth w) h.
Proof.
  unfold switch_slot, attempt_slot.
  destruct (stateMachine_link_eth (w_set_hw h w)) as (_ & _ & Hb & _).
  rewrite Hb, stateMachine_link_hw. reflexivity.
Qed.

Lemma link_then_switch_answer (h : Hw) (w : World Hw) :
  switch_answer (snd (stateMachine_link (w_set_hw h w))) = dhcp_answer (eth w) h.
Proof.
  unfold switch_answer, dhcp_answer, calls_before_dhcp_run.
  destruct (stateMachine_link_eth (w_set_hw h w)) as (_ & _ & _ & _ & _ & _ & Hl & _).
  rewrite Hl, stateMachine_link_hw. cbv zeta. mproj.
  case_test; reflexivity.
Qed.

(** The switch follows the table. *)
Lemma tick_dhcpState (h : Hw) (w : World Hw) :
  dhcpState (eth (tick h w))
  = dhcp_next (dhcpState (eth w)) (link_is_up h) (attempt_slot (eth w) h)
      (dhcp_answer (eth w) h) (dhcpCbRegistered (eth w)).
Proof.
  rewrite tick_unfold.
  destruct (stateMachine_dns_frame (snd (stateMachine_dhcp (snd (stateMachine_link (w_set_hw h w))))))
    as (_ & _ & Hs & _).
  rewrite Hs, stateMachine_dhcp_state, link_then_switch_slot, link_then_switch_answer.
  destruct (stateMachine_link_eth (w_set_hw h w)) as (Hp & Hst & _ & _ & _ & Hr & _).
  rewrite Hp, Hst, Hr. reflexivity.
Qed.

Lemma tick_phyLink (h : Hw) (w : World Hw) : phyLink (eth (tick h w)) = link_is_up h.
Proof.
  rewrite tick_unfold.
  destruct (stateMachine_dns_frame (snd (stateMachine_dhcp (snd (stateMachine_link (w_set_hw h w))))))
    as (Hp & _).
  destruct (stateMachine_dhcp_frame (snd (stateMachine_link (w_set_hw h w)))) as (Hp' & _).
  destruct (stateMachine_link_eth (w_set_hw h w)) as (Hp'' & _).
  rewrite Hp, Hp', Hp''. reflexivity.
Qed.

Lemma tick_static (h : Hw) (w : World Hw) :
  callbacks (eth (tick h w)) = callbacks (eth w)
  /\ dhcpCbRegistered (eth (tick h w)) = dhcpCbRegistered (eth w).
Proof.
  rewrite tick_unfold.
  destruct (stateMachine_dns_frame (snd (stateMachine_dhcp (snd (stateMachine_link (w_set_hw h w))))))
    as (_ & _ & _ & _ & _ & Hc & Hr & _).
  destruct (stateMachine_dhcp_frame (snd (stateMachine_link (w_set_hw h w)))) as (_ & Hc' & Hr').
  destruct (stateMachine_link_eth (w_set_hw h w)) as (_ & _ & _ & _ & Hc'' & Hr'' & _).
  rewrite Hc, Hc', Hc'', Hr, Hr', Hr''. auto.
Qed.

(** *** C2: the link cycle *)

Lemma run_ticks_nil (w : World Hw) : run_ticks [] w = w.
Proof. reflexivity. Qed.

Lemma run_ticks_cons (h : Hw) (hs : list Hw) (w : World Hw) :
  run_ticks (h :: hs) w = run_ticks hs (tick h w).
Proof. reflexivity. Qed.

Lemma ticks_where_cons (P : Eth -> Hw -> Prop) (h : Hw) (hs : list Hw) (w : World Hw) :
  ticks_where P (h :: hs) w <-> P (eth w) h /\ ticks_where P hs (tick h w).
Proof. reflexivity. Qed.

Lemma run_ticks_app (hs1 hs2 : list Hw) (w : World Hw) :
  run_ticks (hs1 ++ hs2) w = run_ticks hs2 (run_ticks hs1 w).
Proof. apply fold_left_app. Qed.

Lemma run_registered (hs : list Hw) (w : World Hw) :
  dhcpCbRegistered (eth (run_ticks hs w)) = dhcpCbRegistered (eth w).
Proof.
  revert w. induction hs as [|h hs IH]; intros w; [reflexivity|].
  rewrite run_ticks_cons, IH. apply tick_static.
Qed.

(** With the link down, ATTEMPT waits. *)
Lemma attempt_waits_for_link (hs : list Hw) (w : World Hw) :
  dhcpState (eth w) = ATTEMPT ->
  ticks_where link_down_pass hs w ->
  dhcpState (eth (run_ticks hs w)) = ATTEMPT.
Proof.
  revert w. induction hs as [|h hs IH]; intros w Hs Hd; [exact Hs|].
  apply ticks_where_cons in Hd. destruct Hd as (Hd & Hrest).
  rewrite run_ticks_cons. apply IH; [|exact Hrest].
  rewrite tick_dhcpState, Hs. unfold link_down_pass in Hd. rewrite Hd. reflexivity.
Qed.

(** With the link up and no lease assigned, IN_PROGRESS goes on. *)
Lemma in_progress_waits_for_lease (hs : list Hw) (w : World Hw) :
  dhcpState (eth w) = IN_PROGRESS ->
  ticks_where waiting_pass hs w ->
  dhcpState (eth (run_ticks hs w)) = IN_PROGRESS.
Proof.
  revert w. induction hs as [|h hs IH]; intros w Hs Hd; [exact Hs|].
  apply ticks_where_cons in Hd. destruct Hd as ((Hup & Hans) & Hrest).
  rewrite run_ticks_cons. apply IH; [|exact Hrest].
  rewrite tick_dhcpState, Hs, Hup. cbn [dhcp_next].
  destruct (Z.eqb_spec (dhcp_answer (eth w) h) 1); [contradiction|].
  rewrite andb_false_r. reflexivity.
Qed.

(** With the link up, DONE stays. *)
Lemma done_stays_while_up (hs : list Hw) (w : World Hw) :
  dhcpState (eth w) = DONE ->
  ticks_where link_up_pass hs w ->
  dhcpState (eth (run_ticks hs w)) = DONE.
Proof.
  revert w. induction hs as [|h hs IH]; intros w Hs Hd; [exact Hs|].
  apply ticks_where_cons in Hd. destruct Hd as (Hd & Hrest).
  rewrite run_ticks_cons. apply IH; [|exact Hrest].
  rewrite tick_dhcpState, Hs. unfold link_up_pass in Hd. rewrite Hd. reflexivity.
Qed.

Lemma got_address_then_cleanup (h : Hw) (w : World Hw) :
  dhcpState (eth w) = GOT_ADDRESS -> dhcpState (eth (tick h w)) = CLEANUP.
Proof. intros Hs. rewrite tick_dhcpState, Hs. reflexivity. Qed.

Lemma cleanup_then_done (h : Hw) (w : World Hw) :
  dhcpState (eth w) = CLEANUP -> dhcpState (eth (tick h w)) = DONE.
Proof. intros Hs. rewrite tick_dhcpState, Hs. reflexivity. Qed.

Lemma done_then_attempt (h : Hw) (w : World Hw) :
  dhcpState (eth w) = DONE -> link_is_up h = false ->
  dhcpState (eth (tick h w)) = ATTEMPT.
Proof. intros Hs Hd. rewrite tick_dhcpState, Hs, Hd. reflexivity. Qed.

(** After a lease, a link that stays up for [ups] passes and then drops for
    [downs] passes, three passes or more in all, brings the machine back to
    ATTEMPT. *)
Lemma lease_then_link_drop (ups downs : list Hw) (w : World Hw) :
  dhcpState (eth w) = GOT_ADDRESS ->
  ticks_where link_up_pass ups w ->
  ticks_where link_down_pass downs (run_ticks ups w) ->
  (3 <= length ups + length downs)%nat -> (1 <= length downs)%nat ->
  dhcpState (eth (run_ticks (ups ++ downs) w)) = ATTEMPT.
Proof.
  intros Hs Hu Hd Hlen Hm. rewrite run_ticks_app.
  destruct ups as [|u1 [|u2 ups]].
  - destruct downs as [|d1 [|d2 [|d3 downs]]]; cbn [length] in Hlen; try lia.
    rewrite run_ticks_nil in *. rewrite !run_ticks_cons.
    apply ticks_where_cons in Hd. destruct Hd as (H1 & Hd).
    apply ticks_where_cons in Hd. destruct Hd as (H2 & Hd).
    apply ticks_where_cons in Hd. destruct Hd as (H3 & Hrest).
    apply attempt_waits_for_link; [|exact Hrest].
    apply done_then_attempt; [|exact H3].
    apply cleanup_then_done. apply got_address_then_cleanup. exact Hs.
  - destruct downs as [|d1 [|d2 downs]]; cbn [length] in Hlen; try lia.
    rewrite run_ticks_cons, run_ticks_nil in *. rewrite !run_ticks_cons.
    apply ticks_where_cons in Hd. destruct Hd as (H1 & Hd).
    apply ticks_where_cons in Hd. destruct Hd as (H2 & Hrest).
    apply attempt_waits_for_link; [|exact Hrest].
    apply done_then_attempt; [|exact H2].
    apply cleanup_then_done. apply got_address_then_cleanup. exact Hs.
  - destruct downs as [|d1 downs]; cbn [length] in Hm; try lia.
    rewrite !run_ticks_cons in Hd. rewrite !run_ticks_cons.
    apply ticks_where_cons in Hu. destruct Hu as (_ & Hu).
    apply ticks_where_cons in Hu. destruct Hu as (_ & Hu).
    apply ticks_where_cons in Hd. destruct Hd as (H1 & Hrest).
    apply attempt_waits_for_link; [|exact Hrest].
    apply done_then_attempt; [|exact H1].
    apply done_stays_while_up; [|exact Hu].
    apply cleanup_then_done. apply got_address_then_cleanup. exact Hs.
Qed.

Lemma stateMachine_dns_trace (w : World Hw) :
  exists l, trace (snd (stateMachine_dns w)) = trace w ++ l.
Proof.
  unfold stateMachine_dns. minline. msteps; rewrite <- ?app_assoc;
    first [exists []; rewrite app_nil_r; reflexivity | eexists; reflexivity].
Qed.

(** In the ATTEMPT case with the link up, a socket that is found is handed to
    the DHCP code. *)
Lemma stateMachine_dhcp_attempt_init (w : World Hw) :
  dhcpState (eth w) = ATTEMPT -> phyLink (eth w) = true -> 0 <= switch_slot w ->
  In (DHCP_init (to_uint8 (switch_slot w))) (trace (snd (stateMachine_dhcp w))).
Proof.
  intros Hs Hp. unfold stateMachine_dhcp, switch_slot. mstep. rewrite Hs. minline.
  mstep. rewrite Hp. cbv beta iota.
  msteps.
  all: try case_opt.
  all: unfold chip_after; cbn [fold_left].
  all: intros Hslot.
  all: repeat match goal with
         | Hx : context [fst (socketGetFree ?W)] |- _ =>
             rewrite (socketGetFree_scan W) in Hx; mproj in Hx
         end.
  all: rewrite ?socketGetFree_scan; mproj; try lia; try congruence.
  all: apply in_or_app; right; left; reflexivity.
Qed.

Lemma attempt_allocates_slot (h : Hw) (w : World Hw) :
  dhcpState (eth w) = ATTEMPT -> link_is_up h = true -> 0 <= attempt_slot (eth w) h ->
  In (DHCP_init (to_uint8 (attempt_slot (eth w) h))) (trace (tick h w)).
Proof.
  intros Hs Hup Hslot. rewrite tick_unfold.
  destruct (stateMachine_dns_trace (snd (stateMachine_dhcp (snd (stateMachine_link (w_set_hw h w))))))
    as (l & Hl).
  rewrite Hl. apply in_or_app. left.
  rewrite <- link_then_switch_slot in Hslot |- *.
  destruct (stateMachine_link_eth (w_set_hw h w)) as (Hp & Hst & _).
  apply stateMachine_dhcp_attempt_init; [rewrite Hst; exact Hs | | exact Hslot].
  rewrite Hp. exact Hup.
Qed.

(** The limit of the cycle: the drop of the link is noticed by the DONE case
    only.  A drop that is over before the machine is in DONE (one pass with
    the link down right after the lease) leaves it in DONE for as long as the
    link stays up. *)
Lemma short_link_drop_parks_in_done (d u : Hw) (ups : list Hw) (w : World Hw) :
  dhcpState (eth w) = GOT_ADDRESS ->
  ticks_where link_up_pass (u :: ups) (tick d w) ->
  dhcpState (eth (run_ticks (d :: u :: ups) w)) = DONE.
Proof.
  intros Hs Hu. apply ticks_where_cons in Hu. destruct Hu as (_ & Hu).
  rewrite !run_ticks_cons. apply done_stays_while_up; [|exact Hu].
  apply cleanup_then_done, got_address_then_cleanup, Hs.
Qed.

(** What holds of the cycle of C2.  In ATTEMPT, a pass that finds the link
    up hands a free socket to the DHCP code and moves to IN_PROGRESS, or
    moves to DONE when no socket is free; in DONE, a pass that finds the link
    down moves back to ATTEMPT.  When the drop of the link is seen by a pass
    in DONE the cycle closes: from ATTEMPT with the link down, the link
    comes up with a socket free (IN_PROGRESS, first time), the protocol works
    until it assigns a lease (GOT_ADDRESS), the link stays up for some passes
    and then drops, for three passes or more in all (back in ATTEMPT), and
    comes up again with a socket free: the machine is in IN_PROGRESS a second
    time. *)
Theorem dhcp_link_cycle :
  (forall (w : World Hw) (h : Hw),
      dhcpState (eth w) = ATTEMPT -> link_is_up h = true ->
      dhcpState (eth (tick h w))
      = (if 0 <=? attempt_slot (eth w) h then IN_PROGRESS else DONE)
      /\ (0 <= attempt_slot (eth w) h ->
          In (DHCP_init (to_uint8 (attempt_slot (eth w) h))) (trace (tick h w))))
  /\ (forall (w : World Hw) (h : Hw),
      dhcpState (eth w) = DONE -> link_is_up h = false ->
      dhcpState (eth (tick h w)) = ATTEMPT)
  /\ (forall (w0 : World Hw) (downs0 : list Hw) (up1 : Hw) (waits : list Hw)
             (lease : Hw) (ups downs : list Hw) (up2 : Hw),
      dhcpState (eth w0) = ATTEMPT ->
      dhcpCbRegistered (eth w0) = true ->
      ticks_where link_down_pass downs0 w0 ->
      let w1 := run_ticks downs0 w0 in
      link_is_up up1 = true -> 0 <= attempt_slot (eth w1) up1 ->
      let w2 := tick up1 w1 in
      ticks_where waiting_pass waits w2 ->
      let w3 := run_ticks waits w2 in
      link_is_up lease = true -> dhcp_answer (eth w3) lease = 1 ->
      let w4 := tick lease w3 in
      ticks_where link_up_pass ups w4 ->
      ticks_where link_down_pass downs (run_ticks ups w4) ->
      (3 <= length ups + length downs)%nat -> (1 <= length downs)%nat ->
      let w5 := run_ticks (ups ++ downs) w4 in
      link_is_up up2 = true -> 0 <= attempt_slot (eth w5) up2 ->
      let w6 := tick up2 w5 in
      dhcpState (eth w1) = ATTEMPT
      /\ dhcpState (eth w2) = IN_PROGRESS
      /\ dhcpState (eth w3) = IN_PROGRESS
      /\ dhcpState (eth w4) = GOT_ADDRESS
      /\ dhcpState (eth w5) = ATTEMPT
      /\ dhcpState (eth w6) = IN_PROGRESS).
Proof.
  assert (Hattempt : forall (w : World Hw) (h : Hw),
             dhcpState (eth w) = ATTEMPT -> link_is_up h = true ->
             dhcpState (eth (tick h w))
             = (if 0 <=? attempt_slot (eth w) h then IN_PROGRESS else DONE)).
  { intros w h Hs Hup. rewrite tick_dhcpState, Hs, Hup. reflexivity. }
  split; [|split].
  - intros w h Hs Hup. split; [apply Hattempt; assumption|].
    intros Hslot. apply attempt_allocates_slot; assumption.
  - intros w h Hs Hd. apply done_then_attempt; assumption.
  - intros w0 downs0 up1 waits lease ups downs up2 Hs0 Hreg Hd0 w1 Hup1 Hslot1 w2
           Hwaits w3 Hlease Hans w4 Hups Hdowns Hlen Hm w5 Hup2 Hslot2 w6.
    assert (H1 : dhcpState (eth w1) = ATTEMPT)
      by (apply attempt_waits_for_link; assumption).
    assert (H2 : dhcpState (eth w2) = IN_PROGRESS).
    { unfold w2. rewrite Hattempt by assumption.
      destruct (Z.leb_spec 0 (attempt_slot (eth w1) up1)); [reflexivity | lia]. }
    assert (H3 : dhcpState (eth w3) = IN_PROGRESS)
      by (apply in_progress_waits_for_lease; assumption).
    assert (Hreg3 : dhcpCbRegistered (eth w3) = true).
    { unfold w3. rewrite run_registered. unfold w2.
      destruct (tick_static up1 w1) as (_ & Hr). rewrite Hr.
      unfold w1. rewrite run_registered. exact Hreg. }
    assert (H4 : dhcpState (eth w4) = GOT_ADDRESS).
    { unfold w4. rewrite tick_dhcpState, H3, Hlease, Hreg3, Hans. reflexivity. }
    assert (H5 : dhcpState (eth w5) = ATTEMPT)
      by (apply lease_then_link_drop; assumption).
    assert (H6 : dhcpState (eth w6) = IN_PROGRESS).
    { unfold w6. rewrite Hattempt by assumption.
      destruct (Z.leb_spec 0 (attempt_slot (eth w5) up2)); [reflexivity | lia]. }
    auto 10.
Qed.

(** *** C5: the notification of a lease *)








(** *** C10: back to DHCP *)

Lemma withDHCP_eth (w : World Hw) :
  eth (snd (withDHCP w))
  = eth_set_dhcpState ATTEMPT (eth_set_ipAddr (mkIp4 0 0 0 0) (eth w)).
Proof. reflexivity. Qed.

Lemma dhcp_next_mode (s : DhcpState) (up : bool) (slot ans : Z) (reg : bool) :
  dhcp_mode s -> dhcp_mode (dhcp_next s up slot ans reg).
Proof.
  unfold dhcp_mode. intros (H1 & H2).
  destruct s; cbn [dhcp_next]; try congruence;
    destruct up; try (split; discriminate);
    try (destruct (0 <=? slot); split; discriminate);
    destruct (reg && (ans =? 1)); split; discriminate.
Qed.

(** When a pass leaves [isReady] set, it was set before, or the link came up
    in static mode with an address configured, or a lease arrived. *)
Lemma tick_isReady (h : Hw) (w : World Hw) :
  isReady (eth (tick h w)) = true ->
  isReady (eth w) = true
  \/ (dhcpState (eth w) = NOT_USED /\ ip_nonzero (ipAddr (eth w)) = true
      /\ link_is_up h = true /\ phyLink (eth w) = false)
  \/ (dhcpState (eth w) = IN_PROGRESS /\ dhcpCbRegistered (eth w) = true
      /\ (dhcp_answer (eth w) h = 1 \/ dhcp_answer (eth w) h = 2)).
Proof.
  rewrite tick_unfold.
  destruct (stateMachine_dns_frame (snd (stateMachine_dhcp (snd (stateMachine_link (w_set_hw h w))))))
    as (_ & Hr & _).
  rewrite Hr. intros H. apply stateMachine_dhcp_isReady in H.
  destruct (stateMachine_link_eth (w_set_hw h w)) as (_ & Hst & _ & _ & _ & Hreg & _).
  rewrite Hst, Hreg, link_then_switch_answer in H.
  destruct H as [H|H]; [|right; right; exact H].
  rewrite stateMachine_link_isReady in H. mproj in H.
  destruct (link_is_up h) eqn:Hup; destruct (phyLink (eth w)) eqn:Hp; cbn [eqb] in H;
    try (left; exact H); try discriminate.
  destruct (bool_decide (dhcpState (eth w) = NOT_USED)) eqn:Hn; cbn [andb] in H;
    [|left; exact H].
  apply bool_decide_eq_true_1 in Hn.
  destruct (ip_nonzero (ipAddr (eth w))) eqn:Hip; [|left; exact H].
  right; left. auto.
Qed.

Lemma not_ready_pass (h : Hw) (w : World Hw) :
  dhcp_mode (dhcpState (eth w)) -> isReady (eth w) = false -> no_lease_pass (eth w) h ->
  dhcp_mode (dhcpState (eth (tick h w))) /\ isReady (eth (tick h w)) = false.
Proof.
  intros Hm Hr Hno. split.
  - rewrite tick_dhcpState. apply dhcp_next_mode. exact Hm.
  - destruct (isReady (eth (tick h w))) eqn:Ht; [|reflexivity].
    apply tick_isReady in Ht. destruct Ht as [Ht|[Ht|Ht]].
    + congruence.
    + destruct Hm as (Hm & _). destruct Ht as (Ht & _). contradiction.
    + contradiction.
Qed.

Lemma not_ready_run (hs : list Hw) (w : World Hw) :
  dhcp_mode (dhcpState (eth w)) -> isReady (eth w) = false ->
  ticks_where no_lease_pass hs w ->
  isReady (eth (run_ticks hs w)) = false.
Proof.
  revert w. induction hs as [|h hs IH]; intros w Hm Hr Hno; [exact Hr|].
  apply ticks_where_cons in Hno. destruct Hno as (Hno & Hrest).
  destruct (not_ready_pass h w Hm Hr Hno) as (Hm' & Hr').
  rewrite run_ticks_cons. apply IH; assumption.
Qed.

(** In static mode with an address configured, the link coming up is enough
    to make the interface ready. *)
Lemma static_link_up_ready (h : Hw) (w : World Hw) :
  dhcpState (eth w) = NOT_USED -> ip_nonzero (ipAddr (eth w)) = true ->
  phyLink (eth w) = false -> link_is_up h = true ->
  isReady (eth (snd (stateMachine_link (w_set_hw h w)))) = true.
Proof.
  intros Hs Hip Hp Hup. rewrite stateMachine_link_isReady. mproj.
  rewrite Hup, Hp, Hs, Hip. reflexivity.
Qed.

(** C10.  [withDHCP] zeroes the four bytes of the stored address and sets
    ATTEMPT, whatever address was configured before, so that [localIP]
    reports 0.0.0.0; it leaves [isReady] as it was.  From there, with the
    interface not ready, no sequence of passes makes [ready] true, whatever
    the link does, as long as the protocol delivers no lease. *)
Theorem withDHCP_needs_lease :
  (forall w : World Hw,
      let w' := snd (withDHCP w) in
      ipAddr (eth w') = mkIp4 0 0 0 0
      /\ fst (localIP w') = mkIp4 0 0 0 0
      /\ dhcpState (eth w') = ATTEMPT
      /\ isReady (eth w') = isReady (eth w))
  /\ (forall (w : World Hw) (hs : list Hw),
      isReady (eth w) = false ->
      ticks_where no_lease_pass hs (snd (withDHCP w)) ->
      fst (ready (run_ticks hs (snd (withDHCP w)))) = false).
Proof.
  split.
  - intros w. cbv zeta. rewrite withDHCP_eth. repeat split.
  - intros w hs Hr Hno.
    change (isReady (eth (run_ticks hs (snd (withDHCP w)))) = false).
    apply not_ready_run; [| |exact Hno].
    + rewrite withDHCP_eth. split; discriminate.
    + rewrite withDHCP_eth. exact Hr.
Qed.

(** In DONE with the interface not ready, passes that find the link up
    change neither: nothing starts the protocol again and nothing makes the
    interface ready. *)
Lemma done_not_ready_stays (hs : list Hw) (w : World Hw) :
  dhcpState (eth w) = DONE -> isReady (eth w) = false ->
  Forall (fun h => link_is_up h = true) hs ->
  dhcpState (eth (run_ticks hs w)) = DONE /\ isReady (eth (run_ticks hs w)) = false.
Proof.
  revert w. induction hs as [|h hs IH]; intros w Hs Hr Hup; [auto|].
  apply Forall_cons_1 in Hup. destruct Hup as (Hh & Hup).
  rewrite run_ticks_cons. apply IH; [| |exact Hup].
  - rewrite tick_dhcpState, Hs, Hh. reflexivity.
  - apply not_ready_pass; [rewrite Hs; split; discriminate | exact Hr |].
    unfold no_lease_pass. rewrite Hs. intros (H & _). discriminate.
Qed.

End StateMachine.

(** ** The state machine on the simulated chip *)

Ltac sim_side :=
  vm_compute; repeat split; try reflexivity; try discriminate;
  try (intros (? & ?); discriminate); try (intro; discriminate); try lia.

(** That cycle on the simulated chip: one pass down, link up, one pass of
    waiting, the lease, two passes up and one down, link up again. *)
Lemma dhcp_link_cycle_witness :
  let w0 := world_init sim_down eth_init in
  let w1 := run_ticks [sim_down] w0 in
  let w2 := tick sim_idle w1 in
  let w3 := run_ticks [sim_idle] w2 in
  let w4 := tick sim_lease w3 in
  let w5 := run_ticks ([sim_idle; sim_idle] ++ [sim_down]) w4 in
  let w6 := tick sim_idle w5 in
  dhcpState (eth w1) = ATTEMPT
  /\ dhcpState (eth w2) = IN_PROGRESS
  /\ dhcpState (eth w3) = IN_PROGRESS
  /\ dhcpState (eth w4) = GOT_ADDRESS
  /\ dhcpState (eth w5) = ATTEMPT
  /\ dhcpState (eth w6) = IN_PROGRESS.
Proof.
  apply (proj2 (proj2 (@dhcp_link_cycle Sim Sim_chip))
           (world_init sim_down eth_init) [sim_down] sim_idle [sim_idle] sim_lease
           [sim_idle; sim_idle] [sim_down] sim_idle); sim_side.
Defined.

(** C2, the failing run.  From ATTEMPT: a pass with the link down, a pass
    with the link up (IN_PROGRESS), the pass in which the lease arrives
    (GOT_ADDRESS, interface ready), then the link drops for one pass.  That
    pass clears [isReady] and moves to CLEANUP; the next one, with the link
    up again, moves to DONE.  The DONE case looks at the level of the link
    only, so the drop is never seen: for as long as the link stays up,
    whatever else the chip does, the machine stays in DONE and the interface
    stays not ready.  IN_PROGRESS is not reached a second time.  The same
    holds of a drop of two passes; a drop of three passes is seen in DONE and
    the machine is in IN_PROGRESS again. *)
Theorem dhcp_short_link_drop_never_retries :
  map (fun hs => (dhcpState (eth (run_ticks hs c2_world)),
                  isReady (eth (run_ticks hs c2_world))))
    [[]; [sim_down]; [sim_down; sim_idle]; [sim_down; sim_idle; sim_lease];
     [sim_down; sim_idle; sim_lease; sim_down]; c2_passes 1]
  = [(ATTEMPT, false); (ATTEMPT, false); (IN_PROGRESS, false); (GOT_ADDRESS, true);
     (CLEANUP, false); (DONE, false)]
  /\ link_is_up sim_down = false /\ link_is_up sim_idle = true
  /\ link_is_up sim_lease = true
  /\ (forall (drop : nat) (ups : list Sim),
      drop = 1%nat \/ drop = 2%nat ->
      Forall (fun h => link_is_up h = true) ups ->
      let w := run_ticks (c2_passes drop ++ ups) c2_world in
      dhcpState (eth w) = DONE /\ isReady (eth w) = false)
  /\ dhcpState (eth (run_ticks (c2_passes 3) c2_world)) = IN_PROGRESS.
Proof.
  split; [vm_compute; reflexivity|].
  split; [reflexivity|]. split; [reflexivity|]. split; [reflexivity|].
  split; [|vm_compute; reflexivity].
  intros drop ups Hdrop Hups. cbv zeta. rewrite run_ticks_app.
  apply done_not_ready_stays; [| |exact Hups];
    destruct Hdrop as [-> | ->]; vm_compute; reflexivity.
Qed.


(** C10 on the simulated chip: static addressing with the link down, then
    [withDHCP]; the link comes up, drops and comes up again, the DHCP server
    is silent: not ready.  Without [withDHCP] the first pass with the link up
    makes the interface ready. *)
Lemma withDHCP_needs_lease_witness :
  let w := world_init sim_down eth_static in
  fst (ready (tick sim_idle w)) = true
  /\ fst (localIP (snd (withDHCP w))) = mkIp4 0 0 0 0
  /\ fst (ready (run_ticks [sim_idle; sim_idle; sim_down; sim_idle] (snd (withDHCP w))))
     = false.
Proof.
  cbv zeta. split; [reflexivity|]. split; [reflexivity|].
  apply (proj2 (@withDHCP_needs_lease Sim Sim_chip)
           (world_init sim_down eth_static) [sim_idle; sim_idle; sim_down; sim_idle]);
    sim_side.
Defined.

(** * Further properties of the code *)

(** ** The scan for a free socket *)

Section FreeSocket.

Context {Hw : Type} {chip : Chip Hw}.

Lemma status_seen_shift (ii : Z) (k : nat) (h : Hw) :
  status_seen ii (S k) h = status_seen (ii + 1) k (snd (hw_step (GetSockOptStatus ii) h)).
Proof.
  unfold status_seen, chip_after. cbn [status_reads fold_left].
  replace (ii + Z.of_nat (S k)) with (ii + 1 + Z.of_nat k) by lia. reflexivity.
Qed.

Lemma socketGetFree_from_first_closed (n : nat) (ii : Z) (w : World Hw) :
  let r := socketGetFree_from n ii w in
  (fst r = -1
   /\ trace (snd r) = trace w ++ status_reads n ii
   /\ forall k, (k < n)%nat -> status_seen ii k (hw w) <> SOCK_CLOSED)
  \/ (exists m, (m < n)%nat /\ fst r = ii + Z.of_nat m
      /\ trace (snd r) = trace w ++ status_reads (S m) ii
      /\ status_seen ii m (hw w) = SOCK_CLOSED
      /\ forall k, (k < m)%nat -> status_seen ii k (hw w) <> SOCK_CLOSED).
Proof.
  revert ii w. induction n as [|n IH]; intros ii w; cbn [socketGetFree_from].
  - left. mrun. rewrite app_nil_r. repeat split. intros k Hk. lia.
  - mrun. case_test; mproj.
    + right. exists 0%nat. rewrite Z.add_0_r. repeat split; try lia.
      unfold status_seen, chip_after. cbn [status_reads fold_left].
      rewrite Z.add_0_r. assumption.
    + set (w1 := w_set_hw _ _).
      specialize (IH (ii + 1) w1). cbv zeta in IH.
      assert (Hhw : hw w1 = snd (hw_step (GetSockOptStatus ii) (hw w))) by reflexivity.
      assert (Htr : trace w1 = trace w ++ [GetSockOptStatus ii]) by reflexivity.
      assert (H0 : status_seen ii 0 (hw w) <> SOCK_CLOSED).
      { unfold status_seen, chip_after. cbn [status_reads fold_left].
        rewrite Z.add_0_r. assumption. }
      destruct IH as [(Hr & Ht & Hall)|(m & Hm & Hr & Ht & Hc & Hall)].
      * left. rewrite Hr, Ht, Htr, <- app_assoc. repeat split.
        intros [|k] Hk; [exact H0|].
        rewrite status_seen_shift, <- Hhw. apply Hall. lia.
      * right. exists (S m). rewrite Hr, Ht, Htr, <- app_assoc.
        repeat split; try lia.
        -- rewrite status_seen_shift, <- Hhw. exact Hc.
        -- intros [|k] Hk; [exact H0|].
           rewrite status_seen_shift, <- Hhw. apply Hall. lia.
Qed.

(** [socketGetFree] asks for the status of the sockets in the order 0, 1,
    ..., stops at the first one the chip reports closed and returns its
    number; when none of the eight is closed it returns -1.  It changes
    nothing in the library. *)
Theorem socketGetFree_lowest_closed (w : World Hw) :
  let r := socketGetFree w in
  eth (snd r) = eth w /\ datas (snd r) = datas w
  /\ ((fst r = -1
       /\ trace (snd r) = trace w ++ status_reads 8 0
       /\ forall k, (k < 8)%nat -> status_seen 0 k (hw w) <> SOCK_CLOSED)
      \/ (exists m, (m < 8)%nat /\ fst r = Z.of_nat m
          /\ trace (snd r) = trace w ++ status_reads (S m) 0
          /\ status_seen 0 m (hw w) = SOCK_CLOSED
          /\ forall k, (k < m)%nat -> status_seen 0 k (hw w) <> SOCK_CLOSED)).
Proof.
  cbv zeta. split; [apply socketGetFree_eth|]. split; [apply socketGetFree_datas|].
  exact (socketGetFree_from_first_closed 8 0 w).
Qed.

End FreeSocket.

(** ** More of TCPClient *)

Section Client.

Context {Hw : Type} {chip : Chip Hw}.

Lemma stop_no_socket (c : TCPClient) (w : World Hw) (d : Data) :
  datas w !! d_ c = Some d ->
  exists d', datas (snd (stop c w)) !! d_ c = Some d' /\ sock d' < 0.
Proof.
  intros Hd. unfold stop. mrun. mexec; eexists; (split; [reflexivity|]); mproj; lia.
Qed.

(** The two outcomes of [connect] to an address.  When it returns 1 the
    interface was ready, the client holds one of the eight sockets with an
    empty buffer and the peer address recorded, and the last two requests to
    the chip were the connect to that address and port and the switch of the
    socket to non-blocking mode.  Otherwise it returns 0 and the client is
    left without a socket, whatever it held before. *)
Theorem connect_ip_outcome (c : TCPClient) (ip : Ip4) (port nif : Z)
    (w : World Hw) (d : Data) :
  datas w !! d_ c = Some d ->
  let r := connect_ip c ip port nif w in
  exists d', datas (snd r) !! d_ c = Some d'
    /\ ((fst (fst r) = 1
         /\ isReady (eth w) = true
         /\ 0 <= sock d' < 8 /\ remoteIP d' = ip /\ offset d' = 0 /\ total d' = 0
         /\ nif_ (snd (fst r)) = nif
         /\ exists l, trace (snd r)
                      = l ++ [Connect (sock d') ip port;
                              CtlSocketIoMode (sock d') SOCK_IO_NONBLOCK])
        \/ (fst (fst r) = 0 /\ sock d' < 0)).
Proof.
  intros Hd. cbv zeta. unfold connect_ip. rewrite run_bind_other.
  destruct (stop_no_socket c w d Hd) as (d1 & Hd1 & Hs1).
  rewrite <- (stop_eth c w).
  generalize dependent (snd (stop c w)). intros w1 Hd1. clear Hd.
  unfold stop. mrun. mexec.
  all: mproj in *; unfold socket_handle_valid in *.
  all: try (exfalso; lia).
  all: eexists; (split; [reflexivity|]); mproj.
  all: try (right; split; [reflexivity | lia]).
  all: left; pose proof (socketGetFree_range w1) as Hr.
  all: rewrite to_uint8_small by lia.
  all: repeat (split; [first [reflexivity | assumption | lia]|]).
  all: eexists; rewrite <- app_assoc; reflexivity.
Qed.

(** When the interface is not ready, both forms of [connect] return 0 after
    the [stop] they begin with: no name is resolved and no socket is asked
    for. *)
Theorem connect_not_ready (c : TCPClient) (ip : Ip4) (host : list Z) (port nif : Z)
    (w : World Hw) :
  isReady (eth w) = false ->
  connect_ip c ip port nif w = ((0, c), snd (stop c w))
  /\ connect_host c host port nif w = ((0, c), snd (stop c w)).
Proof.
  intros Hr. unfold connect_ip, connect_host. rewrite !run_bind_other.
  rewrite <- (stop_eth c w) in Hr.
  generalize dependent (snd (stop c w)). intros w1 Hr.
  mrun. rewrite Hr. split; reflexivity.
Qed.

(** [stop] on a client that holds a socket disconnects it once and leaves
    the client without socket, peer address and buffered bytes; a second
    [stop] does nothing at all. *)
Theorem stop_twice (c : TCPClient) (w : World Hw) (d : Data) :
  datas w !! d_ c = Some d -> 0 <= sock d ->
  let w1 := snd (stop c w) in
  trace w1 = trace w ++ [Disconnect (to_uint8 (sock d))]
  /\ datas w1 !! d_ c = Some (mkData (-1) (buffer d) 0 0 ip_zero)
  /\ stop c w1 = (tt, w1).
Proof.
  intros Hd Hs. cbv zeta. unfold stop. mrun. mexec; mproj in *; try lia.
  repeat split.
Qed.

(** Bytes that are buffered: [peek] returns the next one and changes
    nothing; [read] returns the same byte and takes it out of the buffer.
    Neither asks the chip for anything. *)
Theorem peek_then_read (c : TCPClient) (w : World Hw) (d : Data) :
  datas w !! d_ c = Some d ->
  0 <= offset d < total d -> total d < 65536 ->
  let byte := nth (Z.to_nat (offset d)) (buffer d) 0 in
  peek c w = (byte, w)
  /\ fst (read c w) = byte
  /\ trace (snd (read c w)) = trace w
  /\ fst (bufferCount c (snd (read c w))) = total d - offset d - 1.
Proof.
  intros Hd Ho Ht. cbv zeta. unfold peek, read, have_data. mrun. rewrite Hd.
  destruct (Z.eqb_spec (total d - offset d) 0) as [|_]; [lia|]. cbn [negb].
  cbv beta iota. mproj. rewrite Hd. cbv beta iota. mproj.
  rewrite lookup_alter_eq, Hd. cbn [fmap option_fmap option_map]. mproj.
  rewrite to_uint16_small by lia.
  repeat split; try reflexivity. lia.
Qed.

Lemma have_data_nothing (c : TCPClient) (w : World Hw) (d : Data) :
  datas w !! d_ c = Some d ->
  offset d = total d -> isReady (eth w) = false ->
  fst (have_data c w) = false /\ trace (snd (have_data c w)) = trace w.
Proof.
  intros Hd Ho Hr. unfold have_data, available. mrun. rewrite Hd, Ho, Z.sub_diag.
  cbn [Z.eqb negb]. cbv beta iota. mproj. rewrite Hd.
  mexec; rewrite ?Hr; mexec; mproj in *; split; try reflexivity;
    cbn [negb]; try (apply negb_false_iff, Z.eqb_eq); lia.
Qed.

(** Nothing buffered and the interface not ready: [read] and [peek] return
    -1, [read] into a buffer returns -1 and copies nothing, and the chip is
    not asked for anything. *)
Theorem read_nothing (c : TCPClient) (size : Z) (w : World Hw) (d : Data) :
  datas w !! d_ c = Some d ->
  offset d = total d -> isReady (eth w) = false ->
  fst (read c w) = -1 /\ fst (peek c w) = -1 /\ fst (read_buf c size w) = (-1, [])
  /\ trace (snd (read c w)) = trace w
  /\ trace (snd (peek c w)) = trace w
  /\ trace (snd (read_buf c size w)) = trace w.
Proof.
  intros Hd Ho Hr. destruct (have_data_nothing c w d Hd Ho Hr) as (Hb & Ht).
  unfold read, peek, read_buf. rewrite !run_bind_other, Hb.
  cbv beta iota. rewrite !run_ret. cbn [fst snd]. auto 10.
Qed.

Lemma read_buf_run (c : TCPClient) (size : Z) (w : World Hw) (d : Data) :
  datas w !! d_ c = Some d ->
  0 <= offset d < total d -> total d < 65536 ->
  0 <= size < 2147483648 ->
  let count := total d - offset d in
  let n := Z.min size count in
  let r := read_buf c size w in
  fst r = (n, take (Z.to_nat n) (drop (Z.to_nat (offset d)) (buffer d)))
  /\ trace (snd r) = trace w
  /\ fst (bufferCount c (snd r)) = count - n.
Proof.
  intros Hd Ho Ht Hs. cbv zeta. unfold read_buf, have_data. mrun. rewrite Hd.
  destruct (Z.eqb_spec (total d - offset d) 0) as [|_]; [lia|]. cbn [negb].
  cbv beta iota. mproj. rewrite Hd. cbv beta iota. mproj.
  rewrite lookup_alter_eq, Hd. cbn [fmap option_fmap option_map]. mproj.
  rewrite to_uint32_small, to_int32_small by lia.
  destruct (Z.ltb_spec (total d - offset d) size).
  - rewrite Z.min_r by lia. rewrite to_uint16_small by lia.
    repeat split; try reflexivity; lia.
  - rewrite Z.min_l by lia. rewrite to_uint16_small by lia.
    repeat split; try reflexivity; lia.
Qed.

(** [read] into a buffer of [size] bytes, from a buffer that holds [count]
    bytes: it copies the first [min size count] of them, in order, takes
    them out of the buffer and returns their number, without asking the
    chip for anything. *)
Theorem read_buf_takes_min (c : TCPClient) (size : Z) (w : World Hw) (d : Data) :
  datas w !! d_ c = Some d ->
  0 <= offset d < total d -> total d < 65536 ->
  0 <= size < 2147483648 ->
  let count := total d - offset d in
  let n := Z.min size count in
  let r := read_buf c size w in
  fst r = (n, take (Z.to_nat n) (drop (Z.to_nat (offset d)) (buffer d)))
  /\ trace (snd r) = trace w
  /\ fst (bufferCount c (snd r)) = count - n.
Proof. apply read_buf_run. Qed.

(** [available] on an empty buffer of a ready interface with an established
    socket: the chip is asked for up to 2048 bytes; what it delivers is put
    at the start of the buffer and counted. *)
Lemma available_fills_empty (c : TCPClient) (w : World Hw) (d : Data) :
  datas w !! d_ c = Some d ->
  offset d = total d -> 0 <= total d ->
  isReady (eth w) = true ->
  let sn := to_uint8 (sock d) in
  let st := hw_step (GetSockOptStatus sn) (hw w) in
  rint (fst st) = SOCK_ESTABLISHED ->
  let rc := fst (hw_step (Recv sn 2048) (snd st)) in
  0 < rint rc <= 2048 ->
  let r := available c w in
  fst r = rint rc
  /\ trace (snd r) = trace w ++ [GetSockOptStatus sn; Recv sn 2048]
  /\ datas (snd r) !! d_ c
     = Some (mkData (sock d) (poke (buffer d) 0 (take (Z.to_nat (rint rc)) (rbytes rc)))
               0 (rint rc) (remoteIP d)).
Proof.
  intros Hd Ho Ht Hr. cbv zeta. intros Hst Hn. unfold available. mrun.
  rewrite Hd, Ho, Z.eqb_refl, andb_true_r.
  assert (Hpos : (0 <? rint (fst (hw_step (Recv (to_uint8 (sock d)) 2048)
             (snd (hw_step (GetSockOptStatus (to_uint8 (sock d))) (hw w)))))) = true)
    by (apply Z.ltb_lt; lia).
  destruct (Z.eqb_spec (total d) 0) as [H0|H0]; cbn [negb]; cbv beta iota; mproj;
    rewrite Hr; cbv beta iota; mproj; rewrite ?lookup_alter_eq, Hd;
    cbn [fmap option_fmap option_map]; mproj;
    rewrite Hst; change (SOCK_ESTABLISHED =? SOCK_ESTABLISHED) with true;
    cbv beta iota; mproj; rewrite ?lookup_alter_eq, ?Hd;
    cbn [fmap option_fmap option_map]; mproj; rewrite ?H0;
    change (0 <? TCPCLIENT_BUF_MAX_SIZE) with true;
    change (to_uint16 (TCPCLIENT_BUF_MAX_SIZE - 0)) with 2048;
    cbv beta iota; mproj; rewrite Hpos;
    cbv beta iota; mproj; change (0 =? 0) with true; cbv beta iota; mproj;
    rewrite !lookup_alter_eq, Hd; cbn [fmap option_fmap option_map]; mproj;
    rewrite Z.add_0_l, to_uint16_small by lia; rewrite Z.sub_0_r, <- app_assoc.
  all: repeat split; reflexivity.
Qed.

(** The round trip of received bytes.  With nothing buffered, [available]
    fetches what the chip has, [n] bytes; a [read] into a buffer of [size]
    bytes right after returns the first [min size n] of exactly those bytes,
    in order, without asking the chip again, and leaves the rest buffered. *)
Theorem available_then_read_buf (c : TCPClient) (size : Z) (w : World Hw) (d : Data) :
  datas w !! d_ c = Some d ->
  offset d = total d -> 0 <= total d ->
  isReady (eth w) = true ->
  let sn := to_uint8 (sock d) in
  let st := hw_step (GetSockOptStatus sn) (hw w) in
  rint (fst st) = SOCK_ESTABLISHED ->
  let rc := fst (hw_step (Recv sn 2048) (snd st)) in
  let n := rint rc in
  0 < n <= 2048 -> (Z.to_nat n <= length (rbytes rc))%nat ->
  0 <= size < 2147483648 ->
  let r1 := available c w in
  let r2 := read_buf c size (snd r1) in
  fst r1 = n
  /\ fst r2 = (Z.min size n, take (Z.to_nat (Z.min size n)) (rbytes rc))
  /\ trace (snd r2) = trace w ++ [GetSockOptStatus sn; Recv sn 2048]
  /\ fst (bufferCount c (snd r2)) = n - Z.min size n.
Proof.
  intros Hd Ho Ht Hr. cbv zeta. intros Hst Hn Hlen Hsize.
  destruct (available_fills_empty c w d Hd Ho Ht Hr Hst Hn) as (H1 & H2 & H3).
  cbv zeta in H1, H2, H3.
  set (rc := fst (hw_step (Recv (to_uint8 (sock d)) 2048)
                    (snd (hw_step (GetSockOptStatus (to_uint8 (sock d))) (hw w))))) in *.
  destruct (read_buf_run c size (snd (available c w)) _ H3) as (R1 & R2 & R3);
    cbn [offset total]; try lia.
  cbn [offset total buffer] in R1, R3. cbv zeta in R1, R3.
  rewrite Z.sub_0_r in R1, R3.
  split; [exact H1|]. split; [|split; [rewrite R2; exact H2 | exact R3]].
  rewrite R1. f_equal. unfold poke. change (Z.to_nat 0) with 0%nat.
  rewrite take_0, drop_0. cbn [app].
  rewrite take_app_le by (rewrite length_take; lia).
  rewrite take_take. f_equal. lia.
Qed.

(** While bytes are buffered, [connected] is true whatever the chip reports
    for the socket: it reads the status once and changes nothing. *)
Theorem connected_while_buffered (c : TCPClient) (w : World Hw) (d : Data) :
  datas w !! d_ c = Some d ->
  total d - offset d <> 0 ->
  fst (connected c w) = true
  /\ datas (snd (connected c w)) = datas w
  /\ trace (snd (connected c w)) = trace w ++ [GetSockOptStatus (to_uint8 (sock d))].
Proof.
  intros Hd Hn. unfold connected, status. mrun. rewrite Hd.
  case_test; cbv beta iota; mproj.
  - case_test; cbv beta iota; mproj; rewrite ?Hd.
    + auto.
    + destruct (Z.eqb_spec (total d - offset d) 0); [contradiction|]. cbn [negb].
      cbv beta iota. auto.
  - rewrite Hd. destruct (Z.eqb_spec (total d - offset d) 0); [contradiction|].
    cbn [negb]. cbv beta iota. auto.
Qed.

(** With nothing buffered and the interface not ready, [connected] on a
    socket the chip reports as established returns false and closes the
    connection: the socket is disconnected and the client left without
    it. *)
Theorem connected_stops_when_not_ready (c : TCPClient) (w : World Hw) (d : Data) :
  datas w !! d_ c = Some d ->
  offset d = total d -> 0 <= sock d ->
  isReady (eth w) = false ->
  let sn := to_uint8 (sock d) in
  let st1 := hw_step (GetSockOptStatus sn) (hw w) in
  let st2 := hw_step (GetSockOptStatus sn) (snd st1) in
  rint (fst st1) = SOCK_ESTABLISHED -> rint (fst st2) = SOCK_ESTABLISHED ->
  let r := connected c w in
  fst r = false
  /\ trace (snd r) = trace w ++ [GetSockOptStatus sn; GetSockOptStatus sn; Disconnect sn]
  /\ datas (snd r) !! d_ c = Some (mkData (-1) (buffer d) 0 0 ip_zero).
Proof.
  intros Hd Ho Hs Hr. cbv zeta. intros H1 H2.
  unfold connected, status, available, stop. mrun.
  rewrite Hd, H1. change (SOCK_ESTABLISHED =? SOCK_ESTABLISHED) with true.
  cbv beta iota. mproj. rewrite Hr. cbv beta iota. mproj.
  rewrite Hd, Ho, Z.sub_diag. cbn [Z.eqb negb]. cbv beta iota. mproj.
  rewrite Hd, H2. change (SOCK_ESTABLISHED =? SOCK_ESTABLISHED) with true.
  cbv beta iota. mproj. rewrite Hd, Ho, Z.eqb_refl, andb_true_r.
  destruct (Z.eqb_spec (total d) 0) as [H0|H0]; cbn [negb]; cbv beta iota; mproj;
    rewrite Hr; cbv beta iota; mproj; rewrite ?lookup_alter_eq, Hd;
    cbn [fmap option_fmap option_map]; mproj; rewrite ?Ho, ?Z.sub_diag;
    cbn [Z.sub Z.opp Z.add Z.eqb negb]; cbv beta iota; mproj;
    rewrite ?lookup_alter_eq, Hd; cbn [fmap option_fmap option_map]; mproj;
    (destruct (Z.ltb_spec (sock d) 0); [lia|]); cbv beta iota; mproj;
    rewrite <- !app_assoc, !lookup_alter_eq, Hd;
    cbn [fmap option_fmap option_map]; repeat split.
Qed.

End Client.

(** ** More of TCPServer *)

Section Server.

Context {Hw : Type} {chip : Chip Hw}.

(** The three ways [startListener] fails.  Without a free socket it asks for
    nothing but the status reads and leaves the server as it is; so it does
    when the chip refuses to open the socket.  When the socket was opened
    and the chip then refuses to listen, the result is false as well, but
    the server now holds that socket, which was not closed again. *)
Theorem startListener_failures (s : TCPServer) (w : World Hw) :
  let found := socketGetFree w in
  let sock := fst found in
  let opened := hw_step (Socket (to_uint8 sock) Sn_MR_TCP (srv_port s) 0) (hw (snd found)) in
  let listening := hw_step (Listen (to_uint8 sock)) (snd opened) in
  let r := startListener s w in
  (sock < 0 -> r = ((false, s), snd found))
  /\ (0 <= sock -> rint (fst opened) < 0 ->
      fst r = (false, s)
      /\ trace (snd r) = trace (snd found) ++ [Socket (to_uint8 sock) Sn_MR_TCP (srv_port s) 0])
  /\ (0 <= sock -> 0 <= rint (fst opened) -> rint (fst listening) <> SOCK_OK ->
      fst r = (false, srv_set_sock sock s)
      /\ trace (snd r)
         = trace (snd found)
           ++ [Socket (to_uint8 sock) Sn_MR_TCP (srv_port s) 0; Listen (to_uint8 sock)]).
Proof.
  cbv zeta. unfold startListener. rewrite run_bind_other.
  set (sock := fst (socketGetFree w)). set (w1 := snd (socketGetFree w)).
  clearbody sock w1. split; [|split].
  - intros Hs. destruct (Z.leb_spec 0 sock); [lia|]. reflexivity.
  - intros Hs Ho. destruct (Z.leb_spec 0 sock); [|lia]. mrun.
    destruct (Z.leb_spec 0 (rint (fst (hw_step (Socket (to_uint8 sock) Sn_MR_TCP (srv_port s) 0)
                                         (hw w1))))); [lia|].
    split; reflexivity.
  - intros Hs Ho Hl. destruct (Z.leb_spec 0 sock); [|lia]. mrun.
    destruct (Z.leb_spec 0 (rint (fst (hw_step (Socket (to_uint8 sock) Sn_MR_TCP (srv_port s) 0)
                                         (hw w1))))); [|lia].
    cbv beta iota. mproj.
    destruct (Z.eqb_spec
                (rint (fst (hw_step (Listen (to_uint8 sock))
                              (snd (hw_step (Socket (to_uint8 sock) Sn_MR_TCP (srv_port s) 0)
                                      (hw w1)))))) SOCK_OK); [contradiction|].
    rewrite <- app_assoc. split; reflexivity.
Qed.

End Server.

(** ** More of the state machine *)

Section Passes.

Context {Hw : Type} {chip : Chip Hw}.

Lemma stateMachine_dns_calls (w : World Hw) :
  exists l, trace (snd (stateMachine_dns w)) = trace w ++ l
            /\ Forall (fun c => is_dhcp_call c = false) l.
Proof.
  unfold stateMachine_dns. minline. msteps; rewrite <- ?app_assoc;
    first [exists []; rewrite app_nil_r; split; [reflexivity | constructor]
          | eexists; split; [reflexivity | repeat constructor]].
Qed.

Lemma stateMachine_dhcp_static (w : World Hw) :
  dhcpState (eth w) = NOT_USED -> stateMachine_dhcp w = (tt, w).
Proof. intros Hs. unfold stateMachine_dhcp. mstep. rewrite Hs. reflexivity. Qed.

Lemma static_pass (h : Hw) (w : World Hw) :
  dhcpState (eth w) = NOT_USED ->
  dhcpState (eth (tick h w)) = NOT_USED
  /\ exists l, trace (tick h w) = trace w ++ l
               /\ Forall (fun c => is_dhcp_call c = false) l.
Proof.
  intros Hs. split; [rewrite tick_dhcpState, Hs; reflexivity|].
  rewrite tick_unfold.
  destruct (stateMachine_link_eth (w_set_hw h w)) as (_ & Hst & _).
  mproj in Hst. rewrite Hs in Hst.
  rewrite (stateMachine_dhcp_static _ Hst). cbn [snd].
  destruct (stateMachine_dns_calls (snd (stateMachine_link (w_set_hw h w)))) as (l & Hl & Hf).
  destruct (stateMachine_link_frame (w_set_hw h w)) as (Ht & _).
  rewrite Hl, Ht. mproj. rewrite <- app_assoc. eexists. split; [reflexivity|].
  constructor; [reflexivity | exact Hf].
Qed.

(** In static mode the maintenance passes never talk to the DHCP code:
    whatever the chip and the link do, the mode stays NOT_USED and none of
    the requests made is a DHCP request. *)
Theorem static_mode_never_runs_dhcp (hs : list Hw) (w : World Hw) :
  dhcpState (eth w) = NOT_USED ->
  dhcpState (eth (run_ticks hs w)) = NOT_USED
  /\ exists l, trace (run_ticks hs w) = trace w ++ l
               /\ Forall (fun c => is_dhcp_call c = false) l.
Proof.
  revert w. induction hs as [|h hs IH]; intros w Hs.
  - split; [exact Hs|]. exists []. rewrite app_nil_r. split; [reflexivity | constructor].
  - rewrite run_ticks_cons.
    destruct (static_pass h w Hs) as (Hs' & l1 & Hl1 & Hf1).
    destruct (IH (tick h w) Hs') as (Hs'' & l2 & Hl2 & Hf2).
    split; [exact Hs''|]. exists (l1 ++ l2).
    rewrite Hl2, Hl1, <- app_assoc. split; [reflexivity|].
    apply Forall_app. split; assumption.
Qed.

Lemma filter_link_got (l : list nat) :
  List.filter (fun ev => negb (bool_decide (fst ev = gotIpAddress)))
    (map (fun h => (gotIpAddress, h)) l) = [].
Proof.
  induction l as [|x l IH]; [reflexivity|].
  cbn [map List.filter fst]. rewrite bool_decide_eq_true_2 by reflexivity. exact IH.
Qed.

Lemma filter_link_other (t : CallbackType) (l : list nat) :
  t <> gotIpAddress ->
  List.filter (fun ev => negb (bool_decide (fst ev = gotIpAddress)))
    (map (fun h => (t, h)) l) = map (fun h => (t, h)) l.
Proof.
  intros Ht. induction l as [|x l IH]; [reflexivity|].
  cbn [map List.filter fst]. rewrite bool_decide_eq_false_2 by exact Ht.
  cbn [negb]. rewrite IH. reflexivity.
Qed.

Lemma link_pass (h : Hw) (w : World Hw) :
  link_fired (tick h w)
  = link_fired w
    ++ (if eqb (link_is_up h) (phyLink (eth w)) then []
        else map (fun cb => (if link_is_up h then linkUp else linkDown, cb))
               (callbacks (eth w))).
Proof.
  unfold link_fired. rewrite tick_unfold.
  destruct (stateMachine_dns_frame (snd (stateMachine_dhcp (snd (stateMachine_link (w_set_hw h w))))))
    as (_ & _ & _ & _ & _ & _ & _ & _ & _ & Hf).
  rewrite Hf, stateMachine_dhcp_fired, stateMachine_link_fired.
  destruct (stateMachine_link_eth (w_set_hw h w)) as (_ & Hst & _ & _ & Hc & _).
  rewrite Hst, Hc. mproj.
  rewrite !List.filter_app.
  replace (List.filter _ (if bool_decide (dhcpState (eth w) = GOT_ADDRESS) then _ else _))
    with (@nil (CallbackType * nat))
    by (destruct (bool_decide (dhcpState (eth w) = GOT_ADDRESS));
        [rewrite filter_link_got|]; reflexivity).
  rewrite app_nil_r. f_equal.
  destruct (eqb (link_is_up h) (phyLink (eth w))); [reflexivity|].
  destruct (link_is_up h).
  - rewrite List.filter_app, filter_link_other by discriminate.
    destruct (bool_decide (dhcpState (eth w) = NOT_USED) && ip_nonzero (ipAddr (eth w)));
      [rewrite filter_link_got|]; rewrite app_nil_r; reflexivity.
  - apply filter_link_other. discriminate.
Qed.

(** The link notifications follow the edges of the link.  A pass that finds
    the link changed calls every registered handler once, with [linkUp] or
    [linkDown] according to the new state, and records the new state; a pass
    that finds it unchanged makes no link notification.  So a run of passes
    during which the link does not change notifies nobody of the link. *)
Theorem link_notified_on_edges :
  (forall (h : Hw) (w : World Hw),
      phyLink (eth (tick h w)) = link_is_up h
      /\ link_fired (tick h w)
         = link_fired w
           ++ (if eqb (link_is_up h) (phyLink (eth w)) then []
               else map (fun cb => (if link_is_up h then linkUp else linkDown, cb))
                      (callbacks (eth w))))
  /\ (forall (hs : list Hw) (w : World Hw),
      ticks_where link_unchanged_pass hs w ->
      link_fired (run_ticks hs w) = link_fired w).
Proof.
  split.
  - intros h w. split; [apply tick_phyLink | apply link_pass].
  - intros hs. induction hs as [|h hs IH]; intros w Hu; [reflexivity|].
    apply ticks_where_cons in Hu. destruct Hu as (Hu & Hrest).
    rewrite run_ticks_cons, (IH _ Hrest), link_pass.
    unfold link_unchanged_pass in Hu. rewrite Hu, eqb_reflx, app_nil_r. reflexivity.
Qed.

Lemma unregistered_run (hs : list Hw) (w : World Hw) :
  dhcpCbRegistered (eth w) = false -> ticks_where no_lease_pass hs w.
Proof.
  revert w. induction hs as [|h hs IH]; intros w Hr; [exact I|].
  apply ticks_where_cons. split.
  - unfold no_lease_pass. intros (_ & Hreg & _). congruence.
  - apply IH. destruct (tick_static h w) as (_ & Hreg). rewrite Hreg. exact Hr.
Qed.

(** [setup] registers the handlers of the DHCP code only when it runs in
    ATTEMPT; in any other state that part of [setup] changes nothing.  While
    the handlers are not registered nothing copies a lease into the library:
    after [withDHCP], an interface that is not ready never becomes ready,
    whatever the DHCP server and the link do. *)
Theorem dhcp_without_handlers_never_ready :
  (forall w : World Hw,
      dhcpState (eth w) <> ATTEMPT -> setup_register_dhcp w = (tt, w))
  /\ (forall (hs : list Hw) (w : World Hw),
      dhcpCbRegistered (eth w) = false -> isReady (eth w) = false ->
      dhcpCbRegistered (eth (snd (withDHCP w))) = false
      /\ fst (ready (run_ticks hs (snd (withDHCP w)))) = false).
Proof.
  split.
  - intros w Hs. unfold setup_register_dhcp. mstep.
    rewrite bool_decide_eq_false_2 by exact Hs. reflexivity.
  - intros hs w Hreg Hr. rewrite withDHCP_eth. mproj. split; [exact Hreg|].
    change (isReady (eth (run_ticks hs (snd (withDHCP w)))) = false).
    apply not_ready_run.
    + rewrite withDHCP_eth. split; discriminate.
    + rewrite withDHCP_eth. exact Hr.
    + apply unregistered_run. rewrite withDHCP_eth. exact Hreg.
Qed.




End Passes.

(** ** More of the name look-up *)

Section Lookup.

Context {Hw : Type} {chip : Chip Hw}.

(** The two ways a first look-up fails before the DNS code is started.
    When no memory is left for the buffer it returns -1 at once, having asked
    for nothing else.  When memory is there but none of the eight sockets is
    closed, it returns -1 after the scan, frees the buffer again, and has not
    started the DNS code.  [resolve] then gives 0.0.0.0. *)
Theorem inet_gethostbyname_fails_early (host : list Z) (w : World Hw) :
  dnsBuffer (eth w) = None ->
  let mem := hw_step (HeapNew MAX_DNS_BUF_SIZE) (hw w) in
  let r := inet_gethostbyname host w in
  (rint (fst mem) = 0 ->
   fst r = (-1, None)
   /\ trace (snd r) = trace w ++ [HeapNew MAX_DNS_BUF_SIZE]
   /\ dnsBuffer (eth (snd r)) = None /\ live (snd r) = live w
   /\ fst (resolve host w) = ip_zero)
  /\ (rint (fst mem) <> 0 -> (next_block w ∉ live w) ->
      free_scan NUM_SOCKETS 0 (snd mem) = -1 ->
      fst r = (-1, None)
      /\ trace (snd r) = trace w ++ HeapNew MAX_DNS_BUF_SIZE :: status_reads 8 0
      /\ live (snd r) = live w /\ faults (snd r) = faults w
      /\ fst (resolve host w) = ip_zero).
Proof.
  intros Hnull. cbv zeta.
  assert (Hres : fst (inet_gethostbyname host w) = (-1, None) ->
                 fst (resolve host w) = ip_zero).
  { intros H. unfold resolve. rewrite run_bind_other, H. reflexivity. }
  split.
  - intros Hmem.
    assert (Hmain : fst (inet_gethostbyname host w) = (-1, None)
                    /\ trace (snd (inet_gethostbyname host w))
                       = trace w ++ [HeapNew MAX_DNS_BUF_SIZE]
                    /\ dnsBuffer (eth (snd (inet_gethostbyname host w))) = None
                    /\ live (snd (inet_gethostbyname host w)) = live w).
    { unfold inet_gethostbyname. mrun. rewrite Hnull.
      rewrite bool_decide_eq_true_2 by reflexivity. cbv beta iota. mproj.
      rewrite Hmem. change (0 =? 0) with true. cbv beta iota. mproj.
      rewrite bool_decide_eq_true_2 by reflexivity. cbn [negb]. cbv beta iota. mproj.
      auto. }
    destruct Hmain as (H1 & H2 & H3 & H4). auto 10.
  - intros Hmem Hfresh Hscan.
    assert (Hmain : fst (inet_gethostbyname host w) = (-1, None)
                    /\ trace (snd (inet_gethostbyname host w))
                       = trace w ++ HeapNew MAX_DNS_BUF_SIZE :: status_reads 8 0
                    /\ live (snd (inet_gethostbyname host w)) = live w
                    /\ faults (snd (inet_gethostbyname host w)) = faults w).
    { unfold inet_gethostbyname. mrun. rewrite Hnull.
      rewrite bool_decide_eq_true_2 by reflexivity. cbv beta iota. mproj.
      destruct (Z.eqb_spec (rint (fst (hw_step (HeapNew MAX_DNS_BUF_SIZE) (hw w)))) 0);
        [contradiction|].
      cbv beta iota. mproj.
      rewrite (bool_decide_eq_false_2 (Some (next_block w) = None)) by discriminate.
      cbn [negb]. cbv beta iota. mproj.
      set (w1 := w_set_eth _ _).
      assert (Hhw : hw w1 = snd (hw_step (HeapNew MAX_DNS_BUF_SIZE) (hw w))) by reflexivity.
      assert (Hfree : fst (socketGetFree w1) = -1).
      { rewrite socketGetFree_scan, Hhw. exact Hscan. }
      destruct (socketGetFree_from_first_closed 8 0 w1)
        as [(_ & Htr & _)|(m & _ & Hm & _)];
        [|change (socketGetFree_from 8 0 w1) with (socketGetFree w1) in Hm; lia].
      change (socketGetFree_from 8 0 w1) with (socketGetFree w1) in Htr.
      rewrite Hfree. change (0 <=? -1) with false. cbv beta iota. mproj.
      rewrite !socketGetFree_eth.
      change (dnsBuffer (eth w1)) with (Some (next_block w)).
      cbv beta iota. rewrite !socketGetFree_live.
      change (live w1) with ({[next_block w]} ∪ live w).
      destruct (decide (next_block w ∈ {[next_block w]} ∪ live w)) as [_|Hn];
        [|exfalso; apply Hn; apply elem_of_union; left; apply elem_of_singleton;
          reflexivity].
      cbv beta iota. mproj.
      rewrite socketGetFree_live, socketGetFree_faults, Htr.
      split; [reflexivity|]. split; [unfold w1; mproj; rewrite <- app_assoc; reflexivity|].
      split; [|reflexivity].
      change (live w1) with ({[next_block w]} ∪ live w).
      apply set_eq. intros x.
      rewrite elem_of_difference, elem_of_union, elem_of_singleton.
      split; [intros ([Hx|Hx] & Hne); [contradiction | exact Hx]|].
      intros Hx. split; [right; exact Hx|]. intros ->. contradiction. }
    destruct Hmain as (H1 & H2 & H3 & H4). auto 10.
Qed.

End Lookup.

(** ** Configuration *)

Section Config.

Context {Hw : Type} {chip : Chip Hw}.

Lemma withStaticIP_eth (w : World Hw) :
  withStaticIP w
  = (tt, w_set_eth (eth_set_dhcpState
                      (match dhcpState (eth w) with
                       | IN_PROGRESS | GOT_ADDRESS => CLEANUP_DISABLE
                       | _ => NOT_USED
                       end) (eth w)) w).
Proof. unfold withStaticIP. mstep. destruct (dhcpState (eth w)); reflexivity. Qed.

Lemma withStaticIP_static (w : World Hw) :
  static_mode (dhcpState (eth (snd (withStaticIP w)))).
Proof.
  rewrite withStaticIP_eth. mproj. unfold static_mode.
  destruct (dhcpState (eth w)); auto.
Qed.

Lemma withStaticIP_keeps_static (w : World Hw) :
  static_mode (dhcpState (eth w)) -> dhcpState (eth (snd (withStaticIP w))) = NOT_USED.
Proof.
  intros [H|H]; rewrite withStaticIP_eth; mproj; rewrite H; reflexivity.
Qed.

Lemma loadJsonConfig_key_address (name : string) (v : ConfigValue) (w : World Hw) :
  is_address_key name = true ->
  static_mode (dhcpState (eth (snd (loadJsonConfig_key name v w)))).
Proof.
  unfold is_address_key, loadJsonConfig_key, withIPAddress, withSubnetMask,
    withGatewayAddress, withDNSAddress.
  intros H.
  destruct (bool_decide (name = "ipAddr"));
    [rewrite run_bind_other, run_mod_eth; mproj; apply withStaticIP_static|].
  destruct (bool_decide (name = "subnetMask"));
    [rewrite run_bind_other, run_mod_eth; mproj; apply withStaticIP_static|].
  destruct (bool_decide (name = "gatewayAddr"));
    [rewrite run_bind_other, run_mod_eth; mproj; apply withStaticIP_static|].
  destruct (bool_decide (name = "dnsAddr"));
    [rewrite run_bind_other, run_mod_eth; mproj; apply withStaticIP_static|].
  discriminate H.
Qed.

Lemma loadJsonConfig_key_static (kv : string * ConfigValue) (w : World Hw) :
  turns_dhcp_on kv = false ->
  static_mode (dhcpState (eth w)) ->
  static_mode (dhcpState (eth (snd (loadJsonConfig_key (fst kv) (snd kv) w)))).
Proof.
  unfold turns_dhcp_on, loadJsonConfig_key, withIPAddress, withSubnetMask,
    withGatewayAddress, withDNSAddress.
  intros Hon Hs.
  destruct (bool_decide (fst kv = "ipAddr"));
    [rewrite run_bind_other, run_mod_eth; mproj; apply withStaticIP_static|].
  destruct (bool_decide (fst kv = "subnetMask"));
    [rewrite run_bind_other, run_mod_eth; mproj; apply withStaticIP_static|].
  destruct (bool_decide (fst kv = "gatewayAddr"));
    [rewrite run_bind_other, run_mod_eth; mproj; apply withStaticIP_static|].
  destruct (bool_decide (fst kv = "dnsAddr"));
    [rewrite run_bind_other, run_mod_eth; mproj; apply withStaticIP_static|].
  destruct (bool_decide (fst kv = "DHCP")); [|exact Hs].
  cbn [andb] in Hon. rewrite Hon. apply withStaticIP_static.
Qed.

Lemma loadJsonConfig_cons (name : string) (v : ConfigValue)
    (rest : list (string * ConfigValue)) (w : World Hw) :
  loadJsonConfig ((name, v) :: rest) w
  = loadJsonConfig rest (snd (loadJsonConfig_key name v w)).
Proof. reflexivity. Qed.

Lemma loadJsonConfig_static (obj : list (string * ConfigValue)) (w : World Hw) :
  forallb (fun kv => negb (turns_dhcp_on kv)) obj = true ->
  static_mode (dhcpState (eth w)) ->
  static_mode (dhcpState (eth (snd (loadJsonConfig obj w)))).
Proof.
  revert w. induction obj as [|[name v] obj IH]; intros w Hall Hs; [exact Hs|].
  cbn [forallb] in Hall. apply andb_true_iff in Hall. destruct Hall as (Hkv & Hall).
  rewrite loadJsonConfig_cons. apply IH; [exact Hall|].
  apply (loadJsonConfig_key_static (name, v)); [|exact Hs].
  apply negb_true_iff. exact Hkv.
Qed.

Lemma loadJsonConfig_app (o1 o2 : list (string * ConfigValue)) (w : World Hw) :
  loadJsonConfig (o1 ++ o2) w = loadJsonConfig o2 (snd (loadJsonConfig o1 w)).
Proof.
  revert w. induction o1 as [|[name v] o1 IH]; intros w; [reflexivity|].
  cbn [app]. rewrite !loadJsonConfig_cons. apply IH.
Qed.

(** Any address key of a JSON configuration switches DHCP off: when the
    object holds one of ["ipAddr"], ["subnetMask"], ["gatewayAddr"] and
    ["dnsAddr"] and no ["DHCP"] key with a true value after it, the library
    is left in static mode, whatever the mode before and whatever the keys in
    front, a true ["DHCP"] included. *)
Theorem loadJsonConfig_address_key_turns_dhcp_off
    (before after : list (string * ConfigValue)) (name : string) (v : ConfigValue)
    (w : World Hw) :
  is_address_key name = true ->
  forallb (fun kv => negb (turns_dhcp_on kv)) after = true ->
  static_mode (dhcpState (eth (snd (loadJsonConfig (before ++ (name, v) :: after) w)))).
Proof.
  intros Hkey Hafter. rewrite loadJsonConfig_app, loadJsonConfig_cons.
  apply loadJsonConfig_static; [exact Hafter|].
  apply loadJsonConfig_key_address. exact Hkey.
Qed.

Lemma config_addr_arrayToString (a : Ip4) :
  ip_bytes a -> config_addr (arrayToString_value a) = a.
Proof.
  intros (H0 & H1 & H2 & H3). unfold config_addr, arrayToString_value. cbn [cv_scan].
  rewrite !to_uint8_small by assumption. destruct a; reflexivity.
Qed.

(** Saving and loading the configuration.  The object [saveConfigFile]
    writes holds the four addresses and no ["DHCP"] key; loading it stores
    the same four addresses and leaves the library in static mode, also when
    it was saved while DHCP was in use. *)
Theorem save_then_load_config (e : Eth) (w : World Hw) :
  ip_bytes (ipAddr e) -> ip_bytes (subnetMaskArray e) ->
  ip_bytes (gatewayAddr e) -> ip_bytes (dnsAddr e) ->
  let e' := eth (snd (loadJsonConfig (saveConfigFile_object e) w)) in
  ipAddr e' = ipAddr e /\ subnetMaskArray e' = subnetMaskArray e
  /\ gatewayAddr e' = gatewayAddr e /\ dnsAddr e' = dnsAddr e
  /\ dhcpState e' = NOT_USED.
Proof.
  intros Hip Hsn Hgw Hdns. cbv zeta. unfold saveConfigFile_object.
  rewrite !loadJsonConfig_cons. cbn [loadJsonConfig]. rewrite run_ret. cbn [snd].
  unfold loadJsonConfig_key.
  rewrite !config_addr_arrayToString by assumption.
  rewrite (bool_decide_eq_true_2 ("ipAddr" = "ipAddr")) by reflexivity.
  rewrite (bool_decide_eq_false_2 ("subnetMask" = "ipAddr")) by discriminate.
  rewrite (bool_decide_eq_true_2 ("subnetMask" = "subnetMask")) by reflexivity.
  rewrite (bool_decide_eq_false_2 ("gatewayAddr" = "ipAddr")) by discriminate.
  rewrite (bool_decide_eq_false_2 ("gatewayAddr" = "subnetMask")) by discriminate.
  rewrite (bool_decide_eq_true_2 ("gatewayAddr" = "gatewayAddr")) by reflexivity.
  rewrite (bool_decide_eq_false_2 ("dnsAddr" = "ipAddr")) by discriminate.
  rewrite (bool_decide_eq_false_2 ("dnsAddr" = "subnetMask")) by discriminate.
  rewrite (bool_decide_eq_false_2 ("dnsAddr" = "gatewayAddr")) by discriminate.
  rewrite (bool_decide_eq_true_2 ("dnsAddr" = "dnsAddr")) by reflexivity.
  unfold withIPAddress, withSubnetMask, withGatewayAddress, withDNSAddress.
  rewrite !run_bind_other, !run_mod_eth, !withStaticIP_eth. mproj.
  repeat split. destruct (dhcpState (eth w)); reflexivity.
Qed.

End Config.

(** ** The MAC address and the log bridge *)

Section Mac.

Lemma byte_of_bswap32_0 (x : Z) : Z.land (bswap32 x) 255 = Z.land (Z.shiftr x 24) 255.
Proof. unfold bswap32. change 255 with (Z.ones 8). Z.bitblast. Qed.

Lemma byte_of_bswap32_1 (x : Z) :
  Z.land (Z.shiftr (bswap32 x) 8) 255 = Z.land (Z.shiftr x 16) 255.
Proof. unfold bswap32. change 255 with (Z.ones 8). Z.bitblast. Qed.

Lemma byte_of_bswap32_2 (x : Z) :
  Z.land (Z.shiftr (bswap32 x) 16) 255 = Z.land (Z.shiftr x 8) 255.
Proof. unfold bswap32. change 255 with (Z.ones 8). Z.bitblast. Qed.

Lemma byte_of_bswap32_3 (x : Z) :
  Z.land (Z.shiftr (bswap32 x) 24) 255 = Z.land x 255.
Proof. unfold bswap32. change 255 with (Z.ones 8). Z.bitblast. Qed.

Lemma byte_of_word (x k : Z) :
  0 <= k -> Z.land (Z.shiftr x k) 255 = (x / 2 ^ k) mod 256.
Proof.
  intros Hk. change 255 with (Z.ones 8). rewrite Z.land_ones by lia.
  rewrite Z.shiftr_div_pow2 by lia. reflexivity.
Qed.

Lemma mac_first_byte (x : Z) : 0 <= x < 256 -> mac_first_byte_ok x = true.
Proof.
  intros Hx.
  assert (Hall : forallb mac_first_byte_ok (map Z.of_nat (seq 0 256)) = true)
    by (vm_compute; reflexivity).
  rewrite forallb_forall in Hall. apply Hall.
  apply in_map_iff. exists (Z.to_nat x). split; [lia|]. apply in_seq. lia.
Qed.

Lemma high_byte_of_msb (a1 : Z) :
  to_uint8 (Z.shiftr (Z.land a1 65535) 8) = (a1 / 2 ^ 8) mod 256.
Proof.
  unfold to_uint8. change 65535 with (Z.ones 16). change 256 with (2 ^ 8).
  Z.bitblast.
Qed.

Lemma low_byte_of_msb (a1 : Z) : to_uint8 (Z.land a1 65535) = a1 mod 256.
Proof.
  unfold to_uint8. change 65535 with (Z.ones 16). change 256 with (2 ^ 8).
  Z.bitblast.
Qed.

(** The MAC address [setMacAddress] builds from the device address, for
    every value of the two registers: six bytes; the first byte has the
    multicast bit clear and the locally administered bit set, and its other
    six bits are those of the device address; the other five bytes are the
    next bytes of the device address, most significant first. *)
Theorem setMacAddress_unicast_local (deviceaddr0 deviceaddr1 : Z) :
  let mac := setMacAddress deviceaddr0 deviceaddr1 in
  let a0 := to_uint32 deviceaddr0 in
  let a1 := to_uint32 deviceaddr1 in
  length mac = 6%nat
  /\ Forall (fun b => 0 <= b < 256) mac
  /\ Z.testbit (nth 0 mac 0) 0 = false
  /\ Z.testbit (nth 0 mac 0) 1 = true
  /\ Z.shiftr (nth 0 mac 0) 2 = Z.shiftr ((a1 / 2 ^ 8) mod 256) 2
  /\ nth 1 mac 0 = a1 mod 256
  /\ nth 2 mac 0 = (a0 / 2 ^ 24) mod 256
  /\ nth 3 mac 0 = (a0 / 2 ^ 16) mod 256
  /\ nth 4 mac 0 = (a0 / 2 ^ 8) mod 256
  /\ nth 5 mac 0 = a0 mod 256.
Proof.
  cbv zeta. unfold setMacAddress, bytes_of_uint32. cbv zeta. cbn [app length nth].
  rewrite byte_of_bswap32_0, byte_of_bswap32_1, byte_of_bswap32_2, byte_of_bswap32_3.
  rewrite high_byte_of_msb, low_byte_of_msb.
  set (a0 := to_uint32 deviceaddr0). set (a1 := to_uint32 deviceaddr1).
  assert (Hx : 0 <= (a1 / 2 ^ 8) mod 256 < 256) by (apply Z.mod_pos_bound; lia).
  pose proof (mac_first_byte _ Hx) as Hm. unfold mac_first_byte_ok in Hm. cbv zeta in Hm.
  repeat (apply andb_true_iff in Hm; destruct Hm as (Hm & ?)).
  rewrite !byte_of_word by lia.
  replace (Z.land a0 255) with (a0 mod 256)
    by (change 255 with (Z.ones 8); rewrite Z.land_ones by lia; reflexivity).
  split; [reflexivity|]. split.
  { repeat (apply Forall_cons_2; [try (apply Z.mod_pos_bound; lia); lia|]).
    apply Forall_nil_2. }
  split; [apply negb_true_iff; assumption|]. split; [assumption|].
  split; [lia|]. repeat split; reflexivity.
Qed.

End Mac.

Section LogBridge.

Lemma strip_newlines_spec (room : nat) (src : list Z) :
  strip_newlines room src = take room (List.filter not_newline (c_string src)).
Proof.
  revert room. induction src as [|c src IH]; intros room.
  - cbn. rewrite take_nil. reflexivity.
  - cbn [strip_newlines c_string]. destruct (c =? 0).
    + cbn. rewrite take_nil. reflexivity.
    + cbn [List.filter]. fold (not_newline c). destruct room as [|room].
      * rewrite take_0. reflexivity.
      * destruct (not_newline c); [cbn [take]; rewrite IH; reflexivity | apply IH].
Qed.

(** The format string [wizchip_debug] hands on is the given one up to its
    terminating zero, without its carriage returns and line feeds, cut to 99
    characters: it always fits [fmt2] with its terminating zero, and holds
    no zero, carriage return or line feed. *)
Theorem wizchip_debug_fmt2_spec (fmt : list Z) :
  let out := wizchip_debug_fmt2 fmt in
  out = take 99 (List.filter not_newline (c_string fmt))
  /\ (length out <= 99)%nat
  /\ Forall (fun c => c <> 0 /\ c <> 13 /\ c <> 10) out.
Proof.
  cbv zeta. unfold wizchip_debug_fmt2. rewrite strip_newlines_spec.
  split; [reflexivity|]. split; [rewrite length_take; lia|].
  apply Forall_take. apply Forall_forall. intros c Hc.
  apply list_elem_of_In, filter_In in Hc. destruct Hc as (Hin & Hnl).
  unfold not_newline in Hnl. apply andb_true_iff in Hnl. destruct Hnl as (H13 & H10).
  apply negb_true_iff, Z.eqb_neq in H13. apply negb_true_iff, Z.eqb_neq in H10.
  split; [|auto]. clear H13 H10.
  induction fmt as [|x fmt IH]; [destruct Hin|].
  cbn [c_string] in Hin. destruct (Z.eqb_spec x 0); [destruct Hin|].
  destruct Hin as [<-|Hin]; [assumption | apply IH; exact Hin].
Qed.

End LogBridge.

(** ** The packet buffer of UDP *)

Ltac uproj :=
  cbn [um_udp um_bytes um_map udp_set_offset udp_set_total udp_set_buffer
       udp_set_buffer_size udp_set_buffer_allocated];
  mproj.

Section Datagram.

Context {Hw : Type} {chip : Chip Hw}.

(** [write] with the cursor inside the buffer ([0 <= _offset <=
    _buffer_size]): with [room] bytes between the cursor and the end of the
    buffer it copies the first [min size room] bytes of the caller's data to
    the cursor, moves the cursor past them, still inside the buffer, and
    returns their number; the bytes before the cursor and the length of the
    buffer stay as they are.  The class does not keep the cursor inside the
    buffer by itself ([read] moves it without looking at [_buffer_size]), so
    this is a condition on the object, and nothing is said without it. *)
Theorem UDP_write_within_buffer (m : UDPmem) (data : list Z) (size : Z) :
  has_buffer (um_udp m) = true ->
  0 <= udp_offset (um_udp m) <= udp_buffer_size (um_udp m) ->
  udp_buffer_size (um_udp m) < 65536 ->
  length (um_bytes m) = Z.to_nat (udp_buffer_size (um_udp m)) ->
  0 <= size -> (Z.to_nat size <= length data)%nat ->
  let room := udp_buffer_size (um_udp m) - udp_offset (um_udp m) in
  let n := Z.min size room in
  let r := UDP_write m data size in
  fst r = n
  /\ udp_offset (um_udp (snd r)) = udp_offset (um_udp m) + n
  /\ udp_offset (um_udp (snd r)) <= udp_buffer_size (um_udp (snd r))
  /\ length (um_bytes (snd r)) = length (um_bytes m)
  /\ take (Z.to_nat (udp_offset (um_udp m))) (um_bytes (snd r))
     = take (Z.to_nat (udp_offset (um_udp m))) (um_bytes m)
  /\ take (Z.to_nat n) (drop (Z.to_nat (udp_offset (um_udp m))) (um_bytes (snd r)))
     = take (Z.to_nat n) data.
Proof.
  intros Hb Ho Hs Hlen Hsize Hdata. cbv zeta. unfold UDP_write. cbv zeta.
  rewrite Hb. rewrite to_uint32_small by lia.
  set (room := udp_buffer_size (um_udp m) - udp_offset (um_udp m)).
  set (n := if room <? size then room else size).
  assert (Hn : n = Z.min size room).
  { unfold n. destruct (Z.ltb_spec room size); lia. }
  assert (Hroom : room = udp_buffer_size (um_udp m) - udp_offset (um_udp m))
    by reflexivity.
  clearbody n room.
  assert (Hl : length (take (Z.to_nat n) data) = Z.to_nat n)
    by (rewrite length_take; lia).
  cbn [fst snd um_udp um_bytes].
  rewrite to_uint16_small by lia.
  cbn [udp_offset udp_buffer_size udp_set_offset].
  rewrite <- Hn. split; [reflexivity|]. split; [reflexivity|].
  split; [lia|].
  split; [apply poke_length; rewrite Hl, Hlen; lia|].
  split; [apply poke_before; rewrite Hlen; lia|].
  rewrite <- Hl at 1. apply poke_at. rewrite Hlen. lia.
Qed.

(** Without a buffer [write] copies nothing and returns 0. *)
Theorem UDP_write_without_buffer (m : UDPmem) (data : list Z) (size : Z) :
  has_buffer (um_udp m) = false ->
  0 <= size -> 0 <= udp_offset (um_udp m) < 65536 ->
  UDP_write m data size = (0, m).
Proof.
  intros Hb Hs Ho. unfold UDP_write. cbv zeta. rewrite Hb.
  replace (if 0 <? size then 0 else size) with 0
    by (destruct (Z.ltb_spec 0 size); lia).
  rewrite Z.add_0_r, to_uint16_small by lia. unfold poke.
  change (Z.to_nat 0) with 0%nat. rewrite take_0. cbn [app length].
  rewrite Nat.add_0_r, take_drop.
  destruct m as [u bytes]. destruct u. reflexivity.
Qed.



Lemma receive_loop_object (fuel : nat) (u : UDP) (size timeout start : Z) (w : World Hw)
    (n : Z) (bytes : list Z) (u' : UDP) :
  fst (receive_loop fuel u size timeout start w) = Some (n, bytes, u') ->
  u' = u \/ exists ip port, u' = udp_set_remote ip port u.
Proof.
  revert w. induction fuel as [|fuel IH]; intros w; cbn [receive_loop].
  - mrun. discriminate.
  - mrun. case_test; cbv beta iota; mproj.
    + intros Hsome. injection Hsome as _ _ <-. right. eauto.
    + case_test; cbv beta iota; mproj.
      * intros Hsome. injection Hsome as _ _ <-. left. reflexivity.
      * case_test; cbv beta iota; mproj.
        -- apply IH.
        -- intros Hsome. injection Hsome as _ _ <-. left. reflexivity.
Qed.

Lemma receivePacket_object (fuel : nat) (u : UDP) (ok : bool) (size timeout : Z)
    (w : World Hw) (n : Z) (bytes : list Z) (u' : UDP) :
  fst (receivePacket fuel u ok size timeout w) = Some (n, bytes, u') ->
  u' = u \/ exists ip port, u' = udp_set_remote ip port u.
Proof.
  unfold receivePacket. mrun. case_test; cbv beta iota; mproj.
  - destruct ok; cbv beta iota; mproj.
    + apply receive_loop_object.
    + intros Hsome. injection Hsome as _ _ <-. left. reflexivity.
  - intros Hsome. injection Hsome as _ _ <-. left. reflexivity.
Qed.

(** The round trip of a datagram.  When [receivePacket] delivers [n] bytes
    into the buffer, [parsePacket] returns [n]; a [read] of [len] bytes right
    after, with [len] below 2^31, returns the first [min len n] of exactly
    those bytes, in order, and leaves the rest to be read.  With [len] of
    2^31 or more the count [int(len)] is negative and [memcpy] is called
    with it: the call has no defined result. *)
Theorem UDP_parsePacket_then_read (fuel : nat) (m : UDPmem) (timeout : Z) (w w' : World Hw)
    (n : Z) (bytes : list Z) (u' : UDP) :
  has_buffer (um_udp m) = true -> udp_buffer_size (um_udp m) <> 0 ->
  receivePacket fuel (UDP_flush_buffer (um_udp m)) true (udp_buffer_size (um_udp m))
    timeout w = (Some (n, bytes, u'), w') ->
  0 < n <= udp_buffer_size (um_udp m) -> n < 65536 ->
  (Z.to_nat n <= length bytes)%nat ->
  exists m', UDP_parsePacket fuel m timeout w = (Some (n, m'), w')
    /\ UDP_available (um_udp m') = n
    /\ (forall len, 0 <= len < 2147483648 ->
        exists rest,
          UDP_read_buf m' len
          = Some (Z.min len n, take (Z.to_nat (Z.min len n)) bytes, rest)
          /\ UDP_available (um_udp rest) = n - Z.min len n)
    /\ (forall len, 2147483648 <= len < 4294967296 -> UDP_read_buf m' len = None).
Proof.
  intros Hb Hs Hrecv Hfit Hn Hlen.
  assert (Hobj : udp_offset u' = 0 /\ udp_total u' = 0).
  { destruct (receivePacket_object fuel (UDP_flush_buffer (um_udp m)) true
                (udp_buffer_size (um_udp m)) timeout w n bytes u')
      as [->|(ip & port & ->)];
      [rewrite Hrecv; reflexivity | |]; split; reflexivity. }
  destruct Hobj as (Ho' & Ht').
  unfold UDP_parsePacket, UDP_default_buffer. rewrite Hb. cbn [negb andb].
  rewrite run_bind_ret. cbv zeta.
  change (um_udp (um_map UDP_flush_buffer m)) with (UDP_flush_buffer (um_udp m)).
  change (has_buffer (UDP_flush_buffer (um_udp m))) with (has_buffer (um_udp m)).
  change (udp_buffer_size (UDP_flush_buffer (um_udp m))) with (udp_buffer_size (um_udp m)).
  rewrite Hb. destruct (Z.eqb_spec (udp_buffer_size (um_udp m)) 0); [contradiction|].
  cbn [negb andb]. rewrite run_bind_other, Hrecv. cbn [fst snd]. rewrite run_ret.
  destruct (Z.ltb_spec 0 n); [|lia].
  assert (Hav : UDP_available (udp_set_total (to_uint16 n) u') = n).
  { unfold UDP_available. cbn [udp_total udp_offset udp_set_total].
    rewrite Ho', to_uint16_small by lia. lia. }
  rewrite Hav. eexists. split; [reflexivity|].
  cbn [um_udp um_bytes um_map]. split; [exact Hav|]. split.
  - intros len Hl.
    unfold UDP_read_buf. cbv zeta. cbn [um_udp um_bytes um_map].
    rewrite Hav. replace (n =? 0) with false by (symmetry; apply Z.eqb_neq; lia).
    cbn [negb fst snd um_udp um_map].
    change (udp_offset (udp_set_total (to_uint16 n) u')) with (udp_offset u').
    rewrite Ho', to_int32_small by lia.
    destruct (Z.ltb_spec (Z.min len n) 0); [lia|].
    rewrite Z.add_0_l, to_uint16_small by lia.
    eexists. split.
    + do 2 f_equal. f_equal.
      unfold poke. change (Z.to_nat 0) with 0%nat. rewrite take_0, !drop_0. cbn [app].
      rewrite take_app_le by (rewrite length_take; lia).
      rewrite take_take. f_equal. lia.
    + unfold UDP_available. cbn [um_udp udp_total udp_offset udp_set_total udp_set_offset].
      rewrite !to_uint16_small by lia. reflexivity.
  - intros len Hl.
    unfold UDP_read_buf. cbv zeta. cbn [um_udp um_bytes um_map].
    rewrite Hav. replace (n =? 0) with false by (symmetry; apply Z.eqb_neq; lia).
    cbn [negb].
    assert (Hneg : to_int32 len = len - 4294967296).
    { unfold to_int32. rewrite Z.mod_small by lia.
      destruct (Z.ltb_spec len 2147483648); [lia | reflexivity]. }
    rewrite Hneg. destruct (Z.ltb_spec (Z.min (len - 4294967296) n) 0); [reflexivity | lia].
Qed.

(** [parsePacket] on an object whose socket is not an open UDP socket: the
    -1 of [receivePacket] is not passed on; the result is 0, after the one
    status read, and there is nothing to read. *)
Theorem UDP_parsePacket_closed_socket (fuel : nat) (m : UDPmem) (timeout : Z) (w : World Hw) :
  has_buffer (um_udp m) = true -> udp_buffer_size (um_udp m) <> 0 ->
  let sn := to_uint8 (udp_sock (um_udp m)) in
  rint (fst (hw_step (GetSockOptStatus sn) (hw w))) <> SOCK_UDP ->
  let r := UDP_parsePacket fuel m timeout w in
  fst r = Some (0, um_map UDP_flush_buffer m)
  /\ trace (snd r) = trace w ++ [GetSockOptStatus sn]
  /\ UDP_read (um_map UDP_flush_buffer m) = (-1, um_map UDP_flush_buffer m)
  /\ UDP_peek (um_map UDP_flush_buffer m) = -1.
Proof.
  intros Hb Hs. cbv zeta. intros Hst.
  unfold UDP_parsePacket, UDP_default_buffer. rewrite Hb. cbn [negb andb].
  rewrite run_bind_ret. cbv zeta.
  change (um_udp (um_map UDP_flush_buffer m)) with (UDP_flush_buffer (um_udp m)).
  change (has_buffer (UDP_flush_buffer (um_udp m))) with (has_buffer (um_udp m)).
  change (udp_buffer_size (UDP_flush_buffer (um_udp m))) with (udp_buffer_size (um_udp m)).
  rewrite Hb. destruct (Z.eqb_spec (udp_buffer_size (um_udp m)) 0); [contradiction|].
  cbn [negb andb]. unfold receivePacket. mrun.
  destruct (Z.eqb_spec (rint (fst (hw_step (GetSockOptStatus (to_uint8 (udp_sock (um_udp m))))
                                     (hw w)))) SOCK_UDP); [contradiction|].
  cbn [andb]. cbv beta iota. mproj.
  change (0 <? -1) with false. cbv beta iota.
  unfold UDP_read, UDP_peek, UDP_available, poke. cbn [um_udp um_bytes um_map].
  cbn [udp_total udp_offset UDP_flush_buffer Z.to_nat take drop app].
  change (Z.to_nat (-1)) with 0%nat. rewrite !take_0, drop_0. cbn [app length].
  repeat split.
Qed.

Lemma UDP_releaseBuffer_not_owned (m : UDPmem) (w : World Hw) :
  udp_buffer_allocated (um_udp m) && has_buffer (um_udp m) = false ->
  UDP_releaseBuffer m w = (mkUDPmem (UDP_released (um_udp m)) [], w).
Proof.
  intros H. unfold UDP_releaseBuffer. cbv zeta. rewrite H. reflexivity.
Qed.

Lemma UDP_releaseBuffer_owned (m : UDPmem) (w : World Hw) (b : nat) :
  udp_buffer_allocated (um_udp m) = true -> udp_buffer (um_udp m) = Some b ->
  b ∈ live w ->
  UDP_releaseBuffer m w
  = (mkUDPmem (UDP_released (um_udp m)) [], w_set_live (live w ∖ {[ b ]}) w).
Proof.
  intros Ha Hb Hl. unfold UDP_releaseBuffer, has_buffer. cbv zeta.
  rewrite Ha, Hb. rewrite bool_decide_eq_false_2 by discriminate. cbn [negb andb].
  mrun. destruct (decide (b ∈ live w)); [reflexivity | contradiction].
Qed.

Lemma UDP_setBuffer_allocates (m : UDPmem) (buf_size : Z) (w : World Hw) :
  udp_buffer (um_udp m) = None -> 0 < buf_size ->
  rint (fst (hw_step (HeapNew buf_size) (hw w))) <> 0 ->
  UDP_setBuffer m buf_size None [] w
  = ((true,
      mkUDPmem
        (udp_set_buffer_size buf_size
           (udp_set_buffer_allocated true
              (udp_set_buffer (Some (next_block w))
                 (udp_set_buffer_size 0
                    (udp_set_buffer None (UDP_released (um_udp m)))))))
        (replicate (Z.to_nat buf_size) 0)),
     w_set_next_block (S (next_block w))
       (w_set_live ({[ next_block w ]} ∪ live w)
          (w_set_hw (snd (hw_step (HeapNew buf_size) (hw w)))
             (w_set_trace (trace w ++ [HeapNew buf_size]) w)))).
Proof.
  intros Hnone Hsize Hmem. unfold UDP_setBuffer.
  rewrite run_bind_other, UDP_releaseBuffer_not_owned
    by (unfold has_buffer; rewrite Hnone, bool_decide_eq_true_2 by reflexivity;
        apply andb_false_r).
  cbn [fst snd]. cbv zeta. cbn [um_udp um_bytes].
  rewrite !bool_decide_eq_true_2 by reflexivity.
  replace (buf_size =? 0) with false by (symmetry; apply Z.eqb_neq; lia).
  cbn [negb andb]. rewrite run_bind_other. unfold new_array. mrun.
  destruct (Z.eqb_spec (rint (fst (hw_step (HeapNew buf_size) (hw w)))) 0);
    [contradiction|].
  cbv beta iota. mproj. unfold has_buffer. cbn [um_udp um_bytes um_map].
  cbn [udp_buffer udp_set_buffer udp_set_buffer_allocated udp_set_buffer_size].
  rewrite !(bool_decide_eq_false_2 (Some (next_block w) = None)) by discriminate.
  cbn [negb]. cbn [um_udp um_map udp_buffer_size udp_set_buffer_size].
  replace (buf_size =? 0) with false by (symmetry; apply Z.eqb_neq; lia).
  reflexivity.
Qed.

Lemma UDP_setBuffer_caller (m : UDPmem) (buf_size : Z) (b : nat) (contents : list Z)
    (w : World Hw) :
  udp_buffer (um_udp m) = None -> 0 < buf_size ->
  UDP_setBuffer m buf_size (Some b) contents w
  = ((true,
      mkUDPmem
        (udp_set_buffer_size buf_size
           (udp_set_buffer_size 0 (udp_set_buffer (Some b) (UDP_released (um_udp m)))))
        contents),
     w).
Proof.
  intros Hnone Hsize. unfold UDP_setBuffer.
  rewrite run_bind_other, UDP_releaseBuffer_not_owned
    by (unfold has_buffer; rewrite Hnone, bool_decide_eq_true_2 by reflexivity;
        apply andb_false_r).
  cbn [fst snd]. cbv zeta. cbn [um_udp um_bytes].
  rewrite !(bool_decide_eq_false_2 (Some b = None)) by discriminate.
  cbn [negb andb]. rewrite run_bind_ret. unfold has_buffer.
  cbn [um_udp um_bytes um_map udp_buffer udp_set_buffer udp_set_buffer_size].
  rewrite !(bool_decide_eq_false_2 (Some b = None)) by discriminate.
  cbn [negb]. cbn [um_udp um_map udp_buffer_size udp_set_buffer_size].
  replace (buf_size =? 0) with false by (symmetry; apply Z.eqb_neq; lia).
  reflexivity.
Qed.

(** The buffer of a [UDP] object and the heap.  [setBuffer(n)] without a
    pointer allocates one block and records that the object owns it;
    [releaseBuffer] frees exactly that block, once.  A buffer the caller
    supplies is used as it is: no memory is asked for, and [releaseBuffer]
    does not free it. *)
Theorem UDP_buffer_lifecycle (m : UDPmem) (buf_size : Z) (w : World Hw) :
  udp_buffer (um_udp m) = None -> 0 < buf_size ->
  (next_block w ∉ live w) ->
  (rint (fst (hw_step (HeapNew buf_size) (hw w))) <> 0 ->
   let r1 := UDP_setBuffer m buf_size None [] w in
   let m1 := snd (fst r1) in
   let r2 := UDP_releaseBuffer m1 (snd r1) in
   fst (fst r1) = true
   /\ udp_buffer (um_udp m1) = Some (next_block w)
   /\ udp_buffer_size (um_udp m1) = buf_size
   /\ udp_buffer_allocated (um_udp m1) = true
   /\ live (snd r1) = {[ next_block w ]} ∪ live w
   /\ udp_buffer (um_udp (fst r2)) = None
   /\ udp_buffer_size (um_udp (fst r2)) = 0
   /\ live (snd r2) = live w
   /\ faults (snd r2) = faults w)
  /\ (forall (b : nat) (contents : list Z),
      let r1 := UDP_setBuffer m buf_size (Some b) contents w in
      let m1 := snd (fst r1) in
      let r2 := UDP_releaseBuffer m1 (snd r1) in
      fst (fst r1) = true
      /\ udp_buffer (um_udp m1) = Some b
      /\ udp_buffer_size (um_udp m1) = buf_size
      /\ um_bytes m1 = contents
      /\ snd r1 = w /\ snd r2 = w).
Proof.
  intros Hnone Hsize Hfresh. split.
  - intros Hmem. cbv zeta. rewrite UDP_setBuffer_allocates by assumption.
    cbn [fst snd]. rewrite (UDP_releaseBuffer_owned _ _ (next_block w));
      [|reflexivity|reflexivity|
       mproj; apply elem_of_union; left; apply elem_of_singleton; reflexivity].
    cbn [fst snd um_udp]. mproj. repeat (split; [reflexivity|]). split; [|reflexivity].
    apply set_eq. intros x.
    rewrite elem_of_difference, elem_of_union, elem_of_singleton.
    split; [intros ([Hx|Hx] & Hne); [contradiction | exact Hx]|].
    intros Hx. split; [right; exact Hx|]. intros ->. contradiction.
  - intros b contents. cbv zeta. rewrite UDP_setBuffer_caller by assumption.
    cbn [fst snd]. rewrite UDP_releaseBuffer_not_owned by reflexivity.
    repeat split.
Qed.

Lemma UDP_setBuffer_no_memory (m : UDPmem) (buf_size : Z) (w : World Hw) :
  udp_buffer (um_udp m) = None -> 0 < buf_size ->
  rint (fst (hw_step (HeapNew buf_size) (hw w))) = 0 ->
  UDP_setBuffer m buf_size None [] w
  = ((false,
      mkUDPmem
        (udp_set_buffer_allocated true
           (udp_set_buffer None
              (udp_set_buffer_size 0 (udp_set_buffer None (UDP_released (um_udp m))))))
        []),
     w_set_hw (snd (hw_step (HeapNew buf_size) (hw w)))
       (w_set_trace (trace w ++ [HeapNew buf_size]) w)).
Proof.
  intros Hnone Hsize Hmem. unfold UDP_setBuffer.
  rewrite run_bind_other, UDP_releaseBuffer_not_owned
    by (unfold has_buffer; rewrite Hnone, bool_decide_eq_true_2 by reflexivity;
        apply andb_false_r).
  cbn [fst snd]. cbv zeta. cbn [um_udp um_bytes].
  rewrite !bool_decide_eq_true_2 by reflexivity.
  replace (buf_size =? 0) with false by (symmetry; apply Z.eqb_neq; lia).
  cbn [negb andb]. rewrite run_bind_other. unfold new_array. mrun.
  rewrite Hmem. change (0 =? 0) with true. cbv beta iota. mproj.
  unfold has_buffer. cbn [um_udp um_bytes um_map].
  cbn [udp_buffer udp_set_buffer udp_set_buffer_allocated udp_set_buffer_size].
  rewrite !bool_decide_eq_true_2 by reflexivity. cbn [negb].
  cbn [um_udp udp_buffer_size udp_set_buffer_allocated udp_set_buffer udp_set_buffer_size].
  reflexivity.
Qed.

(** When the default buffer cannot be allocated, [beginPacket] returns 0 and
    the object is left with size 0: from then on neither [beginPacket] nor
    [write] does anything, and the allocation is not tried again. *)
Theorem UDP_beginPacket_no_memory (m : UDPmem) (ip : Ip4) (port : Z) (w : World Hw) :
  udp_buffer (um_udp m) = None -> 0 < udp_buffer_size (um_udp m) ->
  rint (fst (hw_step (HeapNew (udp_buffer_size (um_udp m))) (hw w))) = 0 ->
  let r := UDP_beginPacket_ip m ip port w in
  let m' := snd (fst r) in
  fst (fst r) = 0
  /\ trace (snd r) = trace w ++ [HeapNew (udp_buffer_size (um_udp m))]
  /\ has_buffer (um_udp m') = false /\ udp_buffer_size (um_udp m') = 0
  /\ (forall (ip2 : Ip4) (port2 : Z) (w2 : World Hw),
         fst (fst (UDP_beginPacket_ip m' ip2 port2 w2)) = 0
         /\ snd (UDP_beginPacket_ip m' ip2 port2 w2) = w2)
  /\ (forall (data : list Z) (size : Z), 0 <= size -> fst (UDP_write m' data size) = 0).
Proof.
  intros Hnone Hsize Hmem. cbv zeta.
  set (m0 := mkUDPmem
               (UDP_flush_buffer
                  (udp_set_remote ip port
                     (udp_set_buffer_allocated true
                        (udp_set_buffer None
                           (udp_set_buffer_size 0
                              (udp_set_buffer None (UDP_released (um_udp m))))))))
               []).
  assert (Heq : UDP_beginPacket_ip m ip port w
                = ((0, m0),
                   w_set_hw (snd (hw_step (HeapNew (udp_buffer_size (um_udp m))) (hw w)))
                     (w_set_trace (trace w ++ [HeapNew (udp_buffer_size (um_udp m))]) w))).
  { unfold UDP_beginPacket_ip, UDP_default_buffer, has_buffer.
    rewrite Hnone, bool_decide_eq_true_2 by reflexivity.
    replace (udp_buffer_size (um_udp m) =? 0) with false
      by (symmetry; apply Z.eqb_neq; lia).
    cbn [negb andb]. rewrite !run_bind_other, UDP_setBuffer_no_memory by assumption.
    cbn [fst snd]. rewrite !run_ret. reflexivity. }
  rewrite Heq. cbn [fst snd]. mproj.
  split; [reflexivity|]. split; [reflexivity|]. split; [reflexivity|].
  split; [reflexivity|]. split.
  - intros ip2 port2 w2. unfold UDP_beginPacket_ip, UDP_default_buffer.
    change (has_buffer (um_udp m0)) with false.
    change (udp_buffer_size (um_udp m0)) with 0.
    cbn [negb andb Z.eqb]. rewrite run_bind_ret. split; reflexivity.
  - intros data size Hs. unfold UDP_write. cbv zeta.
    change (has_buffer (um_udp m0)) with false. cbn [fst].
    destruct (Z.ltb_spec 0 size); lia.
Qed.

End Datagram.

(** ** The theorems above on the simulated chip *)

Lemma connect_ip_outcome_witness :
  datas (x_world true x_buffered) !! d_ x_client = Some x_buffered
  /\ exists d', datas (snd (connect_ip x_client x_peer 80 0 (x_world true x_buffered)))
                  !! d_ x_client = Some d'
       /\ (fst (fst (connect_ip x_client x_peer 80 0 (x_world true x_buffered))) = 1
           \/ sock d' < 0).
Proof.
  assert (H1 : datas (x_world true x_buffered) !! d_ x_client = Some x_buffered)
    by (vm_compute; reflexivity).
  split; [exact H1|].
  destruct (connect_ip_outcome x_client x_peer 80 0 (x_world true x_buffered) x_buffered H1)
    as (d' & Hd' & [(Hr & _)|(_ & Hs)]); exists d'; auto.
Defined.

Lemma connect_not_ready_witness :
  isReady (eth (x_world false x_buffered)) = false
  /\ connect_ip x_client x_peer 80 0 (x_world false x_buffered)
     = ((0, x_client), snd (stop x_client (x_world false x_buffered))).
Proof.
  split; [reflexivity|].
  exact (proj1 (connect_not_ready x_client x_peer [104] 80 0 (x_world false x_buffered)
                  eq_refl)).
Defined.

Lemma stop_twice_witness :
  datas (x_world true x_buffered) !! d_ x_client = Some x_buffered
  /\ 0 <= sock x_buffered
  /\ trace (snd (stop x_client (x_world true x_buffered))) = [Disconnect 0].
Proof.
  assert (H1 : datas (x_world true x_buffered) !! d_ x_client = Some x_buffered)
    by (vm_compute; reflexivity).
  assert (H2 : 0 <= sock x_buffered) by (cbn; lia).
  split; [exact H1|]. split; [exact H2|].
  exact (proj1 (stop_twice x_client (x_world true x_buffered) x_buffered H1 H2)).
Defined.

Lemma peek_then_read_witness :
  datas (x_world true x_buffered) !! d_ x_client = Some x_buffered
  /\ 0 <= offset x_buffered < total x_buffered /\ total x_buffered < 65536
  /\ peek x_client (x_world true x_buffered) = (20, x_world true x_buffered).
Proof.
  assert (H1 : datas (x_world true x_buffered) !! d_ x_client = Some x_buffered)
    by (vm_compute; reflexivity).
  assert (H2 : 0 <= offset x_buffered < total x_buffered) by (cbn; lia).
  assert (H3 : total x_buffered < 65536) by (cbn; lia).
  split; [exact H1|]. split; [exact H2|]. split; [exact H3|].
  exact (proj1 (peek_then_read x_client (x_world true x_buffered) x_buffered H1 H2 H3)).
Defined.

Lemma read_nothing_witness :
  datas (x_world false x_empty) !! d_ x_client = Some x_empty
  /\ offset x_empty = total x_empty
  /\ isReady (eth (x_world false x_empty)) = false
  /\ fst (read x_client (x_world false x_empty)) = -1.
Proof.
  assert (H1 : datas (x_world false x_empty) !! d_ x_client = Some x_empty)
    by (vm_compute; reflexivity).
  split; [exact H1|]. split; [reflexivity|]. split; [reflexivity|].
  exact (proj1 (read_nothing x_client 4 (x_world false x_empty) x_empty H1 eq_refl eq_refl)).
Defined.

Lemma read_buf_takes_min_witness :
  datas (x_world true x_buffered) !! d_ x_client = Some x_buffered
  /\ 0 <= offset x_buffered < total x_buffered /\ total x_buffered < 65536
  /\ 0 <= 5 < 2147483648
  /\ fst (read_buf x_client 5 (x_world true x_buffered)) = (2, [20; 30]).
Proof.
  assert (H1 : datas (x_world true x_buffered) !! d_ x_client = Some x_buffered)
    by (vm_compute; reflexivity).
  assert (H2 : 0 <= offset x_buffered < total x_buffered) by (cbn; lia).
  assert (H3 : total x_buffered < 65536) by (cbn; lia).
  assert (H4 : 0 <= 5 < 2147483648) by lia.
  split; [exact H1|]. split; [exact H2|]. split; [exact H3|]. split; [exact H4|].
  exact (proj1 (read_buf_takes_min x_client 5 (x_world true x_buffered) x_buffered
                  H1 H2 H3 H4)).
Defined.

Lemma available_then_read_buf_witness :
  datas (x_world true x_empty) !! d_ x_client = Some x_empty
  /\ fst (available x_client (x_world true x_empty)) = 3
  /\ fst (read_buf x_client 2 (snd (available x_client (x_world true x_empty))))
     = (2, [7; 8]).
Proof.
  assert (H1 : datas (x_world true x_empty) !! d_ x_client = Some x_empty)
    by (vm_compute; reflexivity).
  split; [exact H1|].
  pose proof (available_then_read_buf x_client 2 (x_world true x_empty) x_empty H1
                eq_refl ltac:(cbn; lia) eq_refl eq_refl
                ltac:(vm_compute; split; [reflexivity | discriminate])
                ltac:(vm_compute; lia) ltac:(lia)) as H.
  cbv zeta in H. destruct H as (Ha & Hb & _). split; [exact Ha | exact Hb].
Defined.

Lemma connected_while_buffered_witness :
  datas (x_world false x_buffered) !! d_ x_client = Some x_buffered
  /\ total x_buffered - offset x_buffered <> 0
  /\ fst (connected x_client (x_world false x_buffered)) = true.
Proof.
  assert (H1 : datas (x_world false x_buffered) !! d_ x_client = Some x_buffered)
    by (vm_compute; reflexivity).
  assert (H2 : total x_buffered - offset x_buffered <> 0) by (cbn; lia).
  split; [exact H1|]. split; [exact H2|].
  exact (proj1 (connected_while_buffered x_client (x_world false x_buffered) x_buffered
                  H1 H2)).
Defined.

Lemma connected_stops_when_not_ready_witness :
  datas (x_world false x_empty) !! d_ x_client = Some x_empty
  /\ fst (connected x_client (x_world false x_empty)) = false
  /\ trace (snd (connected x_client (x_world false x_empty)))
     = [GetSockOptStatus 0; GetSockOptStatus 0; Disconnect 0].
Proof.
  assert (H1 : datas (x_world false x_empty) !! d_ x_client = Some x_empty)
    by (vm_compute; reflexivity).
  split; [exact H1|].
  pose proof (connected_stops_when_not_ready x_client (x_world false x_empty) x_empty H1
                eq_refl ltac:(cbn; lia) eq_refl eq_refl eq_refl) as H.
  cbv zeta in H. destruct H as (Ha & Hb & _). split; [exact Ha | exact Hb].
Defined.

Lemma static_mode_never_runs_dhcp_witness :
  dhcpState (eth (world_init sim_down eth_static)) = NOT_USED
  /\ dhcpState (eth (run_ticks [sim_idle; sim_down; sim_lease]
                       (world_init sim_down eth_static))) = NOT_USED.
Proof.
  split; [reflexivity|].
  exact (proj1 (static_mode_never_runs_dhcp [sim_idle; sim_down; sim_lease]
                  (world_init sim_down eth_static) eq_refl)).
Defined.


Lemma inet_gethostbyname_fails_early_witness :
  dnsBuffer (eth (world_init x_chip_no_memory eth_init)) = None
  /\ fst (inet_gethostbyname [104] (world_init x_chip_no_memory eth_init)) = (-1, None)
  /\ fst (inet_gethostbyname [104] (world_init x_chip_no_socket eth_init)) = (-1, None).
Proof.
  split; [reflexivity|]. split.
  - exact (proj1 (proj1 (inet_gethostbyname_fails_early [104]
                           (world_init x_chip_no_memory eth_init) eq_refl) eq_refl)).
  - refine (proj1 (proj2 (inet_gethostbyname_fails_early [104]
                            (world_init x_chip_no_socket eth_init) eq_refl) _ _ eq_refl)).
    + vm_compute. discriminate.
    + apply not_elem_of_empty.
Defined.

Lemma loadJsonConfig_address_key_turns_dhcp_off_witness :
  is_address_key "dnsAddr" = true
  /\ static_mode
       (dhcpState
          (eth (snd (loadJsonConfig
                       ([("DHCP", mkConfigValue None true)]
                        ++ ("dnsAddr", arrayToString_value (mkIp4 8 8 8 8)) :: [])
                       (world_init sim_idle eth_init))))).
Proof.
  split; [reflexivity|].
  exact (loadJsonConfig_address_key_turns_dhcp_off
           [("DHCP", mkConfigValue None true)] [] "dnsAddr"
           (arrayToString_value (mkIp4 8 8 8 8)) (world_init sim_idle eth_init)
           eq_refl eq_refl).
Defined.

Lemma save_then_load_config_witness :
  ip_bytes (ipAddr eth_static)
  /\ ipAddr (eth (snd (loadJsonConfig (saveConfigFile_object eth_static)
                         (world_init sim_idle eth_init))))
     = ipAddr eth_static.
Proof.
  assert (H : forall a b c d, 0 <= a < 256 -> 0 <= b < 256 -> 0 <= c < 256 ->
                              0 <= d < 256 -> ip_bytes (mkIp4 a b c d))
    by (intros; repeat split; cbn; lia).
  split; [apply H; lia|].
  exact (proj1 (save_then_load_config eth_static (world_init sim_idle eth_init)
                  ltac:(apply H; lia) ltac:(apply H; lia) ltac:(apply H; lia)
                  ltac:(apply H; lia))).
Defined.

Lemma UDP_write_within_buffer_witness :
  has_buffer (um_udp x_udp) = true
  /\ fst (UDP_write x_udp [3; 4; 5] 3) = 3.
Proof.
  split; [reflexivity|].
  exact (proj1 (UDP_write_within_buffer x_udp [3; 4; 5] 3 eq_refl
                  ltac:(cbn; lia) ltac:(cbn; lia) eq_refl ltac:(lia) ltac:(cbn; lia))).
Defined.

Lemma UDP_write_without_buffer_witness :
  has_buffer (um_udp (mkUDPmem UDP_new [])) = false
  /\ UDP_write (mkUDPmem UDP_new []) [3; 4; 5] 3 = (0, mkUDPmem UDP_new []).
Proof.
  split; [reflexivity|].
  exact (UDP_write_without_buffer (mkUDPmem UDP_new []) [3; 4; 5] 3 eq_refl
           ltac:(lia) ltac:(cbn; lia)).
Defined.


Lemma UDP_parsePacket_then_read_witness :
  let w := world_init x_chip_udp (eth_set_isReady true eth_init) in
  let rp := receivePacket 5 (UDP_flush_buffer (um_udp x_udp)) true 8 0 w in
  rp = (Some (3, [5; 6; 7], udp_set_remote (mkIp4 192 168 2 6) 4550
                              (UDP_flush_buffer (um_udp x_udp))), snd rp)
  /\ exists m', UDP_parsePacket 5 x_udp 0 w = (Some (3, m'), snd rp)
                /\ UDP_available (um_udp m') = 3
                /\ (exists rest, UDP_read_buf m' 2 = Some (2, [5; 6], rest))
                /\ UDP_read_buf m' 4294967295 = None.
Proof.
  cbv zeta.
  set (w := world_init x_chip_udp (eth_set_isReady true eth_init)).
  set (rp := receivePacket 5 (UDP_flush_buffer (um_udp x_udp)) true 8 0 w).
  assert (H0 : rp = (Some (3, [5; 6; 7], udp_set_remote (mkIp4 192 168 2 6) 4550
                                           (UDP_flush_buffer (um_udp x_udp))), snd rp))
    by (vm_compute; reflexivity).
  split; [exact H0|].
  assert (Hb : has_buffer (um_udp x_udp) = true) by reflexivity.
  assert (Hs : udp_buffer_size (um_udp x_udp) <> 0) by (cbn; lia).
  assert (Hfit : 0 < 3 <= udp_buffer_size (um_udp x_udp)) by (cbn; lia).
  assert (Hn : 3 < 65536) by lia.
  assert (Hl : (Z.to_nat 3 <= length [5; 6; 7])%nat) by (cbn; lia).
  destruct (UDP_parsePacket_then_read 5 x_udp 0 w (snd rp) 3 [5; 6; 7] _ Hb Hs H0 Hfit Hn Hl)
    as (m' & H1 & H2 & H3 & H4).
  exists m'. split; [exact H1|]. split; [exact H2|]. split.
  - destruct (H3 2 ltac:(lia)) as (rest & Hr & _). exists rest. exact Hr.
  - apply H4. lia.
Defined.

Lemma UDP_parsePacket_closed_socket_witness :
  has_buffer (um_udp x_udp) = true
  /\ fst (UDP_parsePacket 5 x_udp 0 (world_init sim_idle eth_init))
     = Some (0, um_map UDP_flush_buffer x_udp).
Proof.
  split; [reflexivity|].
  assert (Hs : udp_buffer_size (um_udp x_udp) <> 0) by (cbn; lia).
  assert (Hst : rint (fst (hw_step (GetSockOptStatus (to_uint8 (udp_sock (um_udp x_udp))))
                             (hw (world_init sim_idle eth_init)))) <> SOCK_UDP)
    by (vm_compute; discriminate).
  exact (proj1 (UDP_parsePacket_closed_socket 5 x_udp 0 (world_init sim_idle eth_init)
                  eq_refl Hs Hst)).
Defined.

Lemma UDP_buffer_lifecycle_witness :
  udp_buffer (um_udp (mkUDPmem UDP_new [])) = None
  /\ fst (fst (UDP_setBuffer (mkUDPmem UDP_new []) 512 None []
                 (world_init sim_idle eth_init))) = true
  /\ fst (fst (UDP_setBuffer (mkUDPmem UDP_new []) 512 (Some 7%nat) [1; 2]
                 (world_init sim_idle eth_init))) = true.
Proof.
  assert (Hf : next_block (world_init sim_idle eth_init)
               ∉ live (world_init sim_idle eth_init)) by apply not_elem_of_empty.
  assert (Hm : rint (fst (hw_step (HeapNew 512) (hw (world_init sim_idle eth_init)))) <> 0)
    by (vm_compute; discriminate).
  pose proof (UDP_buffer_lifecycle (mkUDPmem UDP_new []) 512
                (world_init sim_idle eth_init) eq_refl ltac:(lia) Hf) as (Ha & Hb).
  split; [reflexivity|]. split.
  - exact (proj1 (Ha Hm)).
  - exact (proj1 (Hb 7%nat [1; 2])).
Defined.

Lemma UDP_beginPacket_no_memory_witness :
  udp_buffer (um_udp (mkUDPmem UDP_new [])) = None
  /\ fst (fst (UDP_beginPacket_ip (mkUDPmem UDP_new []) x_peer 5000
                 (world_init x_chip_no_memory eth_init))) = 0.
Proof.
  split; [reflexivity|].
  exact (proj1 (UDP_beginPacket_no_memory (mkUDPmem UDP_new []) x_peer 5000
                  (world_init x_chip_no_memory eth_init) eq_refl ltac:(cbn; lia)
                  eq_refl)).
Defined.

Lemma startListener_failures_witness :
  startListener x_server (world_init x_chip_no_socket eth_init)
  = ((false, x_server), snd (socketGetFree (world_init x_chip_no_socket eth_init)))
  /\ fst (startListener x_server (world_init (mkRefusing sim_idle true false) eth_init))
     = (false, x_server)
  /\ fst (startListener x_server (world_init (mkRefusing sim_idle false true) eth_init))
     = (false, srv_set_sock 0 x_server).
Proof.
  split; [|split].
  - refine (proj1 (startListener_failures x_server
                     (world_init x_chip_no_socket eth_init)) _).
    vm_compute. reflexivity.
  - refine (proj1 (proj1 (proj2 (startListener_failures x_server
                     (world_init (mkRefusing sim_idle true false) eth_init))) _ _)).
    + vm_compute. discriminate.
    + vm_compute. reflexivity.
  - refine (proj1 (proj2 (proj2 (startListener_failures x_server
                     (world_init (mkRefusing sim_idle false true) eth_init))) _ _ _)).
    + vm_compute. discriminate.
    + vm_compute. discriminate.
    + vm_compute. discriminate.
Defined.

Lemma link_notified_on_edges_witness :
  ticks_where link_unchanged_pass [sim_down; sim_down] (world_init sim_idle eth_init)
  /\ link_fired (run_ticks [sim_down; sim_down] (world_init sim_idle eth_init))
     = link_fired (world_init sim_idle eth_init).
Proof.
  assert (H : ticks_where link_unchanged_pass [sim_down; sim_down]
                (world_init sim_idle eth_init))
    by (repeat split; vm_compute; reflexivity).
  split; [exact H|].
  exact (proj2 link_notified_on_edges [sim_down; sim_down]
           (world_init sim_idle eth_init) H).
Defined.

Lemma dhcp_without_handlers_never_ready_witness :
  dhcpState (eth x_world_unregistered) <> ATTEMPT
  /\ setup_register_dhcp x_world_unregistered = (tt, x_world_unregistered)
  /\ fst (ready (run_ticks [sim_lease; sim_idle; sim_idle]
                   (snd (withDHCP x_world_unregistered)))) = false.
Proof.
  assert (H : dhcpState (eth x_world_unregistered) <> ATTEMPT) by (cbn; discriminate).
  split; [exact H|]. split.
  - exact (proj1 dhcp_without_handlers_never_ready x_world_unregistered H).
  - exact (proj2 (proj2 dhcp_without_handlers_never_ready
                    [sim_lease; sim_idle; sim_idle] x_world_unregistered eq_refl eq_refl)).
Defined.
